(** * trainingpeaks-cli: the workout compiler, classifier and reporters

    A shallow embedding of the algorithmic core of [tp_cli]
    ([utils/parsing.py], [core/upload.py], [core/classify.py],
    [core/analysis.py]) together with the properties its specification
    states about it.

    Conventions of the embedding.

    - A Python [str] is a [string]; a character is a code point below 256.
      [strip], [lower], [in], [endswith], [split], [int] and [float] follow
      the interpreter on that range.
    - A Python number is a rational ([Q]).  Comparisons of finite floats are
      exact on rationals; the rounding of float arithmetic and the values
      [inf] and [nan] are outside the model.
    - A workout, a DSL entry, a block or a step is a JSON-like [value]; a
      [dict] is an association list in insertion order.
    - An exception is a constructor of [exn]; a function that can raise
      returns a [result].
    - What the sources take from libraries is a parameter of the section
      that needs it: [str] of an object that is not a string ([repr]),
      [json.loads], and the calendar ([strptime], [isocalendar],
      [strftime]).
    - Where identity matters (a report is handed a list of records that
      its caller keeps), records and lists are objects of a store and the
      function is a computation on that store. *)

From stdpp Require Import base option list gmap strings sorting.
From Stdlib Require Import ZArith QArith Qround Lia Lqa.
From Stdlib Require Import Ascii.

Close Scope Q_scope.
Open Scope string_scope.
Open Scope list_scope.

(** ** Exceptions *)

(** [ParseError] is the failure kind the specification names for malformed
    tokens; the sources define no such class, so nothing below builds it. *)
Inductive exn : Type :=
  | ParseError
  | ValueError
  | KeyError
  | TypeError
  | AttributeError
  | OverflowError
  | IndexError.

Inductive result (A : Type) : Type :=
  | Ok (a : A)
  | Raise (e : exn).

Arguments Ok {A} a.
Arguments Raise {A} e.

Definition bind {A B : Type} (r : result A) (k : A -> result B) : result B :=
  match r with
  | Ok a => k a
  | Raise e => Raise e
  end.

Notation "'let*' x ':=' c 'in' k" := (bind c (fun x => k))
  (at level 10, x pattern, c at level 100, k at level 200).

Definition returns {A : Type} (r : result A) : Prop := exists a, r = Ok a.

(** ** Strings *)

Module Str.

Definition code (c : ascii) : N := Ascii.N_of_ascii c.

(** [str.isspace] on code points below 256. *)
Definition is_space (c : ascii) : bool :=
  let n := code c in
  ((9 <=? n) && (n <=? 13) || (28 <=? n) && (n <=? 32)
   || (n =? 133) || (n =? 160))%N.

Definition is_digit (c : ascii) : bool :=
  let n := code c in ((48 <=? n) && (n <=? 57))%N.

Definition digit_val (c : ascii) : Z := Z.of_N (code c) - 48.

(** [str.lower] on one code point below 256. *)
Definition lower_char (c : ascii) : ascii :=
  let n := code c in
  if ((65 <=? n) && (n <=? 90)
      || (192 <=? n) && (n <=? 222) && negb (n =? 215))%N
  then Ascii.ascii_of_N (n + 32) else c.

Fixpoint lower (s : string) : string :=
  match s with
  | EmptyString => EmptyString
  | String c r => String (lower_char c) (lower r)
  end.

Fixpoint lstrip (s : string) : string :=
  match s with
  | EmptyString => EmptyString
  | String c r => if is_space c then lstrip r else s
  end.

Fixpoint rstrip (s : string) : string :=
  match s with
  | EmptyString => EmptyString
  | String c r =>
      match rstrip r with
      | EmptyString => if is_space c then EmptyString else String c EmptyString
      | r' => String c r'
      end
  end.

Definition strip (s : string) : string := rstrip (lstrip s).

Fixpoint startswith (p s : string) : bool :=
  match p, s with
  | EmptyString, _ => true
  | String a p', String b s' => Ascii.eqb a b && startswith p' s'
  | String _ _, EmptyString => false
  end.

(** [needle in hay]. *)
Fixpoint contains (needle hay : string) : bool :=
  startswith needle hay
  || match hay with
     | EmptyString => false
     | String _ r => contains needle r
     end.

Definition endswith (s suffix : string) : bool :=
  let n := String.length s in
  let k := String.length suffix in
  (k <=? n)%nat && String.eqb (String.substring (n - k) k s) suffix.

(** [s[:-k]]. *)
Definition drop_last (k : nat) (s : string) : string :=
  String.substring 0 (String.length s - k) s.

(** [s[:k]]. *)
Definition take (k : nat) (s : string) : string :=
  String.substring 0 k s.

(** [s.split(sep)] for a one-character separator. *)
Fixpoint split (sep : ascii) (s : string) : list string :=
  match s with
  | EmptyString => [EmptyString]
  | String c r =>
      if Ascii.eqb c sep then EmptyString :: split sep r
      else match split sep r with
           | [] => [String c EmptyString]
           | p :: ps => String c p :: ps
           end
  end.

(** [sep.join(parts)]. *)
Fixpoint join (sep : string) (parts : list string) : string :=
  match parts with
  | [] => EmptyString
  | [p] => p
  | p :: ps => (p ++ sep ++ join sep ps)%string
  end.

End Str.

(** ** Numbers read from strings *)

Module Num.

(** [digit (["_"] digit)*] after its first digit: the value read so far,
    the number of digits, and what is left. *)
Fixpoint digitpart_go (s : string) (acc : Z) (n : nat) : Z * nat * string :=
  match s with
  | String c r =>
      if Str.is_digit c
      then digitpart_go r (10 * acc + Str.digit_val c) (S n)
      else if Ascii.eqb c "_"
      then match r with
           | String c' r' =>
               if Str.is_digit c'
               then digitpart_go r' (10 * acc + Str.digit_val c') (S n)
               else (acc, n, s)
           | EmptyString => (acc, n, s)
           end
      else (acc, n, s)
  | EmptyString => (acc, n, s)
  end.

Definition digitpart (s : string) : option (Z * nat * string) :=
  match s with
  | String c r =>
      if Str.is_digit c then Some (digitpart_go r (Str.digit_val c) 1)
      else None
  | EmptyString => None
  end.

(** An optional sign: [true] for a minus. *)
Definition sign (s : string) : bool * string :=
  match s with
  | String "-" r => (true, r)
  | String "+" r => (false, r)
  | _ => (false, s)
  end.

Definition signed (neg : bool) (z : Z) : Z := if neg then (- z)%Z else z.

(** [int(s)] for a string [s], base 10; [None] stands for [ValueError].
    The interpreter's optional limit on the number of digits is not
    modelled. *)
Definition py_int (s : string) : option Z :=
  let '(neg, body) := sign (Str.strip s) in
  match digitpart body with
  | Some (v, _, EmptyString) => Some (signed neg v)
  | _ => None
  end.

(** What [float(s)] denotes for a string [s]. *)
Inductive pyfloat : Type :=
  | Fin (q : Q)
  | Inf (neg : bool)
  | NaN.

(** [[digitpart] "." digitpart | digitpart ["."]]: mantissa, number of
    fractional digits, rest. *)
Definition number (s : string) : option (Z * nat * string) :=
  match digitpart s with
  | Some (i, _, String "." r) =>
      match digitpart r with
      | Some (f, nf, r') => Some ((i * 10 ^ Z.of_nat nf + f)%Z, nf, r')
      | None => Some (i, 0%nat, r)
      end
  | Some (i, _, r) => Some (i, 0%nat, r)
  | None =>
      match s with
      | String "." r =>
          match digitpart r with
          | Some (f, nf, r') => Some (f, nf, r')
          | None => None
          end
      | _ => None
      end
  end.

(** [("e" | "E") [sign] digitpart], or nothing. *)
Definition exponent (s : string) : option Z :=
  match s with
  | EmptyString => Some 0%Z
  | String c r =>
      if Ascii.eqb c "e" || Ascii.eqb c "E"
      then let '(neg, body) := sign r in
           match digitpart body with
           | Some (v, _, EmptyString) => Some (signed neg v)
           | _ => None
           end
      else None
  end.

(** [float(s)] for a string [s]; [None] stands for [ValueError].  The
    result is the exact decimal value, not its nearest double. *)
Definition py_float (s : string) : option pyfloat :=
  let '(neg, body) := sign (Str.strip s) in
  let word := Str.lower body in
  if String.eqb word "inf" || String.eqb word "infinity" then Some (Inf neg)
  else if String.eqb word "nan" then Some NaN
  else match number body with
       | Some (m, nf, r) =>
           match exponent r with
           | Some e =>
               Some (Fin (inject_Z (signed neg m)
                          * Qpower (10 # 1) (e - Z.of_nat nf))%Q)
           | None => None
           end
       | None => None
       end.

(** [int(x)] for a number: truncation towards zero. *)
Definition trunc (q : Q) : Z := Z.quot (Qnum q) (Zpos (Qden q)).

(** [int(x)] for what [float(s)] denotes. *)
Definition int_of_pyfloat (x : pyfloat) : result Z :=
  match x with
  | Fin q => Ok (trunc q)
  | Inf _ => Raise OverflowError
  | NaN => Raise ValueError
  end.

End Num.

(** ** Zone classification ([core/classify.py], [core/constants.py]) *)

Inductive zone : Type := easy | lt1 | lt2 | vo2.

Definition zone_label (z : zone) : string :=
  match z with
  | easy => "easy"
  | lt1 => "lt1"
  | lt2 => "lt2"
  | vo2 => "vo2"
  end.


Definition DEFAULT_ZONE_THRESHOLDS : gmap string Q :=
  <["easy_max" := 75%Q]> (<["lt1_max" := 93%Q]> (<["lt2_max" := 100%Q]> ∅)).

Definition _EASY_CLASSES : gset string :=
  {[ "warmup"; "cooldown"; "rest"; "recovery" ]}.

(** [thresholds[key]]. *)
Definition threshold (thresholds : gmap string Q) (key : string) : result Q :=
  match thresholds !! key with
  | Some q => Ok q
  | None => Raise KeyError
  end.

(** [s.strip().lower()], the normalization applied to a block type and to
    an intensity class. *)
Definition norm (s : string) : string := Str.lower (Str.strip s).

Definition classify_zone (pct : Q) (block_type intensity_class : string)
    (thresholds : gmap string Q) : result zone :=
  let block_type_norm := norm block_type in
  if String.eqb block_type_norm "rampup" then Ok easy
  else if bool_decide (norm intensity_class ∈ _EASY_CLASSES) then Ok easy
  else
    let* easy_max := threshold thresholds "easy_max" in
    if Qle_bool pct easy_max then Ok easy
    else
      let* lt1_max := threshold thresholds "lt1_max" in
      if Qle_bool pct lt1_max then Ok lt1
      else
        let* lt2_max := threshold thresholds "lt2_max" in
        if Qle_bool pct lt2_max then Ok lt2 else Ok vo2.

(** ** Week patterns ([core/analysis.py]) *)

Definition Qlt_bool (x y : Q) : bool := negb (Qle_bool y x).

Definition classify_week (total_distance : Q) (total_sessions : Z)
    (has_race : bool) (delta_pct : option Q) : string :=
  if has_race then "race"
  else if (total_sessions <=? 2)%Z && Qlt_bool total_distance 20000 then "off"
  else match delta_pct with
       | None => "start"
       | Some delta =>
           if Qlt_bool delta (-25) then "recovery"
           else if Qlt_bool 15 delta then "build"
           else "maintenance"
       end.

(** ** JSON-like values and the interpreter's operations on them *)

#[warnings="-register-all"]
Inductive value : Type :=
  | VNone
  | VBool (b : bool)
  | VNum (q : Q)
  | VStr (s : string)
  | VList (l : list value)
  | VDict (d : list (string * value)).

Module Py.

(** Truth value of an object. *)
Definition truthy (v : value) : bool :=
  match v with
  | VNone => false
  | VBool b => b
  | VNum q => negb (Qeq_bool q 0)
  | VStr s => negb (String.eqb s "")
  | VList l => match l with [] => false | _ => true end
  | VDict d => match d with [] => false | _ => true end
  end.

(** [a or b]. *)
Definition or_ (a b : value) : value := if truthy a then a else b.

(** The binding of [key] in a dict. *)
Fixpoint lookup (d : list (string * value)) (key : string) : option value :=
  match d with
  | [] => None
  | (k, v) :: rest => if String.eqb k key then Some v else lookup rest key
  end.

(** [d.get(key, dflt)] on a dict. *)
Definition dget (d : list (string * value)) (key : string) (dflt : value)
    : value :=
  match lookup d key with
  | Some v => v
  | None => dflt
  end.

(** [key in d]. *)
Definition has_key (d : list (string * value)) (key : string) : bool :=
  match lookup d key with
  | Some _ => true
  | None => false
  end.

(** [v.get(key, dflt)] on any object: only a dict has [get]. *)
Definition get (v : value) (key : string) (dflt : value) : result value :=
  match v with
  | VDict d => Ok (dget d key dflt)
  | _ => Raise AttributeError
  end.

(** [v[key]] for a string key. *)
Definition item (v : value) (key : string) : result value :=
  match v with
  | VDict d =>
      match lookup d key with
      | Some x => Ok x
      | None => Raise KeyError
      end
  | _ => Raise TypeError
  end.

(** [float(v)].  A string denoting [inf] or [nan] is outside the rational
    model and is reported as [OverflowError]. *)
Definition float_ (v : value) : result Q :=
  match v with
  | VNum q => Ok q
  | VBool b => Ok (if b then 1 else 0)%Q
  | VStr s =>
      match Num.py_float s with
      | Some (Num.Fin q) => Ok q
      | Some _ => Raise OverflowError
      | None => Raise ValueError
      end
  | _ => Raise TypeError
  end.

(** [v == s] for a string [s]. *)
Definition eq_str (v : value) (s : string) : bool :=
  match v with
  | VStr t => String.eqb t s
  | _ => false
  end.

Definition is_dict (v : value) : bool :=
  match v with VDict _ => true | _ => false end.

End Py.

(** ** Length and target tokens ([utils/parsing.py]) *)

(** [float(s)] and [int(s)] for a string, with their [ValueError]. *)
Definition float_of_str (s : string) : result Num.pyfloat :=
  match Num.py_float s with
  | Some x => Ok x
  | None => Raise ValueError
  end.

Definition int_of_str (s : string) : result Z :=
  match Num.py_int s with
  | Some z => Ok z
  | None => Raise ValueError
  end.

(** [x * k] for a positive constant [k]. *)
Definition scale_pyfloat (x : Num.pyfloat) (k : Q) : Num.pyfloat :=
  match x with
  | Num.Fin q => Num.Fin (q * k)
  | other => other
  end.

Definition parse_length (value : string) : result (Z * string) :=
  let raw := Str.strip value in
  if Str.endswith raw "km" then
    let* x := float_of_str (Str.drop_last 2 raw) in
    let* n := Num.int_of_pyfloat (scale_pyfloat x 1000) in
    Ok (n, "meter")
  else if Str.endswith raw "m" then
    let* x := float_of_str (Str.drop_last 1 raw) in
    let* n := Num.int_of_pyfloat x in
    Ok (n, "meter")
  else
    match Str.split ":" raw with
    | [mm; ss] =>
        let* m := int_of_str mm in
        let* s := int_of_str ss in
        Ok (m * 60 + s, "second")%Z
    | [hh; mm; ss] =>
        let* h := int_of_str hh in
        let* m := int_of_str mm in
        let* s := int_of_str ss in
        Ok (h * 3600 + m * 60 + s, "second")%Z
    | _ =>
        let* n := int_of_str raw in
        Ok (n, "second")
    end.

(** [parse_length(v)] for an object taken from a DSL entry: only a string
    has [strip]. *)
Definition parse_length_of (v : value) : result (Z * string) :=
  match v with
  | VStr s => parse_length s
  | _ => Raise AttributeError
  end.

Definition parse_duration (v : value) : result Z :=
  let* (parsed, _) := parse_length_of v in
  Ok parsed.

(** The greedy run [\d+] at the start of a string, and what follows it. *)
Fixpoint digits_go (s : string) (acc : Z) : Z * string :=
  match s with
  | String c r =>
      if Str.is_digit c then digits_go r (10 * acc + Str.digit_val c)
      else (acc, s)
  | EmptyString => (acc, s)
  end.

Definition leading_digits (s : string) : option (Z * string) :=
  match s with
  | String c r =>
      if Str.is_digit c then Some (digits_go r (Str.digit_val c)) else None
  | EmptyString => None
  end.

(** [re.match(r"(\d+)", s)]: the integer of group 1. *)
Definition match_single (s : string) : option Z :=
  match leading_digits s with
  | Some (n, _) => Some n
  | None => None
  end.

(** [re.match(r"(\d+)-(\d+)", s)]: the integers of groups 1 and 2. *)
Definition match_range (s : string) : option (Z * Z) :=
  match leading_digits s with
  | Some (lo, String "-" r) =>
      match leading_digits r with
      | Some (hi, _) => Some (lo, hi)
      | None => None
      end
  | _ => None
  end.

Definition parse_target (value : value) : result (option Z) :=
  if negb (Py.truthy value) then Ok None
  else match value with
       | VStr s => Ok (match_single s)
       | _ => Raise TypeError
       end.

(** ** The DSL compiler ([utils/parsing.py]) *)

Definition VInt (z : Z) : value := VNum (inject_Z z).

Definition opt_int (o : option Z) : value :=
  match o with
  | Some z => VInt z
  | None => VNone
  end.

(** [[{"minValue": parse_target(t)}] if t else []]. *)
Definition min_targets (t : value) : result value :=
  if Py.truthy t then
    let* parsed := parse_target t in
    Ok (VList [VDict [("minValue", opt_int parsed)]])
  else Ok (VList []).

(** The target list of the "on" leg of an interval. *)
Definition on_targets_of (on_target : value) : result value :=
  if Py.truthy on_target then
    match on_target with
    | VStr s =>
        match match_range s with
        | Some (lo, hi) =>
            Ok (VList [VDict [("minValue", VInt lo); ("maxValue", VInt hi)]])
        | None =>
            match match_single s with
            | Some parsed => Ok (VList [VDict [("minValue", VInt parsed)]])
            | None => Ok (VList [])
            end
        end
    | _ => Raise TypeError
    end
  else Ok (VList []).

Definition length_dict (v : value) (unit : string) : value :=
  VDict [("value", v); ("unit", VStr unit)].

Definition step_dict (name : value) (len : value) (targets : value)
    (intensity_class : string) : value :=
  VDict [("name", name); ("length", len); ("targets", targets);
         ("intensityClass", VStr intensity_class);
         ("openDuration", VBool false)].

Definition block_dict (type : string) (count : value) (steps : list value)
    : value :=
  VDict [("type", VStr type); ("length", length_dict count "repetition");
         ("steps", VList steps)].

(** The pending warm-up steps leave the buffer as one rampUp block. *)
Definition flush_warmup (blocks warmup_steps : list value) : list value :=
  match warmup_steps with
  | [] => blocks
  | _ => blocks ++ [block_dict "rampUp" (VInt 1) warmup_steps]
  end.

(** The repetition block of an interval entry [d]. *)
Definition interval_block (d : list (string * value))
    (on_value : Z) (on_unit : string) (on_targets : value)
    (off_value : Z) (off_unit : string) (off_targets : value) : value :=
  block_dict "repetition" (Py.dget d "reps" (VInt 1))
    [ step_dict (Py.dget d "on_name" (Py.dget d "name" (VStr "")))
        (length_dict (VInt on_value) on_unit) on_targets "active";
      step_dict (Py.dget d "off_name" (VStr "Easy"))
        (length_dict (VInt off_value) off_unit) off_targets "rest" ].

(** One turn of the loop of [simple_to_tp_structure] on the state
    [(blocks, warmup_steps)]. *)
Definition compile_entry (step : value) (st : list value * list value)
    : result (list value * list value) :=
  let '(blocks, warmup_steps) := st in
  let* step_type := Py.item step "type" in
  match step with
  | VDict d =>
      if Py.eq_str step_type "warmup" then
        let* duration := Py.item step "duration" in
        let* (dur_value, dur_unit) := parse_length_of duration in
        let* targets := min_targets (Py.dget d "target" VNone) in
        let entry :=
          step_dict (Py.dget d "name" (VStr ""))
            (length_dict (VInt dur_value) dur_unit) targets
            (match warmup_steps with [] => "warmUp" | _ => "active" end) in
        Ok (blocks, warmup_steps ++ [entry])
      else if Py.eq_str step_type "interval" then
        let* on := Py.item step "on" in
        let* (on_value, on_unit) := parse_length_of on in
        let* off := Py.item step "off" in
        let* (off_value, off_unit) := parse_length_of off in
        let* on_targets := on_targets_of (Py.dget d "on_target" VNone) in
        let blocks := flush_warmup blocks warmup_steps in
        let* off_targets := min_targets (Py.dget d "off_target" VNone) in
        Ok (blocks ++ [interval_block d on_value on_unit on_targets
                         off_value off_unit off_targets], [])
      else
        let blocks := flush_warmup blocks warmup_steps in
        if Py.eq_str step_type "cooldown" then
          let* duration := Py.item step "duration" in
          let* seconds := parse_duration duration in
          let* targets := min_targets (Py.dget d "target" VNone) in
          Ok (blocks ++ [block_dict "step" (VInt 1)
                [step_dict (Py.dget d "name" (VStr "Cool Down"))
                   (length_dict (VInt seconds) "second") targets
                   "coolDown"]], [])
        else if Py.eq_str step_type "steady" then
          let* duration := Py.item step "duration" in
          let* seconds := parse_duration duration in
          let* targets := min_targets (Py.dget d "target" VNone) in
          Ok (blocks ++ [block_dict "step" (VInt 1)
                [step_dict (Py.dget d "name" (VStr ""))
                   (length_dict (VInt seconds) "second") targets
                   "active"]], [])
        else Ok (blocks, [])
  | _ => Raise TypeError
  end.

Fixpoint compile_loop (steps : list value) (st : list value * list value)
    : result (list value * list value) :=
  match steps with
  | [] => Ok st
  | step :: rest =>
      let* st' := compile_entry step st in
      compile_loop rest st'
  end.

Definition simple_to_tp_structure (steps : list value)
    (intensity_metric : string) : result value :=
  let* (blocks, warmup_steps) := compile_loop steps ([], []) in
  Ok (VDict [("primaryIntensityMetric", VStr intensity_metric);
             ("structure", VList (flush_warmup blocks warmup_steps))]).




(** A target taken from a DSL entry is absent (or otherwise false) or a
    string. *)
Definition target_typed (t : value) : Prop :=
  Py.truthy t = true -> exists s, t = VStr s.

(** ** The duration and distance estimator ([core/upload.py]) *)

(** [int(v)] for an object. *)
Definition int_ (v : value) : result Z :=
  match v with
  | VNum q => Ok (Num.trunc q)
  | VBool b => Ok (if b then 1 else 0)%Z
  | VStr s => int_of_str s
  | _ => Raise TypeError
  end.

Definition _pct_to_speed (target_str : value) (threshold_speed : Q) : result Q :=
  if negb (Py.truthy target_str) then Ok (threshold_speed * (72 # 100))%Q
  else match target_str with
       | VStr s =>
           match match_range s with
           | Some (lo, hi) =>
               let mid := ((inject_Z lo + inject_Z hi) / 2)%Q in
               Ok (threshold_speed * (mid / 100))%Q
           | None =>
               match match_single s with
               | Some pct => Ok (threshold_speed * (inject_Z pct / 100))%Q
               | None => Ok (threshold_speed * (72 # 100))%Q
               end
           end
       | _ => Raise TypeError
       end.

(** One leg of the estimate on the totals [(total_seconds, total_meters)]. *)
Definition leg (value : Z) (unit : string) (speed : Q) (totals : Q * Q) : Q * Q :=
  let '(total_seconds, total_meters) := totals in
  if String.eqb unit "second" then
    (total_seconds + inject_Z value, total_meters + inject_Z value * speed)%Q
  else
    (total_seconds + (if Qlt_bool 0 speed then inject_Z value / speed else 0),
     total_meters + inject_Z value)%Q.

(** [int(total + 0.5)]. *)
Definition round_total (total : Q) : Z := Num.trunc (total + (1 # 2))%Q.

(** Rounding half up: the nearest integer, a tie going to the upper one. *)
Definition half_up (x : Q) (r : Z) : Prop :=
  (inject_Z r - (1 # 2) <= x)%Q /\ (x < inject_Z r + (1 # 2))%Q.

Section Estimator.

(** [str(v)] for an object that is not a string is left to the interpreter. *)
Variable repr : value -> string.

Definition str_ (v : value) : string :=
  match v with
  | VStr s => s
  | _ => repr v
  end.

(** One turn of the loop of [calc_time_and_distance]. *)
Definition estimate_entry (threshold_speed : Q) (step : value) (totals : Q * Q)
    : result (Q * Q) :=
  let* step_type := Py.get step "type" VNone in
  if Py.eq_str step_type "warmup" || Py.eq_str step_type "steady"
     || Py.eq_str step_type "cooldown" then
    let* duration := Py.item step "duration" in
    let* (dur_value, dur_unit) := parse_length (str_ duration) in
    let* target := Py.get step "target" VNone in
    let* speed := _pct_to_speed target threshold_speed in
    Ok (leg dur_value dur_unit speed totals)
  else if Py.eq_str step_type "interval" then
    let* reps_raw := Py.get step "reps" (VInt 1) in
    let* reps := int_ reps_raw in
    let* on := Py.item step "on" in
    let* (on_value, on_unit) := parse_length (str_ on) in
    let* off := Py.item step "off" in
    let* (off_value, off_unit) := parse_length (str_ off) in
    let* on_target := Py.get step "on_target" VNone in
    let* on_speed := _pct_to_speed on_target threshold_speed in
    let* off_target := Py.get step "off_target" VNone in
    let* off_speed := _pct_to_speed off_target threshold_speed in
    Ok (Nat.iter (Z.to_nat reps)
          (fun t => leg off_value off_unit off_speed
                      (leg on_value on_unit on_speed t))
          totals)
  else Ok totals.

Fixpoint estimate_loop (threshold_speed : Q) (steps : list value)
    (totals : Q * Q) : result (Q * Q) :=
  match steps with
  | [] => Ok totals
  | step :: rest =>
      let* totals' := estimate_entry threshold_speed step totals in
      estimate_loop threshold_speed rest totals'
  end.

Definition calc_time_and_distance (steps : list value) (threshold_speed : Q)
    : result (Z * Z) :=
  let* (total_seconds, total_meters) :=
    estimate_loop threshold_speed steps (0, 0)%Q in
  Ok (round_total total_seconds, round_total total_meters).



End Estimator.




(** ** The workout-type classifier ([core/classify.py]) *)

Definition TYPE_RULES : list (string * list string) :=
  [ ("race", ["race"; "competition"; "event"; "marathon"; "triathlon"; "70.3"]);
    ("test", ["test"; "ftp test"; "time trial"; "benchmark"; "ramp test"]);
    ("vo2", ["vo2"; "vo2max"; "zone 5"; "z5"]);
    ("sprint", ["sprint"; "anaerobic"; "zone 6"; "z6"; "neuromuscular"; "20/40"]);
    ("lt2", ["lt2"; "lactate threshold"; "threshold"; "zone 4"; "z4"; "ftp";
             "over under"; "sweetspot"; "sst"]);
    ("lt1", ["lt1"; "aerobic threshold"; "tempo"; "zone 3"; "z3"; "sweet spot"]);
    ("long", ["long run"; "long ride"; "long swim"; "endurance long";
              "weekend long"]);
    ("strength", ["strength"; "gym"; "weights"; "dryland"; "core"]);
    ("easy", ["easy"; "recovery"; "endurance"; "zone 1"; "zone 2"; "z1"; "z2";
              "base z2"; "warm down"; "spin"; "technique"]) ].

Definition _PRIORITY_KEYWORD_TYPES : gset string :=
  {[ "race"; "test"; "strength"; "long"; "sprint" ]}.

(** A value for each of the four zones: the dicts [zone_loads],
    [zone_counts] and the zone-distance map. *)
Record zones (A : Type) : Type := Zones {
  z_easy : A;
  z_lt1 : A;
  z_lt2 : A;
  z_vo2 : A
}.

Arguments Zones {A} _ _ _ _.
Arguments z_easy {A} _.
Arguments z_lt1 {A} _.
Arguments z_lt2 {A} _.
Arguments z_vo2 {A} _.

Definition zone_get {A : Type} (m : zones A) (z : zone) : A :=
  match z with
  | easy => z_easy m
  | lt1 => z_lt1 m
  | lt2 => z_lt2 m
  | vo2 => z_vo2 m
  end.

(** [m[z] = f(m[z])]. *)
Definition zone_update {A : Type} (m : zones A) (z : zone) (f : A -> A) : zones A :=
  match z with
  | easy => Zones (f (z_easy m)) (z_lt1 m) (z_lt2 m) (z_vo2 m)
  | lt1 => Zones (z_easy m) (f (z_lt1 m)) (z_lt2 m) (z_vo2 m)
  | lt2 => Zones (z_easy m) (z_lt1 m) (f (z_lt2 m)) (z_vo2 m)
  | vo2 => Zones (z_easy m) (z_lt1 m) (z_lt2 m) (f (z_vo2 m))
  end.

(** [try: ... except (TypeError, ValueError): dflt]. *)
Definition except_type_value {A : Type} (r : result A) (dflt : A) : result A :=
  match r with
  | Raise TypeError | Raise ValueError => Ok dflt
  | other => other
  end.

Definition _as_percent (value : value) : result Q :=
  let* pct := except_type_value (Py.float_ value) 0%Q in
  if Qle_bool pct 0 then Ok 0%Q
  else Ok (if Qle_bool pct 2 then pct * 100 else pct)%Q.

Definition _step_intensity_pct (step : list (string * value)) : result Q :=
  match Py.dget step "targets" VNone with
  | VList (target :: _) =>
      match target with
      | VDict t =>
          let* min_pct := _as_percent (Py.dget t "minValue" VNone) in
          let* max_pct := _as_percent (Py.dget t "maxValue" VNone) in
          if Qlt_bool 0 min_pct && Qlt_bool 0 max_pct
          then Ok ((min_pct + max_pct) / 2)%Q
          else if Qlt_bool 0 min_pct then Ok min_pct
          else if Qlt_bool 0 max_pct then Ok max_pct
          else _as_percent (Py.dget t "value" VNone)
      | _ => Ok 0%Q
      end
  | _ => Ok 0%Q
  end.

(** The running state of [_classify_from_structure]. *)
Record tally : Type := Tally {
  zone_loads : zones Q;
  zone_counts : zones Z;
  has_intensity_targets : bool;
  max_pct : Q
}.

Definition tally0 : tally :=
  Tally (Zones 0 0 0 0)%Q (Zones 0 0 0 0)%Z false 0%Q.

(** [max(a, b)]. *)
Definition py_max (a b : Q) : Q := if Qlt_bool a b then b else a.

(** The load credited to one step: its seconds times the repetition count,
    or the flat 30 seconds of a step that has an intensity but no
    duration. *)
Definition step_load (seconds : Q) (rep_count : Z) (pct : Q) : Q :=
  let load := (seconds * inject_Z (Z.max rep_count 1))%Q in
  if Qle_bool load 0 && Qlt_bool 0 pct then 30%Q else load.

(** The decision at the end of [_classify_from_structure]. *)
Definition structure_label (t : tally) : option string :=
  if negb (has_intensity_targets t) then None
  else
    let vo2_load := z_vo2 (zone_loads t) in
    let hard_load := (z_lt2 (zone_loads t) + vo2_load)%Q in
    let lt1_load := z_lt1 (zone_loads t) in
    if Qle_bool 180 vo2_load
       || (2 <=? z_vo2 (zone_counts t))%Z && Qlt_bool 105 (max_pct t)
    then Some "vo2"
    else if Qle_bool 180 hard_load
            || (2 <=? z_lt2 (zone_counts t) + z_vo2 (zone_counts t))%Z
    then Some "lt2"
    else if Qle_bool 300 lt1_load || (2 <=? z_lt1 (zone_counts t))%Z
    then Some "lt1"
    else Some "easy".

Section Classifier.

Variable repr : value -> string.

(** [json.loads]; [None] when it raises. *)
Variable json_loads : string -> option value.

Definition _normalized_text (workout : list (string * value)) : string :=
  Str.lower
    (Str.join " "
       [ str_ repr (Py.or_ (Py.dget workout "title" VNone) (VStr ""));
         str_ repr (Py.or_ (Py.dget workout "description" VNone) (VStr ""));
         str_ repr (Py.or_ (Py.dget workout "coachComments" VNone) (VStr ""));
         str_ repr (Py.or_ (Py.dget workout "userTags" VNone) (VStr "")) ]).

(** [any(keyword in text for keyword in keywords)]. *)
Definition rule_matches (text : string) (keywords : list string) : bool :=
  existsb (fun keyword => Str.contains keyword text) keywords.

Fixpoint first_match (text : string) (rules : list (string * list string))
    : string :=
  match rules with
  | [] => "other"
  | (workout_type, keywords) :: rest =>
      if rule_matches text keywords then workout_type
      else first_match text rest
  end.

Definition _classify_by_keywords (workout : list (string * value))
    (rules : list (string * list string)) : string :=
  first_match (_normalized_text workout) rules.

Definition _parse_structure_value (raw : value) : option value :=
  match raw with
  | VNone => None
  | VStr s => json_loads s
  | _ => Some raw
  end.

Definition _normalize_blocks (raw_blocks : value) : list value :=
  match raw_blocks with
  | VList blocks =>
      let dict_blocks := filter (fun b => Py.is_dict b = true) blocks in
      match dict_blocks with
      | [] => []
      | _ =>
          if forallb (fun b => match b with
                               | VDict d => negb (Py.has_key d "steps")
                               | _ => true
                               end) dict_blocks
          then [VDict [("type", VStr "step");
                       ("length", VDict [("value", VInt 1);
                                         ("unit", VStr "repetition")]);
                       ("steps", VList dict_blocks)]]
          else dict_blocks
      end
  | _ => []
  end.

(** The loop of [_extract_structure] over the keys still to try. *)
Fixpoint extract_from (workout : list (string * value)) (keys : list string)
    (metric : string) : list value * string :=
  match keys with
  | [] => ([], metric)
  | key :: rest =>
      match _parse_structure_value (Py.dget workout key VNone) with
      | None => extract_from workout rest metric
      | Some (VDict parsed) =>
          let metric :=
            str_ repr (Py.or_ (Py.dget parsed "primaryIntensityMetric" VNone)
                         (VStr metric)) in
          let blocks :=
            Py.or_ (Py.dget parsed "structure" VNone)
                   (Py.dget parsed "steps" VNone) in
          match _normalize_blocks blocks with
          | [] => extract_from workout rest metric
          | normalized => (normalized, metric)
          end
      | Some parsed =>
          match _normalize_blocks parsed with
          | [] => extract_from workout rest metric
          | normalized => (normalized, metric)
          end
      end
  end.

Definition _extract_structure (workout : list (string * value))
    : list value * string :=
  extract_from workout ["structuredSteps"; "structuredWorkout"; "structure"]
    (str_ repr (Py.or_ (Py.dget workout "primaryIntensityMetric" VNone)
                  (VStr ""))).

Definition _length_to_seconds (length : value) : result Q :=
  let* unit_raw := Py.get length "unit" VNone in
  let unit := Str.lower (str_ repr (Py.or_ unit_raw (VStr ""))) in
  let* value_raw := Py.get length "value" VNone in
  match Py.float_ (Py.or_ value_raw (VInt 0)) with
  | Raise TypeError | Raise ValueError => Ok 0%Q
  | Raise e => Raise e
  | Ok value =>
      if Qle_bool value 0 then Ok 0%Q
      else if String.eqb unit "second" then Ok value
      else if String.eqb unit "minute" then Ok (value * 60)%Q
      else if String.eqb unit "hour" then Ok (value * 3600)%Q
      else if String.eqb unit "meter" then Ok (value / 4)%Q
      else if String.eqb unit "kilometer" then Ok (value * 250)%Q
      else Ok 0%Q
  end.

(** [rep_count] of a block. *)
Definition block_rep_count (block : list (string * value)) (block_type : string)
    : result Z :=
  if String.eqb (norm block_type) "repetition" then
    let* raw := Py.get (Py.dget block "length" (VDict [])) "value" VNone in
    except_type_value
      (let* x := Py.float_ (Py.or_ raw (VInt 1)) in Ok (Num.trunc x)) 1%Z
  else Ok 1%Z.

(** One turn of the inner loop of [_classify_from_structure]. *)
Definition tally_step (block_type : string) (rep_count : Z)
    (step : list (string * value)) (t : tally) : result tally :=
  let* pct := _step_intensity_pct step in
  let has_targets := has_intensity_targets t || Qlt_bool 0 pct in
  let top := if Qlt_bool 0 pct then py_max (max_pct t) pct else max_pct t in
  let* zone :=
    classify_zone pct block_type
      (str_ repr (Py.or_ (Py.dget step "intensityClass" VNone) (VStr "active")))
      DEFAULT_ZONE_THRESHOLDS in
  let* seconds := _length_to_seconds (Py.dget step "length" (VDict [])) in
  let load := step_load seconds rep_count pct in
  Ok (Tally (zone_update (zone_loads t) zone (fun x => x + load)%Q)
        (if Qlt_bool 0 pct
         then zone_update (zone_counts t) zone (fun n => n + 1)%Z
         else zone_counts t)
        has_targets top).

Fixpoint tally_steps (block_type : string) (rep_count : Z)
    (steps : list value) (t : tally) : result tally :=
  match steps with
  | [] => Ok t
  | VDict step :: rest =>
      let* t' := tally_step block_type rep_count step t in
      tally_steps block_type rep_count rest t'
  | _ :: rest => tally_steps block_type rep_count rest t
  end.

(** One turn of the outer loop of [_classify_from_structure]; the blocks
    that [_extract_structure] returns are dicts. *)
Definition tally_block (block : value) (t : tally) : result tally :=
  match block with
  | VDict b =>
      let block_type := str_ repr (Py.or_ (Py.dget b "type" VNone) (VStr "step")) in
      let* rep_count := block_rep_count b block_type in
      match Py.dget b "steps" VNone with
      | VList steps_raw => tally_steps block_type rep_count steps_raw t
      | _ => Ok t
      end
  | _ => Raise AttributeError
  end.

Fixpoint tally_blocks (blocks : list value) (t : tally) : result tally :=
  match blocks with
  | [] => Ok t
  | block :: rest =>
      let* t' := tally_block block t in
      tally_blocks rest t'
  end.

Definition _classify_from_structure (workout : list (string * value))
    : result (option string) :=
  match fst (_extract_structure workout) with
  | [] => Ok None
  | blocks =>
      let* t := tally_blocks blocks tally0 in
      Ok (structure_label t)
  end.

Definition _classify_with_source (workout : list (string * value))
    (rules : list (string * list string)) : result (string * string) :=
  let keyword_label := _classify_by_keywords workout rules in
  if bool_decide (keyword_label ∈ _PRIORITY_KEYWORD_TYPES)
  then Ok (keyword_label, "keyword")
  else
    let* structure_label := _classify_from_structure workout in
    match structure_label with
    | Some label => Ok (label, "structure")
    | None => Ok (keyword_label, "keyword")
    end.

Definition classify_workout (workout : list (string * value))
    (rules : list (string * list string)) : result string :=
  let* (label, _) := _classify_with_source workout rules in
  Ok label.

End Classifier.

(** [needle] occurs in [hay]. *)
Definition substring (needle hay : string) : Prop :=
  exists before after, hay = (before ++ needle ++ after)%string.

(** The workout of the unit test on keyword priority: a race title on a
    structure of 15 minutes at 96-100%. *)
Definition race_workout : list (string * value) :=
  [ ("title", VStr "Race day prep");
    ("description", VStr "Local race effort");
    ("structure",
     VDict [("primaryIntensityMetric", VStr "percentOfThresholdPace");
            ("structure",
             VList [VDict [("type", VStr "step");
                           ("steps",
                            VList [VDict [("length",
                                           VDict [("value", VInt 900);
                                                  ("unit", VStr "second")]);
                                          ("targets",
                                           VList [VDict [("minValue", VInt 96);
                                                         ("maxValue", VInt 100)]]);
                                          ("intensityClass", VStr "active")]])]])]) ].

(** A step with an intensity target but no length. *)
Definition untimed_step (pct : Z) : list (string * value) :=
  [ ("targets", VList [VDict [("minValue", VInt pct)]]);
    ("intensityClass", VStr "active") ].

(** [count] untimed steps at [pct] percent inside a block repeated five
    times. *)
Definition untimed_workout (count : nat) (pct : Z) : list (string * value) :=
  [ ("title", VStr "Session");
    ("structure",
     VDict [("primaryIntensityMetric", VStr "percentOfThresholdPace");
            ("structure",
             VList [VDict [("type", VStr "repetition");
                           ("length", VDict [("value", VInt 5);
                                             ("unit", VStr "repetition")]);
                           ("steps",
                            VList (replicate count
                                     (VDict (untimed_step pct))))]])]) ].

(** The tally that [_classify_from_structure] reaches before it decides. *)
Definition structure_tally (repr : value -> string)
    (json_loads : string -> option value) (workout : list (string * value))
    : result tally :=
  tally_blocks repr (fst (_extract_structure repr json_loads workout)) tally0.

(** The units that [_length_to_seconds] converts. *)
Definition timed_units : list string :=
  ["second"; "minute"; "hour"; "meter"; "kilometer"].

(** ** The zone-distance decomposer ([core/analysis.py]) *)

(** [sum(zones.values())]. *)
Definition zone_sum (m : zones Q) : Q :=
  (0 + z_easy m + z_lt1 m + z_lt2 m + z_vo2 m)%Q.

(** [{k: f(v) for k, v in zones.items()}]. *)
Definition zone_map (f : Q -> Q) (m : zones Q) : zones Q :=
  Zones (f (z_easy m)) (f (z_lt1 m)) (f (z_lt2 m)) (f (z_vo2 m)).

(** [{"easy": distance, "lt1": 0.0, "lt2": 0.0, "vo2": 0.0}]. *)
Definition all_easy (distance : Q) : zones Q := Zones distance 0%Q 0%Q 0%Q.

Definition percent_metrics : list string :=
  ["percentOfThresholdPace"; "percentOfFtp"; "percentOfThresholdHr"].

(** [metric not in {...}]: a list or a dict cannot be hashed. *)
Definition not_percent_metric (metric : value) : result bool :=
  match metric with
  | VStr s => Ok (negb (bool_decide (s ∈ percent_metrics)))
  | VList _ | VDict _ => Raise TypeError
  | _ => Ok true
  end.

(** [for x in v]: the items a loop over [v] visits. *)
Definition iterate (v : value) : result (list value) :=
  match v with
  | VList l => Ok l
  | VDict d => Ok (map (fun kv => VStr (fst kv)) d)
  | VStr s => Ok (map (fun c => VStr (String c EmptyString))
                    (String.list_ascii_of_string s))
  | _ => Raise TypeError
  end.

(** [targets[0] if targets else {}]. *)
Definition first_target (targets : value) : result value :=
  if negb (Py.truthy targets) then Ok (VDict [])
  else match targets with
       | VList (t :: _) => Ok t
       | VStr (String c _) => Ok (VStr (String c EmptyString))
       | VDict _ => Raise KeyError
       | _ => Raise TypeError
       end.

Definition _step_distance_raw (step : value) (threshold_speed : Q)
    : result (Q * Q) :=
  let* length := Py.get step "length" (VDict []) in
  let* unit := Py.get length "unit" VNone in
  let* value_raw := Py.get length "value" VNone in
  let* value := Py.float_ (Py.or_ value_raw (VInt 0)) in
  let* targets := Py.get step "targets" (VList [VDict []]) in
  let* target := first_target targets in
  let* min_raw := Py.get target "minValue" VNone in
  let* min_value := Py.float_ (Py.or_ min_raw (VInt 0)) in
  let* max_raw := Py.get target "maxValue" VNone in
  let* max_value := Py.float_ (Py.or_ max_raw (VNum min_value)) in
  let pct := if Qlt_bool min_value max_value
             then ((min_value + max_value) / 2)%Q else min_value in
  if Py.eq_str unit "meter" then Ok (value, pct)
  else if Py.eq_str unit "second" then
    let speed := if Qlt_bool 0 pct
                 then (threshold_speed * (pct / 100))%Q
                 else (threshold_speed * (7 # 10))%Q in
    Ok (value * speed, pct)%Q
  else Ok (0%Q, pct).

(** [block_type.strip()] needs a string. *)
Definition as_str (v : value) : result string :=
  match v with
  | VStr s => Ok s
  | _ => Raise AttributeError
  end.

Section Decomposer.

Variable repr : value -> string.
Variable json_loads : string -> option value.

(** One turn of the inner loop of [parse_workout_zones]. *)
Definition zone_step (threshold_speed : Q) (thresholds : gmap string Q)
    (block_type : value) (rep_count : Z) (step : value) (acc : zones Q)
    : result (zones Q) :=
  let* (raw_distance, pct) := _step_distance_raw step threshold_speed in
  let* intensity_class := Py.get step "intensityClass" (VStr "active") in
  let* type_name := as_str block_type in
  let* zone := classify_zone pct type_name (str_ repr intensity_class) thresholds in
  Ok (zone_update acc zone (fun x => x + raw_distance * inject_Z rep_count)%Q).

Fixpoint zone_steps (threshold_speed : Q) (thresholds : gmap string Q)
    (block_type : value) (rep_count : Z) (steps : list value) (acc : zones Q)
    : result (zones Q) :=
  match steps with
  | [] => Ok acc
  | step :: rest =>
      let* acc' := zone_step threshold_speed thresholds block_type rep_count
                     step acc in
      zone_steps threshold_speed thresholds block_type rep_count rest acc'
  end.

(** One turn of the outer loop of [parse_workout_zones]. *)
Definition zone_block (threshold_speed : Q) (thresholds : gmap string Q)
    (block : value) (acc : zones Q) : result (zones Q) :=
  let* block_type := Py.get block "type" (VStr "step") in
  let* rep_count :=
    if Py.eq_str block_type "repetition" then
      let* length := Py.get block "length" (VDict []) in
      let* count := Py.get length "value" (VInt 1) in
      int_ count
    else Ok 1%Z in
  let* steps_raw := Py.get block "steps" (VList []) in
  let* steps := iterate steps_raw in
  zone_steps threshold_speed thresholds block_type rep_count steps acc.

Fixpoint zone_blocks (threshold_speed : Q) (thresholds : gmap string Q)
    (blocks : list value) (acc : zones Q) : result (zones Q) :=
  match blocks with
  | [] => Ok acc
  | block :: rest =>
      let* acc' := zone_block threshold_speed thresholds block acc in
      zone_blocks threshold_speed thresholds rest acc'
  end.

(** The raw zone distances of a structure, before any rescaling. *)
Definition raw_zones (threshold_speed : Q) (thresholds : gmap string Q)
    (structure : value) : result (zones Q) :=
  let* blocks_raw := Py.get structure "structure" (VList []) in
  let* blocks := iterate blocks_raw in
  zone_blocks threshold_speed thresholds blocks (Zones 0 0 0 0)%Q.

(** [float(workout.get("distance") or 0)]. *)
Definition recorded_distance (workout : list (string * value)) : result Q :=
  Py.float_ (Py.or_ (Py.dget workout "distance" VNone) (VInt 0)).

(** The whole distance goes to the easy zone. *)
Definition easy_fallback (workout : list (string * value))
    : result (zones Q * Q) :=
  let* distance := recorded_distance workout in
  Ok (all_easy distance, distance).

(** The structure once a string has gone through [json.loads]; [None] when
    that raises. *)
Definition load_structure (structure : value) : option value :=
  match structure with
  | VStr s => json_loads s
  | other => Some other
  end.

Definition parse_workout_zones (workout : list (string * value))
    (threshold_speed : Q) (thresholds : gmap string Q)
    : result (zones Q * Q) :=
  let structure := Py.dget workout "structure" VNone in
  if negb (Py.truthy structure) then easy_fallback workout
  else
    match load_structure structure with
    | None => easy_fallback workout
    | Some structure =>
        let* metric := Py.get structure "primaryIntensityMetric" (VStr "") in
        let* other_metric := not_percent_metric metric in
        if other_metric then easy_fallback workout
        else
          let* zones := raw_zones threshold_speed thresholds structure in
          let raw_total := zone_sum zones in
          let* actual_distance := recorded_distance workout in
          if Qlt_bool 0 raw_total && Qlt_bool 0 actual_distance then
            let scale := (actual_distance / raw_total)%Q in
            Ok (zone_map (fun v => v * scale)%Q zones, actual_distance)
          else if Qlt_bool 0 actual_distance && Qeq_bool raw_total 0 then
            Ok (all_easy actual_distance, actual_distance)
          else Ok (zones, raw_total)
    end.

End Decomposer.






(** The three thresholds are present. *)
Definition has_thresholds (thresholds : gmap string Q) : Prop :=
  is_Some (thresholds !! "easy_max")
  /\ is_Some (thresholds !! "lt1_max")
  /\ is_Some (thresholds !! "lt2_max").

(** A metric that is none of the three percent-based ones. *)
Definition other_metric (metric : value) : Prop :=
  match metric with
  | VStr m => m ∉ percent_metrics
  | VList _ | VDict _ => False
  | _ => True
  end.

(** ** Weekly hard load and injury risk ([core/analysis.py]) *)

(** [sorted(keys)] for strings that are pairwise distinct (the elements of
    a set, the keys of a dict). *)
Definition str_le (a b : string) : Prop := String.leb a b = true.

#[global] Instance str_le_dec : RelDecision str_le :=
  fun a b => decide (String.leb a b = true).

Definition py_sorted (keys : list string) : list string :=
  merge_sort str_le keys.

(** [rows.sort(key=...)]: a stable sort, here by insertion from the right. *)
Fixpoint insert_by {A : Type} (key : A -> string) (x : A) (l : list A) : list A :=
  match l with
  | [] => [x]
  | y :: rest =>
      if String.leb (key x) (key y) then x :: l
      else y :: insert_by key x rest
  end.

Definition sort_by {A : Type} (key : A -> string) (l : list A) : list A :=
  foldr (insert_by key) [] l.

(** [SPORT_MAP.get(sport_id)]; a list or a dict cannot be hashed. *)
Definition sport_of (sport_id : value) : result (option string) :=
  match sport_id with
  | VNum q =>
      Ok (if Qeq_bool q 1 then Some "swim"
          else if Qeq_bool q 2 then Some "bike"
          else if Qeq_bool q 3 then Some "run"
          else None)
  | VBool b => Ok (if b then Some "swim" else None)
  | VList _ | VDict _ => Raise TypeError
  | _ => Ok None
  end.

(** A sport name, or [None], as an object. *)
Definition opt_str (o : option string) : value :=
  match o with
  | Some s => VStr s
  | None => VNone
  end.

Definition intensity_rank (t : string) : Z :=
  if String.eqb t "vo2" then 4
  else if String.eqb t "lt2" then 3
  else if String.eqb t "lt1" then 2
  else if String.eqb t "easy" then 1
  else 0.

(** [max(values, key=...)]: the first of the greatest. *)
Fixpoint first_max (best : string) (rest : list string) : string :=
  match rest with
  | [] => best
  | x :: rest' =>
      if (intensity_rank best <? intensity_rank x)%Z
      then first_max x rest' else first_max best rest'
  end.

Definition _day_intensity (types : list string) : string :=
  match types with
  | [] => "rest"
  | x :: rest => first_max x rest
  end.

(** [intensity in {"lt2", "vo2"}]. *)
Definition is_hard (intensity : string) : bool :=
  String.eqb intensity "lt2" || String.eqb intensity "vo2".

(** [[x for x in l if keep(x)]], the test reading the record of [x]. *)
Fixpoint filter_by {A : Type} (record_of : A -> list (string * value))
    (keep : list (string * value) -> result bool) (l : list A)
    : result (list A) :=
  match l with
  | [] => Ok []
  | x :: rest =>
      let* kept := keep (record_of x) in
      let* xs := filter_by record_of keep rest in
      Ok (if kept then x :: xs else xs)
  end.

(** [SPORT_MAP.get(w.get("workoutTypeValueId")) in {"run", "bike"}]. *)
Definition is_run_or_bike (w : list (string * value)) : result bool :=
  let* sport := sport_of (Py.dget w "workoutTypeValueId" VNone) in
  Ok (Py.eq_str (opt_str sport) "run" || Py.eq_str (opt_str sport) "bike").

(** [SPORT_MAP.get(w.get("workoutTypeValueId")) == sport]. *)
Definition has_sport (sport : string) (w : list (string * value)) : result bool :=
  let* found := sport_of (Py.dget w "workoutTypeValueId" VNone) in
  Ok (Py.eq_str (opt_str found) sport).

(** One row of the [weekly] table. *)
Record week_counts : Type := WeekCounts {
  run_lt2 : Z;
  bike_lt2 : Z;
  run_vo2 : Z;
  total_hard : Z
}.

Definition no_counts : week_counts := WeekCounts 0 0 0 0.

(** [weekly[week_key]] on the defaultdict. *)
Definition week_row (weekly : gmap string week_counts) (week_key : string)
    : week_counts :=
  default no_counts (weekly !! week_key).

(** The updates of one day on the [weekly] table; a week gets a row only
    when one of them fires. *)
Definition count_day (run_intensity bike_intensity : string)
    (week_key : string) (weekly : gmap string week_counts)
    : gmap string week_counts :=
  let bump (cond : bool) (f : week_counts -> week_counts)
           (w : gmap string week_counts) :=
    if cond then <[week_key := f (week_row w week_key)]> w else w in
  let w1 := bump (String.eqb run_intensity "lt2")
              (fun c => WeekCounts (run_lt2 c + 1) (bike_lt2 c) (run_vo2 c)
                          (total_hard c)) weekly in
  let w2 := bump (String.eqb run_intensity "vo2")
              (fun c => WeekCounts (run_lt2 c) (bike_lt2 c) (run_vo2 c + 1)
                          (total_hard c)) w1 in
  let w3 := bump (String.eqb bike_intensity "lt2")
              (fun c => WeekCounts (run_lt2 c) (bike_lt2 c + 1) (run_vo2 c)
                          (total_hard c)) w2 in
  let w4 := bump (is_hard run_intensity)
              (fun c => WeekCounts (run_lt2 c) (bike_lt2 c) (run_vo2 c)
                          (total_hard c + 1)) w3 in
  bump (is_hard bike_intensity)
    (fun c => WeekCounts (run_lt2 c) (bike_lt2 c) (run_vo2 c)
                (total_hard c + 1)) w4.

(** [round(x, 1)] on the exact value: to the nearest tenth, a tie to the
    even one. *)
Definition round_half_even (q : Q) : Z :=
  let f := Qfloor q in
  let r := (q - inject_Z f)%Q in
  if Qlt_bool r (1 # 2) then f
  else if Qlt_bool (1 # 2) r then (f + 1)%Z
  else if Z.even f then f else (f + 1)%Z.

Definition round1 (q : Q) : Q := (inject_Z (round_half_even (q * 10)) / 10)%Q.

Record risk_factor : Type := RiskFactor {
  rf_type : string;
  rf_week : string;
  rf_increase_pct : Q;
  rf_severity : string;
  rf_recommendation : string
}.

(** The week-over-week increase of hard sessions, in percent. *)
Definition increase_pct (prev_val curr_val : Z) : Q :=
  (inject_Z (curr_val - prev_val) / inject_Z prev_val * 100)%Q.

(** The body of the loop over consecutive week keys. *)
Definition risk_of_pair (weekly : gmap string week_counts)
    (prev_key curr_key : string) : list risk_factor :=
  let prev_val := total_hard (week_row weekly prev_key) in
  let curr_val := total_hard (week_row weekly curr_key) in
  if (0 <? prev_val)%Z then
    let increase := increase_pct prev_val curr_val in
    if Qle_bool 40 increase then
      [RiskFactor "hard_session_spike" curr_key (round1 increase)
         (if Qle_bool 60 increase then "high" else "medium")
         "Consider a recovery week or reducing intensity density"]
    else []
  else [].

(** [for idx in range(1, len(week_keys))], with [prev_key] the key before
    those still to visit. *)
Fixpoint risk_loop (weekly : gmap string week_counts) (prev_key : string)
    (keys : list string) : list risk_factor :=
  match keys with
  | [] => []
  | curr_key :: rest =>
      risk_of_pair weekly prev_key curr_key ++ risk_loop weekly curr_key rest
  end.

Definition risk_factors_of (weekly : gmap string week_counts)
    : list risk_factor :=
  match py_sorted (map fst (map_to_list weekly)) with
  | [] => []
  | first_key :: rest => risk_loop weekly first_key rest
  end.

(** The entries of the payload that come from the [weekly] table:
    [weekly_load], and [risk_factors] when it is present. *)
Record pattern_payload : Type := PatternPayload {
  weekly_load : list (string * week_counts);
  risk_factors : option (list risk_factor)
}.

Section Patterns.

Variable repr : value -> string.

(** The ISO week key ["YYYY-Www"] of a day ["YYYY-MM-DD"], by [strptime]
    and [isocalendar]; [None] when [strptime] raises [ValueError]. *)
Variable iso_week_key : string -> option string.

Definition _classification_type (workout : list (string * value))
    : result string :=
  let* type := Py.get (Py.dget workout "classification" (VDict [])) "type" VNone in
  Ok (str_ repr (Py.or_ type (VStr "other"))).

Definition day_key (workout : list (string * value)) : string :=
  str_ repr (Py.dget workout "workoutDay" (VStr "")).

(** [[w for w in workouts if SPORT_MAP.get(...) in {"run", "bike"}]]. *)
Definition run_bike_rows (workouts : list (list (string * value)))
    : result (list (list (string * value))) :=
  filter_by (fun w => w) is_run_or_bike workouts.

(** The tables [run_by_date], [bike_by_date] and the set [all_dates]. *)
Definition by_date : Type :=
  gmap string (list string) * gmap string (list string) * gset string.

Definition group_row (workout : list (string * value)) (acc : by_date)
    : result by_date :=
  let '(run_by_date, bike_by_date, all_dates) := acc in
  let day := Str.take 10 (day_key workout) in
  if String.eqb day "" then Ok acc
  else
    let all_dates := {[ day ]} ∪ all_dates in
    let* workout_type := _classification_type workout in
    let* sport := sport_of (Py.dget workout "workoutTypeValueId" VNone) in
    if Py.eq_str (opt_str sport) "run" then
      Ok (<[day := default [] (run_by_date !! day) ++ [workout_type]]>
            run_by_date, bike_by_date, all_dates)
    else if Py.eq_str (opt_str sport) "bike" then
      Ok (run_by_date,
          <[day := default [] (bike_by_date !! day) ++ [workout_type]]>
            bike_by_date, all_dates)
    else Ok (run_by_date, bike_by_date, all_dates).

Fixpoint group_rows (rows : list (list (string * value))) (acc : by_date)
    : result by_date :=
  match rows with
  | [] => Ok acc
  | workout :: rest =>
      let* acc' := group_row workout acc in
      group_rows rest acc'
  end.

(** The loop that fills the [weekly] table, day by day. *)
Fixpoint weekly_loop (run_by_date bike_by_date : gmap string (list string))
    (days : list string) (weekly : gmap string week_counts)
    : result (gmap string week_counts) :=
  match days with
  | [] => Ok weekly
  | day :: rest =>
      match iso_week_key day with
      | None => Raise ValueError
      | Some week_key =>
          let run_intensity :=
            _day_intensity (default [] (run_by_date !! day)) in
          let bike_intensity :=
            _day_intensity (default [] (bike_by_date !! day)) in
          weekly_loop run_by_date bike_by_date rest
            (count_day run_intensity bike_intensity week_key weekly)
      end
  end.

(** The [weekly] table from the rows, filtered and sorted. *)
Definition weekly_table_of (rows : list (list (string * value)))
    : result (gmap string week_counts) :=
  let* (run_by_date, bike_by_date, all_dates) :=
    group_rows rows (∅, ∅, ∅) in
  let ordered_dates := py_sorted (elements all_dates) in
  weekly_loop run_by_date bike_by_date ordered_dates ∅.


(** The payload from the rows, filtered and sorted, as far as the weekly
    table goes.  The same-day and day-after tallies, the correlation
    counts and the coach note read the same tables and feed neither
    entry; they are not embedded. *)
Definition patterns_of (rows : list (list (string * value)))
    (injury_risk : bool) : result pattern_payload :=
  let* weekly := weekly_table_of rows in
  let risk := if injury_risk then risk_factors_of weekly else [] in
  Ok (PatternPayload
        (map (fun week => (week, week_row weekly week))
           (py_sorted (map fst (map_to_list weekly))))
        (if injury_risk then Some risk else None)).

Definition analyze_patterns (workouts : list (list (string * value)))
    (injury_risk : bool) : result pattern_payload :=
  let* rows := run_bike_rows workouts in
  patterns_of (sort_by day_key rows) injury_risk.

End Patterns.


(** The workouts of the unit test on patterns, and the calendar on their
    days. *)
Definition pattern_workout (day : string) (sport_id : Z) (type : string)
    : list (string * value) :=
  [ ("workoutDay", VStr (day ++ "T00:00:00")%string);
    ("workoutTypeValueId", VInt sport_id);
    ("classification", VDict [("type", VStr type)]) ].

Definition sample_pattern_workouts : list (list (string * value)) :=
  [ pattern_workout "2026-02-02" 3 "lt2";
    pattern_workout "2026-02-03" 2 "easy";
    pattern_workout "2026-02-10" 3 "vo2";
    pattern_workout "2026-02-11" 2 "lt2";
    pattern_workout "2026-02-12" 3 "lt2" ].

Definition sample_iso_week (day : string) : option string :=
  if String.eqb day "2026-02-02" || String.eqb day "2026-02-03"
  then Some "2026-W06"
  else if String.eqb day "2026-02-10" || String.eqb day "2026-02-11"
          || String.eqb day "2026-02-12"
  then Some "2026-W07"
  else None.

(** ** Classification metadata ([core/models.py], [core/classify.py]) *)

Record WorkoutClassification : Type := Classification {
  wc_type : string;
  wc_method : string;
  wc_confidence : Q;
  wc_reasoning : option string
}.

Definition classify_with_metadata (repr : value -> string)
    (json_loads : string -> option value) (workout : list (string * value))
    (method : string) (rules : list (string * list string))
    : result WorkoutClassification :=
  let* (label, source) := _classify_with_source repr json_loads workout rules in
  if String.eqb method "ai" then
    Ok (Classification label "auto" (6 # 10)
          (Some "AI classification not configured; fell back to rules"))
  else
    let confidence :=
      if String.eqb source "structure" then (97 # 100)%Q
      else if negb (String.eqb label "other") then (95 # 100)%Q
      else (6 # 10)%Q in
    let reasoning :=
      if String.eqb source "structure"
      then Some "classified from structured workout intensity targets"
      else None in
    Ok (Classification label "auto" confidence reasoning).

(** ** Objects with identity: the store

    The reports receive a list of workout records and may keep references
    to them.  A record and a list are objects of a store; a record's
    fields hold a JSON-like value, so any change below a record shows as a
    change of the record. *)

Inductive object : Type :=
  | ODict (fields : list (string * value))
  | OList (items : list positive).

Abbreviation store := (gmap positive object).

(** A computation on the store that returns or raises. *)
Definition St (A : Type) : Type := store -> result A * store.

Definition st_ret {A : Type} (a : A) : St A := fun s => (Ok a, s).

Definition st_bind {A B : Type} (m : St A) (k : A -> St B) : St B :=
  fun s =>
    match m s with
    | (Ok a, s') => k a s'
    | (Raise e, s') => (Raise e, s')
    end.

Notation "'let!' x ':=' c 'in' k" := (st_bind c (fun x => k))
  (at level 10, x pattern, c at level 100, k at level 200).

(** A computation that does not touch the store. *)
Definition st_lift {A : Type} (r : result A) : St A := fun s => (r, s).

(** Reading a record: [workout.get] needs a dict. *)
Definition read_dict (l : positive) : St (list (string * value)) :=
  fun s =>
    match s !! l with
    | Some (ODict fields) => (Ok fields, s)
    | _ => (Raise AttributeError, s)
    end.

(** Reading a list: [for w in workouts]. *)
Definition read_list (l : positive) : St (list positive) :=
  fun s =>
    match s !! l with
    | Some (OList items) => (Ok items, s)
    | _ => (Raise TypeError, s)
    end.

(** A new object, at a location the store does not use. *)
Definition alloc (o : object) : St positive :=
  fun s => let l := fresh (dom s) in (Ok l, <[l := o]> s).

(** Overwriting the object at a location. *)
Definition write (l : positive) (o : object) : St unit :=
  fun s => (Ok tt, <[l := o]> s).

Fixpoint st_map {A B : Type} (f : A -> St B) (l : list A) : St (list B) :=
  match l with
  | [] => st_ret []
  | x :: rest =>
      let! y := f x in
      let! ys := st_map f rest in
      st_ret (y :: ys)
  end.

(** The records behind a list of references. *)
Definition read_records (items : list positive)
    : St (list (list (string * value))) :=
  st_map read_dict items.

(** [items.sort(key=...)] on the list object at [l], the key being read
    from the record behind each reference. *)
Definition sort_in_place (key : list (string * value) -> string)
    (l : positive) : St unit :=
  let! items := read_list l in
  let! records := read_records items in
  write l (OList (map fst (sort_by (fun p => key (snd p))
                             (zip items records)))).

(** [rows = [w for w in workouts if keep(w)]] followed by
    [rows.sort(key=...)]: the references that pass the test go into a new
    list, that list is sorted in place, and the records behind it are the
    rows the report walks. *)
Definition sorted_copy (keep : list (string * value) -> result bool)
    (key : list (string * value) -> string) (workouts : positive)
    : St (list (list (string * value))) :=
  let! items := read_list workouts in
  let! records := read_records items in
  let! kept := st_lift (filter_by snd keep (zip items records)) in
  let! copy := alloc (OList (map fst kept)) in
  let! _ := sort_in_place key copy in
  let! sorted := read_list copy in
  read_records sorted.

(** The references [items] lead to the records [records]. *)
Definition records_at (s : store) (items : list positive)
    (records : list (list (string * value))) : Prop :=
  Forall2 (fun l fields => s !! l = Some (ODict fields)) items records.

(** [d[key] = v] on a dict: the binding is replaced in place, or added at
    the end. *)
Fixpoint dict_set (d : list (string * value)) (key : string) (v : value)
    : list (string * value) :=
  match d with
  | [] => [(key, v)]
  | (k, x) :: rest =>
      if String.eqb k key then (k, v) :: rest
      else (k, x) :: dict_set rest key v
  end.


(** ** The core functions on the store *)

Section OnStore.

Variable repr : value -> string.
Variable json_loads : string -> option value.
Variable iso_week_key : string -> option string.

Definition parse_workout_zones_st (workout : positive) (threshold_speed : Q)
    (thresholds : gmap string Q) : St (zones Q * Q) :=
  let! fields := read_dict workout in
  st_lift (parse_workout_zones repr json_loads fields threshold_speed thresholds).

Definition classify_with_metadata_st (workout : positive) (method : string)
    (rules : list (string * list string)) : St WorkoutClassification :=
  let! fields := read_dict workout in
  st_lift (classify_with_metadata repr json_loads fields method rules).

(** The dict that the fetch loop stores under [classification]. *)
Definition classification_dict (c : WorkoutClassification) : value :=
  VDict [("type", VStr (wc_type c)); ("method", VStr (wc_method c));
         ("confidence", VNum (wc_confidence c));
         ("reasoning", match wc_reasoning c with
                       | Some text => VStr text
                       | None => VNone
                       end)].


End OnStore.

(** ** The zone distribution report ([core/analysis.py]) *)

Record zone_share : Type := ZoneShare {
  zs_distance : Q;
  zs_pct : Q;
  zs_sessions : Z
}.

(** A row of [by_period]: the four zone distances and their total. *)
Record period_totals : Type := PeriodTotals {
  pt_zones : zones Q;
  pt_total : Q
}.

Record period_row : Type := PeriodRow {
  pr_period : string;
  pr_total_distance : Q;
  pr_zones : zones (Q * Q)
}.

Record zone_report : Type := ZoneReport {
  zr_start : option string;
  zr_end : option string;
  zr_sport : string;
  zr_total_distance : Q;
  zr_zone_distribution : zones zone_share;
  zr_by_period : list period_row
}.

(** The running state of the loop of [analyze_zones]. *)
Record zone_acc : Type := ZoneAcc {
  za_total : Q;
  za_zone_totals : zones Q;
  za_sessions : zones Z;
  za_by_period : gmap string period_totals
}.

Definition zones_add (a b : zones Q) : zones Q :=
  (Zones (z_easy a + z_easy b) (z_lt1 a + z_lt1 b)
         (z_lt2 a + z_lt2 b) (z_vo2 a + z_vo2 b))%Q.

(** [sessions[key] += 1] for every zone with a positive value. *)
Definition sessions_add (sessions : zones Z) (values : zones Q) : zones Z :=
  let bump (n : Z) (v : Q) := if Qlt_bool 0 v then (n + 1)%Z else n in
  Zones (bump (z_easy sessions) (z_easy values))
        (bump (z_lt1 sessions) (z_lt1 values))
        (bump (z_lt2 sessions) (z_lt2 values))
        (bump (z_vo2 sessions) (z_vo2 values)).

(** [(part / whole * 100) if whole else 0]. *)
Definition pct_of (part whole : Q) : Q :=
  if Qeq_bool whole 0 then 0%Q else (part / whole * 100)%Q.

Section ZoneReport.

Variable repr : value -> string.
Variable json_loads : string -> option value.
Variable iso_week_key : string -> option string.

(** ["YYYY-MM"] of a day, by [strptime] and [strftime]; [None] when
    [strptime] raises [ValueError]. *)
Variable month_key : string -> option string.

(** [[w for w in workouts if SPORT_MAP.get(...) == sport]]. *)
Definition sport_rows (sport : string) (workouts : list (list (string * value)))
    : result (list (list (string * value))) :=
  filter_by (fun w => w) (has_sport sport) workouts.

(** The period of a day. *)
Definition period_of (group_by : string) (day : string) : result string :=
  match month_key day with
  | None => Raise ValueError
  | Some month =>
      if String.eqb group_by "month" then Ok month
      else match iso_week_key day with
           | Some week => Ok week
           | None => Raise ValueError
           end
  end.

(** One turn of the loop of [analyze_zones]. *)
Definition zone_row (group_by : string) (thresholds : gmap string Q)
    (workout : list (string * value)) (acc : zone_acc) : result zone_acc :=
  let day :=
    Str.take 10
      (str_ repr (Py.or_ (Py.dget workout "workoutDay" VNone) (VStr ""))) in
  if String.eqb day "" then Ok acc
  else
    let* (zones, dist) :=
      parse_workout_zones repr json_loads workout 4 thresholds in
    let* period := period_of group_by day in
    let row := default (PeriodTotals (Zones 0 0 0 0) 0)%Q
                 (za_by_period acc !! period) in
    Ok (ZoneAcc (za_total acc + dist)%Q
          (zones_add (za_zone_totals acc) zones)
          (sessions_add (za_sessions acc) zones)
          (<[period := PeriodTotals (zones_add (pt_zones row) zones)
                         (pt_total row + dist)%Q]> (za_by_period acc))).

Fixpoint zone_rows (group_by : string) (thresholds : gmap string Q)
    (rows : list (list (string * value))) (acc : zone_acc) : result zone_acc :=
  match rows with
  | [] => Ok acc
  | workout :: rest =>
      let* acc' := zone_row group_by thresholds workout acc in
      zone_rows group_by thresholds rest acc'
  end.

(** [str(w.get("workoutDay", ""))[:10]] of the first or last row. *)
Definition row_day (row : option (list (string * value))) : option string :=
  match row with
  | Some w => Some (Str.take 10 (day_key repr w))
  | None => None
  end.

(** The report of [analyze_zones] from the filtered and sorted rows. *)
Definition zone_report_of (rows : list (list (string * value)))
    (sport group_by : string) (thresholds : option (gmap string Q))
    : result zone_report :=
  let effective_thresholds :=
    match thresholds with
    | Some t => if decide (t = ∅) then DEFAULT_ZONE_THRESHOLDS else t
    | None => DEFAULT_ZONE_THRESHOLDS
    end in
  let* acc :=
    zone_rows group_by effective_thresholds rows
      (ZoneAcc 0 (Zones 0 0 0 0)%Q (Zones 0 0 0 0)%Z ∅) in
  let total := za_total acc in
  let share (z : zone) :=
    ZoneShare (zone_get (za_zone_totals acc) z)
      (pct_of (zone_get (za_zone_totals acc) z) total)
      (zone_get (za_sessions acc) z) in
  let period_row_of (period : string) :=
    let row := default (PeriodTotals (Zones 0 0 0 0) 0)%Q
                 (za_by_period acc !! period) in
    let cell (z : zone) :=
      (zone_get (pt_zones row) z,
       pct_of (zone_get (pt_zones row) z) (pt_total row)) in
    PeriodRow period (pt_total row)
      (Zones (cell easy) (cell lt1) (cell lt2) (cell vo2)) in
  Ok (ZoneReport (row_day (head rows)) (row_day (last rows)) sport total
        (Zones (share easy) (share lt1) (share lt2) (share vo2))
        (map period_row_of
           (py_sorted (map fst (map_to_list (za_by_period acc)))))).

Definition analyze_zones (workouts : list (list (string * value)))
    (sport group_by : string) (thresholds : option (gmap string Q))
    : result zone_report :=
  let* filtered := sport_rows sport workouts in
  zone_report_of (sort_by (day_key repr) filtered) sport group_by thresholds.

End ZoneReport.

(** ** The weekly report ([core/analysis.py]) *)

Record quality_workout : Type := Quality {
  q_date : string;
  q_type : string;
  q_title : value;
  q_distance : Q;
  q_tss : Q
}.

(** The totals of one sport in one week; [by_type] holds distances while
    the workouts are read and [(distance, pct)] pairs in the report. *)
Record sport_data (T : Type) : Type := SportData {
  sd_distance : Q;
  sd_sessions : Z;
  sd_tss : Q;
  sd_by_type : list (string * T);
  sd_quality_workouts : list quality_workout
}.

Arguments SportData {T} _ _ _ _ _.
Arguments sd_distance {T} _.
Arguments sd_sessions {T} _.
Arguments sd_tss {T} _.
Arguments sd_by_type {T} _.
Arguments sd_quality_workouts {T} _.

Record week_bucket (T : Type) : Type := WeekBucket {
  wb_week : string;
  wb_start_date : string;
  wb_end_date : string;
  wb_swim : sport_data T;
  wb_bike : sport_data T;
  wb_run : sport_data T;
  wb_strength_sessions : Z;
  wb_rest_days : Z;
  wb_total_distance : Q;
  wb_total_tss : Q;
  wb_total_sessions : Z;
  wb_pattern : string
}.

Arguments WeekBucket {T} _ _ _ _ _ _ _ _ _ _ _ _.
Arguments wb_week {T} _.
Arguments wb_start_date {T} _.
Arguments wb_end_date {T} _.
Arguments wb_swim {T} _.
Arguments wb_bike {T} _.
Arguments wb_run {T} _.
Arguments wb_strength_sessions {T} _.
Arguments wb_rest_days {T} _.
Arguments wb_total_distance {T} _.
Arguments wb_total_tss {T} _.
Arguments wb_total_sessions {T} _.
Arguments wb_pattern {T} _.

Record weekly_report : Type := WeeklyReport {
  weeks : list (week_bucket (Q * Q));
  total_weeks : Z;
  avg_weekly_distance : Q;
  avg_weekly_tss : Q
}.

(** The value the defaultdict makes for a new week. *)
Definition new_bucket : week_bucket Q :=
  let fresh_sport := SportData 0%Q 0%Z 0%Q [] [] in
  WeekBucket "" "" "" fresh_sport fresh_sport fresh_sport 0 0 0%Q 0%Q 0 "".

(** [by_type[workout_type] += distance] on a [defaultdict(float)]. *)
Fixpoint add_by_type (by_type : list (string * Q)) (workout_type : string)
    (distance : Q) : list (string * Q) :=
  match by_type with
  | [] => [(workout_type, (0 + distance)%Q)]
  | (k, v) :: rest =>
      if String.eqb k workout_type then (k, (v + distance)%Q) :: rest
      else (k, v) :: add_by_type rest workout_type distance
  end.

(** [v == n] for an integer [n]. *)
Definition eq_int (v : value) (n : Z) : bool :=
  match v with
  | VNum q => Qeq_bool q (inject_Z n)
  | VBool b => Z.eqb (if b then 1 else 0) n
  | _ => false
  end.

Definition quality_types : list string :=
  ["lt1"; "lt2"; "vo2"; "race"; "test"; "sprint"].

(** [sorted(items, key=lambda item: item[1], reverse=True)]: a stable sort
    by decreasing distance. *)
Fixpoint insert_desc (x : string * Q) (l : list (string * Q))
    : list (string * Q) :=
  match l with
  | [] => [x]
  | y :: rest =>
      if Qle_bool (snd y) (snd x) then x :: l
      else y :: insert_desc x rest
  end.

Definition sort_desc (l : list (string * Q)) : list (string * Q) :=
  foldr insert_desc [] l.

(** The summary that replaces [by_type] in the report. *)
Definition summarize_sport (s : sport_data Q) : sport_data (Q * Q) :=
  SportData (sd_distance s) (sd_sessions s) (sd_tss s)
    (map (fun item => (fst item, (snd item, pct_of (snd item) (sd_distance s))))
       (sort_desc (sd_by_type s)))
    (sd_quality_workouts s).

(** [any(quality["type"] == "race" ...)] over the three sports. *)
Definition week_has_race (b : week_bucket Q) : bool :=
  existsb (fun q => String.eqb (q_type q) "race")
    (sd_quality_workouts (wb_swim b) ++ sd_quality_workouts (wb_bike b)
     ++ sd_quality_workouts (wb_run b)).

(** The second loop of [build_weekly_analysis], over the weeks in key
    order, with the total of the week before. *)
Fixpoint label_weeks (previous_total : option Q) (ordered : list (week_bucket Q))
    : list (week_bucket (Q * Q)) :=
  match ordered with
  | [] => []
  | row :: rest =>
      let total := wb_total_distance row in
      let delta :=
        match previous_total with
        | Some previous =>
            if Qlt_bool 0 previous
            then Some ((total - previous) / previous * 100)%Q
            else None
        | None => None
        end in
      let pattern :=
        classify_week total (wb_total_sessions row) (week_has_race row) delta in
      WeekBucket (wb_week row) (wb_start_date row) (wb_end_date row)
        (summarize_sport (wb_swim row)) (summarize_sport (wb_bike row))
        (summarize_sport (wb_run row))
        (wb_strength_sessions row) (wb_rest_days row)
        (wb_total_distance row) (wb_total_tss row) (wb_total_sessions row)
        pattern
      :: label_weeks (Some total) rest
  end.

(** [sum(...) / len(ordered) if ordered else 0]. *)
Definition average (values : list Q) : Q :=
  match values with
  | [] => 0%Q
  | _ => (foldl Qplus 0 values / inject_Z (Z.of_nat (length values)))%Q
  end.

Section WeeklyReport.

Variable repr : value -> string.

(** The ISO week key of a day and the Monday and Sunday of its week, by
    [strptime], [isocalendar] and [strftime]; [None] when [strptime]
    raises [ValueError]. *)
Variable week_span : string -> option (string * string * string).

(** [get_week_key(day)] and [get_week_start(day)]: the day is sliced, so
    it has to be a string. *)
Definition week_of (day : value) : result (string * string * string) :=
  match day with
  | VStr s =>
      match week_span (Str.take 10 s) with
      | Some span => Ok span
      | None => Raise ValueError
      end
  | _ => Raise TypeError
  end.

(** The workout added to the totals of its sport. *)
Definition add_session (workout_type : string) (day : value) (title : value)
    (distance tss : Q) (s : sport_data Q) : sport_data Q :=
  SportData (sd_distance s + distance)%Q (sd_sessions s + 1)%Z
    (sd_tss s + tss)%Q
    (add_by_type (sd_by_type s) workout_type distance)
    (if bool_decide (workout_type ∈ quality_types)
     then sd_quality_workouts s
          ++ [Quality (Str.take 10 (str_ repr day)) workout_type title
                distance tss]
     else sd_quality_workouts s).

(** One turn of the first loop of [build_weekly_analysis]. *)
Definition weekly_row (sport_filter : string) (workout : list (string * value))
    (buckets : gmap string (week_bucket Q))
    : result (gmap string (week_bucket Q)) :=
  let day := Py.dget workout "workoutDay" VNone in
  if negb (Py.truthy day) then Ok buckets
  else
    let sport_id := Py.dget workout "workoutTypeValueId" VNone in
    let* sport := sport_of sport_id in
    if negb (String.eqb sport_filter "all")
       && negb (Py.eq_str (opt_str sport) sport_filter)
    then Ok buckets
    else
      let* (key_start, week_end) := week_of day in
      let '(week_key, week_start) := key_start in
      let b := default new_bucket (buckets !! week_key) in
      let b := WeekBucket week_key week_start week_end
                 (wb_swim b) (wb_bike b) (wb_run b)
                 (wb_strength_sessions b) (wb_rest_days b)
                 (wb_total_distance b) (wb_total_tss b) (wb_total_sessions b)
                 (wb_pattern b) in
      if eq_int sport_id 9 then
        Ok (<[week_key := WeekBucket (wb_week b) (wb_start_date b)
                (wb_end_date b) (wb_swim b) (wb_bike b) (wb_run b)
                (wb_strength_sessions b + 1) (wb_rest_days b)
                (wb_total_distance b) (wb_total_tss b) (wb_total_sessions b)
                (wb_pattern b)]> buckets)
      else if eq_int sport_id 7 then
        Ok (<[week_key := WeekBucket (wb_week b) (wb_start_date b)
                (wb_end_date b) (wb_swim b) (wb_bike b) (wb_run b)
                (wb_strength_sessions b) (wb_rest_days b + 1)
                (wb_total_distance b) (wb_total_tss b) (wb_total_sessions b)
                (wb_pattern b)]> buckets)
      else
        match sport with
        | None => Ok (<[week_key := b]> buckets)
        | Some name =>
            let* workout_type := _classification_type repr workout in
            let* distance :=
              Py.float_ (Py.or_ (Py.or_ (Py.dget workout "distance" VNone)
                                   (Py.dget workout "distancePlanned" VNone))
                           (VNum 0)) in
            let* tss :=
              Py.float_ (Py.or_ (Py.or_ (Py.dget workout "tssActual" VNone)
                                   (Py.dget workout "tssPlanned" VNone))
                           (VNum 0)) in
            let add :=
              add_session workout_type day
                (Py.dget workout "title" (VStr "Untitled")) distance tss in
            Ok (<[week_key := WeekBucket (wb_week b) (wb_start_date b)
                    (wb_end_date b)
                    (if String.eqb name "swim" then add (wb_swim b)
                     else wb_swim b)
                    (if String.eqb name "bike" then add (wb_bike b)
                     else wb_bike b)
                    (if String.eqb name "run" then add (wb_run b)
                     else wb_run b)
                    (wb_strength_sessions b) (wb_rest_days b)
                    (wb_total_distance b + distance)%Q
                    (wb_total_tss b + tss)%Q
                    (wb_total_sessions b + 1)%Z
                    (wb_pattern b)]> buckets)
        end.

Fixpoint weekly_rows (sport_filter : string)
    (workouts : list (list (string * value)))
    (buckets : gmap string (week_bucket Q))
    : result (gmap string (week_bucket Q)) :=
  match workouts with
  | [] => Ok buckets
  | workout :: rest =>
      let* buckets' := weekly_row sport_filter workout buckets in
      weekly_rows sport_filter rest buckets'
  end.

Definition build_weekly_analysis (workouts : list (list (string * value)))
    (sport_filter : string) : result weekly_report :=
  let* buckets := weekly_rows sport_filter workouts ∅ in
  let ordered :=
    map (fun key => default new_bucket (buckets !! key))
      (py_sorted (map fst (map_to_list buckets))) in
  Ok (WeeklyReport (label_weeks None ordered)
        (Z.of_nat (length ordered))
        (average (map wb_total_distance ordered))
        (average (map wb_total_tss ordered))).

End WeeklyReport.

Section ReportsOnStore.

Variable repr : value -> string.
Variable json_loads : string -> option value.
Variable iso_week_key : string -> option string.
Variable month_key : string -> option string.
Variable week_span : string -> option (string * string * string).

(** [build_weekly_analysis] walks the list it is given. *)
Definition build_weekly_analysis_st (workouts : positive)
    (sport_filter : string) : St weekly_report :=
  let! items := read_list workouts in
  let! records := read_records items in
  st_lift (build_weekly_analysis repr week_span records sport_filter).

(** [analyze_zones] filters into a new list, sorts that list in place and
    walks it. *)
Definition analyze_zones_st (workouts : positive) (sport group_by : string)
    (thresholds : option (gmap string Q)) : St zone_report :=
  let! rows := sorted_copy (has_sport sport) (day_key repr) workouts in
  st_lift (zone_report_of repr json_loads iso_week_key month_key rows
             sport group_by thresholds).

(** [analyze_patterns] does the same with its run and bike rows. *)
Definition analyze_patterns_st (workouts : positive) (injury_risk : bool)
    : St pattern_payload :=
  let! rows := sorted_copy is_run_or_bike (day_key repr) workouts in
  st_lift (patterns_of repr iso_week_key rows injury_risk).

End ReportsOnStore.


(** ** Integers as text *)

(** The character of a decimal digit. *)
Definition digit_char (d : Z) : ascii := Ascii.ascii_of_N (Z.to_N (48 + d)).

(** The digits of [n] in front of [acc], the last one first. *)
Fixpoint dec_go (fuel : nat) (n : Z) (acc : string) : string :=
  match fuel with
  | O => acc
  | S fuel' =>
      let acc' := String (digit_char (n mod 10)) acc in
      if (n <? 10)%Z then acc' else dec_go fuel' (n / 10) acc'
  end.

(** The decimal digits of a number that is not negative; a number has no
    more decimal digits than binary ones. *)
Definition dec (n : Z) : string := dec_go (S (Z.to_nat (Z.log2 n))) n "".

(** [str(z)] for an integer. *)
Definition str_int (z : Z) : string :=
  if (z <? 0)%Z then String "-" (dec (- z)) else dec z.

(** [f"{z:02d}"]: at least two characters, filled with a zero. *)
Definition fmt_02d (z : Z) : string :=
  if (0 <=? z)%Z && (z <? 10)%Z then String "0" (dec z) else str_int z.

(** A string of decimal digits, and the number it reads as after the
    digits already read as [acc]. *)
Fixpoint all_digits (s : string) : bool :=
  match s with
  | EmptyString => true
  | String c r => Str.is_digit c && all_digits r
  end.

Fixpoint digits_val (s : string) (acc : Z) : Z :=
  match s with
  | EmptyString => acc
  | String c r => digits_val r (10 * acc + Str.digit_val c)
  end.

(** The last character of a string. *)
Fixpoint last_char (s : string) : option ascii :=
  match s with
  | EmptyString => None
  | String c EmptyString => Some c
  | String _ r => last_char r
  end.

(** No character of the string satisfies [p]. *)
Fixpoint none_of (p : ascii -> bool) (s : string) : bool :=
  match s with
  | EmptyString => true
  | String c r => negb (p c) && none_of p r
  end.



(** ** Durations and paces as text ([utils/formatting.py], [core/upload.py]) *)


Definition speed_pct_to_pace (pct threshold_speed : Q) : string :=
  let speed := (threshold_speed * (pct / 100))%Q in
  if Qle_bool speed 0 then "?"
  else
    let seconds_per_km := (1000 / speed)%Q in
    let minutes := Qfloor (seconds_per_km / 60) in
    let seconds :=
      round_half_even (seconds_per_km - 60 * inject_Z minutes) in
    if (seconds =? 60)%Z
    then (str_int (minutes + 1) ++ ":" ++ fmt_02d 0)%string
    else (str_int minutes ++ ":" ++ fmt_02d seconds)%string.

(** ** Pace labels ([core/upload.py])

    [label_run_steps] changes the names of steps in place.  A structure is
    a tree of values, so the call is modelled by the structure it leaves
    behind together with the way it ended: a step that raises leaves the
    names that the steps before it have received. *)

(** [v is None]. *)
Definition is_none (v : value) : bool :=
  match v with
  | VNone => true
  | _ => false
  end.

(** The name that the body of the inner loop gives to a step, if any. *)
Definition pace_label (threshold_speed : Q) (step : value)
    : result (option string) :=
  let* targets := Py.get step "targets" (VList []) in
  if negb (Py.truthy targets) then Ok None
  else
    let* target := first_target targets in
    let* min_value := Py.get target "minValue" VNone in
    let* max_value := Py.get target "maxValue" VNone in
    if negb (is_none min_value) && negb (is_none max_value) then
      let* hi := Py.float_ max_value in
      let fast := speed_pct_to_pace hi threshold_speed in
      let* lo := Py.float_ min_value in
      let slow := speed_pct_to_pace lo threshold_speed in
      Ok (Some ("Pace " ++ fast ++ "-" ++ slow)%string)
    else if negb (is_none min_value) then
      let* lo := Py.float_ min_value in
      Ok (Some ("Pace " ++ speed_pct_to_pace lo threshold_speed)%string)
    else Ok None.

(** One turn of the inner loop: the step afterwards, and how the turn
    ended. *)
Definition label_step (threshold_speed : Q) (step : value)
    : value * result unit :=
  match pace_label threshold_speed step with
  | Ok (Some name) =>
      match step with
      | VDict d => (VDict (dict_set d "name" (VStr name)), Ok tt)
      | _ => (step, Raise TypeError)
      end
  | Ok None => (step, Ok tt)
  | Raise e => (step, Raise e)
  end.

(** A loop whose body may change the item it visits: the items afterwards,
    and how the loop ended. *)
Fixpoint update_each (f : value -> value * result unit) (l : list value)
    : list value * result unit :=
  match l with
  | [] => ([], Ok tt)
  | x :: rest =>
      let '(x', r) := f x in
      match r with
      | Ok _ =>
          let '(rest', r') := update_each f rest in
          (x' :: rest', r')
      | Raise e => (x' :: rest, Raise e)
      end
  end.

(** [for x in owner.get(key, []): f(x)].  The items of a list are objects
    that the body may change; those of a string or of a dict are strings,
    which it cannot. *)
Definition update_items (f : value -> value * result unit) (key : string)
    (owner : value) : value * result unit :=
  match owner with
  | VDict d =>
      match Py.lookup d key with
      | Some (VList items) =>
          let '(items', r) := update_each f items in
          (VDict (dict_set d key (VList items')), r)
      | Some other =>
          match iterate other with
          | Ok items => (owner, snd (update_each f items))
          | Raise e => (owner, Raise e)
          end
      | None => (owner, Ok tt)
      end
  | _ => (owner, Raise AttributeError)
  end.

Definition label_run_steps (structure_dict : value) (threshold_speed : Q)
    : value * result unit :=
  update_items (update_items (label_step threshold_speed) "steps")
    "structure" structure_dict.

(** A dict without the bindings of [key]. *)
Fixpoint dict_del (d : list (string * value)) (key : string)
    : list (string * value) :=
  match d with
  | [] => []
  | (k, x) :: rest =>
      if String.eqb k key then dict_del rest key
      else (k, x) :: dict_del rest key
  end.

(** The same object with [f] applied to the items of the list under
    [key]. *)
Definition map_items (f : value -> value) (key : string) (owner : value)
    : value :=
  match owner with
  | VDict d =>
      match Py.lookup d key with
      | Some (VList items) => VDict (dict_set d key (VList (map f items)))
      | _ => owner
      end
  | _ => owner
  end.

(** A structure with the names of its steps taken away. *)
Definition without_names (structure : value) : value :=
  map_items
    (map_items (fun step => match step with
                            | VDict d => VDict (dict_del d "name")
                            | _ => step
                            end) "steps")
    "structure" structure.

(** ** Upload payloads ([utils/parsing.py], [core/upload.py]) *)

Definition SPORT_ID_BY_NAME : list (string * Z) :=
  [("swim", 1%Z); ("bike", 2%Z); ("run", 3%Z)].

(** [SPORT_ID_BY_NAME.get(sport)]. *)
Definition sport_id_of (sport : string) : option Z :=
  snd <$> find (fun entry => String.eqb (fst entry) sport) SPORT_ID_BY_NAME.

Definition build_basic_workout (date sport title description : string)
    : result (list (string * value)) :=
  match sport_id_of (Str.lower sport) with
  | None => Raise ValueError
  | Some _ =>
      Ok [ ("date", VStr date); ("sport", VStr (Str.lower sport));
           ("title", VStr title); ("description", VStr description) ]
  end.

(** [round(x, 4)] on the exact value. *)
Definition round4 (q : Q) : Q :=
  (inject_Z (round_half_even (q * 10000)) / 10000)%Q.

(** A threshold speed that is given and is not zero. *)
Definition speed_given (threshold_speed : option Q) : option Q :=
  match threshold_speed with
  | Some q => if Qeq_bool q 0 then None else Some q
  | None => None
  end.

Section Upload.

Variable repr : value -> string.
Variable json_loads : string -> option value.

(** [json.dumps]. *)
Variable json_dumps : value -> string.

(** [calc_seconds] and [calc_meters], when the workout has steps and a
    threshold speed is given. *)
Definition planned_totals (workout : list (string * value))
    (threshold_speed : option Q) : result (option (Z * Z)) :=
  match Py.lookup workout "steps", speed_given threshold_speed with
  | Some steps, Some speed =>
      let* entries := iterate steps in
      let* totals := calc_time_and_distance repr entries speed in
      Ok (Some totals)
  | _, _ => Ok None
  end.

(** The structure to upload, and whether it is the object that the
    workout holds (the other ones are made by the call). *)
Definition upload_structure (workout : list (string * value)) (sport : string)
    : result (value * bool) :=
  match Py.lookup workout "structure" with
  | Some (VDict st) => Ok (VDict st, true)
  | Some other =>
      match json_loads (str_ repr other) with
      | Some parsed => Ok (parsed, false)
      | None => Raise ValueError
      end
  | None =>
      match Py.lookup workout "steps" with
      | Some steps =>
          let metric := if String.eqb sport "bike" then "percentOfFtp"
                        else "percentOfThresholdPace" in
          let* entries := iterate steps in
          let* st := simple_to_tp_structure entries metric in
          Ok (st, false)
      | None => Ok (VNone, false)
      end
  end.

(** The payload before its [structure] entry. *)
Definition payload_head (workout : list (string * value)) (user_id : string)
    (date_text : string) (sport_id : Z) (title : value)
    (calc : option (Z * Z)) : list (string * value) :=
  [ ("athleteId", VStr user_id);
    ("workoutDay", VStr date_text);
    ("workoutTypeValueId", VInt sport_id);
    ("title", title);
    ("description", Py.dget workout "description" (VStr ""));
    ("totalTimePlanned",
     Py.or_ (Py.dget workout "totalTimePlanned" VNone)
       (match calc with
        | Some (calc_seconds, _) =>
            if (calc_seconds =? 0)%Z then VNone
            else VNum (round4 (inject_Z calc_seconds / 3600))
        | None => VNone
        end));
    ("distancePlanned",
     Py.or_ (Py.dget workout "distancePlanned" VNone)
       (match calc with
        | Some (_, calc_meters) => VInt calc_meters
        | None => VNone
        end));
    ("tssPlanned", Py.dget workout "tssPlanned" VNone) ].

(** [convert_workout]: the workout afterwards, and the payload or the
    error.  The one object of the workout that the call can change is the
    structure it holds, when that is the structure that gets labelled. *)
Definition convert_workout (workout : list (string * value))
    (user_id : string) (threshold_speed : option Q)
    : list (string * value) * result value :=
  let sport := Str.lower (str_ repr (Py.dget workout "sport" (VStr "run"))) in
  let sport_id := default 3%Z (sport_id_of sport) in
  match
    (let* date := Py.item (VDict workout) "date" in
     let date_text := (str_ repr date ++ "T00:00:00")%string in
     let* calc := planned_totals workout threshold_speed in
     let* title := Py.item (VDict workout) "title" in
     let* struct := upload_structure workout sport in
     Ok (payload_head workout user_id date_text sport_id title calc, struct))
  with
  | Raise e => (workout, Raise e)
  | Ok (payload, (struct, own)) =>
      match (if Py.truthy struct && String.eqb sport "run"
             then speed_given threshold_speed else None) with
      | Some speed =>
          let '(labelled, r) := label_run_steps struct speed in
          let workout' :=
            if own then dict_set workout "structure" labelled else workout in
          match r with
          | Ok _ =>
              (workout',
               Ok (VDict (payload
                          ++ [("structure", VStr (json_dumps labelled))])))
          | Raise e => (workout', Raise e)
          end
      | None =>
          (workout,
           Ok (VDict (payload
                      ++ [("structure",
                           if Py.truthy struct then VStr (json_dumps struct)
                           else VNone)])))
      end
  end.

End Upload.

(** The keys of an upload payload, in order. *)
Definition payload_keys : list string :=
  [ "athleteId"; "workoutDay"; "workoutTypeValueId"; "title"; "description";
    "totalTimePlanned"; "distancePlanned"; "tssPlanned"; "structure" ].

(** A run workout that holds its structure as an object: one step named
    [Hard] at 100% of threshold. *)
Definition held_structure (name : string) : list (string * value) :=
  [("primaryIntensityMetric", VStr "percentOfThresholdPace");
   ("structure",
    VList [VDict [("type", VStr "step");
                  ("steps",
                   VList [VDict [("name", VStr name);
                                 ("targets",
                                  VList [VDict [("minValue", VInt 100)]])]])]])].

Definition run_workout (name : string) : list (string * value) :=
  [ ("date", VStr "2026-02-01"); ("title", VStr "Intervals");
    ("sport", VStr "run"); ("structure", VDict (held_structure name)) ].

(** ** Rules and labels ([core/classify.py], [core/constants.py]) *)


Section Rules.

Variable repr : value -> string.

(** The loop over [configured.items()]: an entry whose value can be
    iterated gives a rule, its keywords in lower case. *)
Fixpoint rules_of_items (items : list (string * value))
    : list (string * list string) :=
  match items with
  | [] => []
  | (key, value) :: rest =>
      match iterate value with
      | Ok members =>
          (key, map (fun item => Str.lower (str_ repr item)) members)
          :: rules_of_items rest
      | Raise _ => rules_of_items rest
      end
  end.

Definition classification_rules_from_config (config : value)
    : result (list (string * list string)) :=
  let* classification := Py.get config "classification" (VDict []) in
  let* configured := Py.get classification "rules" (VDict []) in
  match configured with
  | VDict [] => Ok TYPE_RULES
  | VDict items =>
      match rules_of_items items with
      | [] => Ok TYPE_RULES
      | rules => Ok rules
      end
  | _ => Ok TYPE_RULES
  end.

End Rules.

(** A keyword that [str.lower] leaves as it is. *)
Definition lower_case (keyword : string) : Prop := Str.lower keyword = keyword.


(** A workout with one structured step. *)
Definition one_step_workout (step : list (string * value))
    : list (string * value) :=
  [ ("title", VStr "Session");
    ("structure",
     VDict [("primaryIntensityMetric", VStr "percentOfThresholdPace");
            ("structure",
             VList [VDict [("type", VStr "step");
                           ("steps", VList [VDict step])]])]) ].

(** ** What the zone report adds up to ([core/analysis.py]) *)







(** ** What the weekly report adds up to ([core/analysis.py]) *)







(** ** The weekly hard load *)

(** A row of the weekly table counts at least one hard session, and no
    fewer than the three counts it breaks out. *)
Definition counts_ok (c : week_counts) : Prop :=
  (0 <= run_lt2 c /\ 0 <= bike_lt2 c /\ 0 <= run_vo2 c
   /\ 1 <= total_hard c
   /\ run_lt2 c + run_vo2 c + bike_lt2 c <= total_hard c)%Z.

(** ** The shape of a compiled structure ([utils/parsing.py]) *)

(** The target list of a compiled step: empty, a minimum, or a range. *)
Definition targets_shape (targets : value) : Prop :=
  targets = VList []
  \/ (exists low, targets = VList [VDict [("minValue", low)]])
  \/ (exists low high,
        targets = VList [VDict [("minValue", VInt low);
                                ("maxValue", VInt high)]]).

(** A compiled step of class [class] whose length is an integer in one of
    [units]. *)
Definition step_shape (class : string) (units : list string) (step : value)
    : Prop :=
  exists name n unit targets,
    step = step_dict name (length_dict (VInt n) unit) targets class
    /\ unit ∈ units
    /\ targets_shape targets.

(** The steps of a warm-up ramp: one of class [warmUp], then steps of
    class [active]. *)
Definition ramp_shape (steps : list value) : Prop :=
  exists first rest,
    steps = first :: rest
    /\ step_shape "warmUp" ["second"; "meter"] first
    /\ Forall (step_shape "active" ["second"; "meter"]) rest.

Definition block_shape (block : value) : Prop :=
  (exists steps, block = block_dict "rampUp" (VInt 1) steps /\ ramp_shape steps)
  \/ (exists count on off,
        block = block_dict "repetition" count [on; off]
        /\ step_shape "active" ["second"; "meter"] on
        /\ step_shape "rest" ["second"; "meter"] off)
  \/ (exists step,
        block = block_dict "step" (VInt 1) [step]
        /\ (step_shape "coolDown" ["second"] step
            \/ step_shape "active" ["second"] step)).

(** The payload of [simple_to_tp_structure] with the blocks [blocks]. *)
Definition structure_of (intensity_metric : string) (blocks : list value)
    : value :=
  VDict [("primaryIntensityMetric", VStr intensity_metric);
         ("structure", VList blocks)].

(** An entry that is not a warm-up. *)
Definition not_warmup (entry : value) : Prop :=
  forall step_type, Py.item entry "type" = Ok step_type ->
                    Py.eq_str step_type "warmup" = false.

(** A warm-up, two warm-ups and a steady entry, for the examples. *)
Definition warmup_entry (duration : string) : value :=
  VDict [("type", VStr "warmup"); ("duration", VStr duration)].

Definition steady_entry (duration : string) : value :=
  VDict [("type", VStr "steady"); ("duration", VStr duration)].

(** What one turn of the loop keeps: the blocks have their shape, the
    pending warm-up steps are none or a ramp, and there are no more groups
    than entries read. *)
Definition compile_state_ok (read : nat) (st : list value * list value) : Prop :=
  Forall block_shape (fst st)
  /\ (snd st = [] \/ ramp_shape (snd st))
  /\ (length (flush_warmup (fst st) (snd st)) <= read)%nat.


(** An entry that the estimator skips: an object whose type is none of
    the four it knows. *)
Definition skipped_entry (entry : value) : Prop :=
  exists d,
    entry = VDict d
    /\ let step_type := Py.dget d "type" VNone in
       Py.eq_str step_type "warmup" = false
       /\ Py.eq_str step_type "steady" = false
       /\ Py.eq_str step_type "cooldown" = false
       /\ Py.eq_str step_type "interval" = false.

(** ** Date chunks ([utils/date_ranges.py])

    A [date] is its proleptic Gregorian ordinal, from 1 ([date.min]) to
    3652059 ([date.max]); adding a [timedelta] outside that range, or
    making a [timedelta] of more than 999999999 days, raises
    [OverflowError]. *)

Definition MAX_ORDINAL : Z := 3652059.

Definition MAX_DELTA_DAYS : Z := 999999999.

Definition valid_date (d : Z) : bool := (1 <=? d)%Z && (d <=? MAX_ORDINAL)%Z.

(** [d + timedelta(days=k)]. *)
Definition add_days (d k : Z) : result Z :=
  if (MAX_DELTA_DAYS <? Z.abs k)%Z then Raise OverflowError
  else if valid_date (d + k) then Ok (d + k)%Z
  else Raise OverflowError.

(** The generator of [chunk_date_range], run by a [for] loop from
    [cursor]: the chunks it yields and how it ends, or [None] when [fuel]
    turns of the loop do not end it.  A chunk is yielded before the cursor
    moves on. *)
Fixpoint chunk_loop (fuel : nat) (cursor end_ chunk_days : Z)
    : option (list (Z * Z) * result unit) :=
  match fuel with
  | O => None
  | S fuel' =>
      if (cursor <=? end_)%Z then
        match add_days cursor (chunk_days - 1) with
        | Raise e => Some ([], Raise e)
        | Ok reach =>
            let chunk_end := Z.min reach end_ in
            match add_days chunk_end 1 with
            | Raise e => Some ([(cursor, chunk_end)], Raise e)
            | Ok next =>
                match chunk_loop fuel' next end_ chunk_days with
                | Some (chunks, r) => Some ((cursor, chunk_end) :: chunks, r)
                | None => None
                end
            end
        end
      else Some ([], Ok tt)
  end.

Definition chunk_date_range (fuel : nat) (start end_ chunk_days : Z)
    : option (list (Z * Z) * result unit) :=
  chunk_loop fuel start end_ chunk_days.

(** The number of chunks of [chunk_days] days from [start] to [end_], and
    the chunks: the [i]-th one starts [i * chunk_days] days after [start]
    and ends [chunk_days - 1] days later, or at [end_] if that is
    earlier. *)
Definition chunk_count (start end_ chunk_days : Z) : nat :=
  if (start <=? end_)%Z then Z.to_nat ((end_ - start) / chunk_days + 1)
  else 0%nat.

Definition chunks_of (start end_ chunk_days : Z) : list (Z * Z) :=
  map (fun i : nat =>
         let first := (start + Z.of_nat i * chunk_days)%Z in
         (first, Z.min (first + chunk_days - 1) end_))
    (seq 0 (chunk_count start end_ chunk_days)).

(** ** The filters of [fetch_workouts_in_chunks] ([commands/common.py])

    The second half of the function, from the list [all_workouts] of the
    downloaded records to the list it returns; [rules] is what
    [classification_rules_from_config] gave. *)

Section Fetch.

Variable repr : value -> string.
Variable json_loads : string -> option value.
Variable sport_filter : string.
Variable type_filter : option string.
Variable min_tss max_tss : option Q.
Variable classify_method : string.
Variable rules : list (string * list string).

(** [sport_filter != "all" and sport_key != sport_filter]. *)
Definition wrong_sport (sport_key : option string) : bool :=
  negb (String.eqb sport_filter "all")
  && negb (Py.eq_str (opt_str sport_key) sport_filter).

(** [type_filter and classification.type != type_filter]. *)
Definition wrong_type (label : string) : bool :=
  match type_filter with
  | Some wanted => negb (String.eqb wanted "") && negb (String.eqb label wanted)
  | None => false
  end.

(** [workout.get("tssActual") or workout.get("tssPlanned")]. *)
Definition tss_of (workout : list (string * value)) : value :=
  Py.or_ (Py.dget workout "tssActual" VNone) (Py.dget workout "tssPlanned" VNone).

(** [min_tss is not None and (tss is None or float(tss) < min_tss)]. *)
Definition tss_below (tss : value) : result bool :=
  match min_tss with
  | None => Ok false
  | Some bound =>
      if is_none tss then Ok true
      else let* x := Py.float_ tss in Ok (Qlt_bool x bound)
  end.

(** [max_tss is not None and (tss is None or float(tss) > max_tss)]. *)
Definition tss_above (tss : value) : result bool :=
  match max_tss with
  | None => Ok false
  | Some bound =>
      if is_none tss then Ok true
      else let* x := Py.float_ tss in Ok (Qlt_bool bound x)
  end.

(** The tests of a turn after the classification is attached: whether the
    workout is appended. *)
Definition passes (label : string) (workout : list (string * value))
    : result bool :=
  if wrong_type label then Ok false
  else
    let tss := tss_of workout in
    let* below := tss_below tss in
    if below then Ok false
    else
      let* above := tss_above tss in
      Ok (negb above).

(** One turn of the loop over [all_workouts]: whether the workout is
    appended to [filtered]. *)
Definition fetch_turn (workout : positive) : St bool :=
  let! fields := read_dict workout in
  let! sport_key :=
    st_lift (sport_of (Py.dget fields "workoutTypeValueId" VNone)) in
  if wrong_sport sport_key then st_ret false
  else
    let! classification :=
      classify_with_metadata_st repr json_loads workout classify_method rules in
    let! fields := read_dict workout in
    let! _ :=
      write workout
        (ODict (dict_set fields "classification"
                  (classification_dict classification))) in
    let! fields := read_dict workout in
    st_lift (passes (wc_type classification) fields).

Fixpoint fetch_loop (all_workouts : list positive) : St (list positive) :=
  match all_workouts with
  | [] => st_ret []
  | workout :: rest =>
      let! kept := fetch_turn workout in
      let! filtered := fetch_loop rest in
      st_ret (if kept then workout :: filtered else filtered)
  end.

(** The loop, then [filtered.sort(key=..., reverse=True)]: the list is
    reversed, sorted by the stable sort and reversed again, so that
    workouts of the same day keep their order. *)
Definition fetch_filter (all_workouts : list positive) : St (list positive) :=
  let! filtered := fetch_loop all_workouts in
  let! records := read_records filtered in
  st_ret (map fst (rev (sort_by (fun p => day_key repr (snd p))
                          (rev (zip filtered records))))).

(** The record of a workout once a classification is attached. *)
Definition attached (workout : list (string * value))
    (c : WorkoutClassification) : list (string * value) :=
  dict_set workout "classification" (classification_dict c).

(** What a turn answers, read off the record alone. *)
Definition admits (workout : list (string * value)) : result bool :=
  let* sport_key := sport_of (Py.dget workout "workoutTypeValueId" VNone) in
  if wrong_sport sport_key then Ok false
  else
    let* c :=
      classify_with_metadata repr json_loads workout classify_method rules in
    passes (wc_type c) (attached workout c).

(** The record behind a reference, and whether it is one the loop keeps. *)
Definition record_at (s : store) (l : positive) : list (string * value) :=
  match s !! l with
  | Some (ODict fields) => fields
  | _ => []
  end.

Definition admitted (s : store) (l : positive) : bool :=
  match s !! l with
  | Some (ODict fields) =>
      match admits fields with
      | Ok true => true
      | _ => false
      end
  | _ => false
  end.

(** A record as it was, or with its own classification attached. *)
Definition settled (before after : list (string * value)) : Prop :=
  after = before
  \/ exists c,
       classify_with_metadata repr json_loads before classify_method rules
       = Ok c
       /\ after = attached before c.

(** The store changes by attaching classifications only. *)
Definition evolves (s s' : store) : Prop :=
  forall l,
    match s !! l with
    | Some (ODict before) =>
        exists after, s' !! l = Some (ODict after) /\ settled before after
    | o => s' !! l = o
    end.

(** A record that carries its own classification. *)
Definition classified (workout : list (string * value)) : Prop :=
  exists c,
    classify_with_metadata repr json_loads workout classify_method rules = Ok c
    /\ Py.lookup workout "classification" = Some (classification_dict c).

End Fetch.

(** Three downloaded workouts and the list of them. *)
Definition fetched_workout (day : string) (sport_id : Z) (title : string)
    (tss_actual tss_planned : value) : list (string * value) :=
  [ ("workoutDay", VStr day); ("workoutTypeValueId", VInt sport_id);
    ("title", VStr title); ("tssActual", tss_actual);
    ("tssPlanned", tss_planned) ].

Definition fetched_store : store :=
  <[1%positive := ODict (fetched_workout "2026-02-02" 3 "Easy jog" (VInt 45) VNone)]>
    (<[2%positive := ODict (fetched_workout "2026-02-10" 3 "Threshold run" (VInt 0) (VInt 80))]>
       (<[3%positive := ODict (fetched_workout "2026-02-05" 2 "Long ride" (VInt 150) VNone)]>
          (<[4%positive := ODict (fetched_workout "2026-02-08" 3 "Recovery" VNone VNone)]> ∅))).

(** ** Slugs ([utils/text.py]) *)

(** A character of the class [[a-z0-9]]. *)
Definition is_slug_char (c : ascii) : bool :=
  let n := Str.code c in
  ((97 <=? n) && (n <=? 122) || (48 <=? n) && (n <=? 57))%N.

(** [re.sub(r"[^a-z0-9]+", "-", text)]: every maximal run of characters
    outside the class becomes one hyphen; [in_run] tells that the hyphen of
    the run being read is written already. *)
Fixpoint sub_runs (in_run : bool) (text : string) : string :=
  match text with
  | EmptyString => EmptyString
  | String c rest =>
      if is_slug_char c then String c (sub_runs false rest)
      else if in_run then sub_runs true rest
      else String "-" (sub_runs true rest)
  end.

(** [s.strip("-")]. *)
Fixpoint lstrip_hyphens (s : string) : string :=
  match s with
  | EmptyString => EmptyString
  | String c r => if Ascii.eqb c "-" then lstrip_hyphens r else s
  end.

Fixpoint rstrip_hyphens (s : string) : string :=
  match s with
  | EmptyString => EmptyString
  | String c r =>
      match rstrip_hyphens r with
      | EmptyString =>
          if Ascii.eqb c "-" then EmptyString else String c EmptyString
      | r' => String c r'
      end
  end.

Definition strip_hyphens (s : string) : string :=
  rstrip_hyphens (lstrip_hyphens s).

(** [s[:n]]; a negative [n] counts from the end. *)
Definition up_to (n : Z) (s : string) : string :=
  if (0 <=? n)%Z then Str.take (Z.to_nat n) s
  else Str.drop_last (Z.to_nat (- n)) s.

Definition slugify (value : string) (max_len : Z) : string :=
  let slug := strip_hyphens (sub_runs false (Str.lower value)) in
  let slug := if String.eqb slug "" then "untitled" else slug in
  up_to max_len slug.

(** Characters of the class and single hyphens only; with [after_hyphen]
    the string does not start with a hyphen. *)
Fixpoint slug_shape (after_hyphen : bool) (s : string) : bool :=
  match s with
  | EmptyString => true
  | String c r =>
      if is_slug_char c then slug_shape false r
      else Ascii.eqb c "-" && negb after_hyphen && slug_shape true r
  end.

(** ** Merging a configuration into the defaults ([core/config.py]) *)

(** The loop of [_deep_merge] over the items of [override], on the copy
    [merged] of the base. *)
Fixpoint merge_into (override : value) (merged : list (string * value))
    {struct override} : list (string * value) :=
  match override with
  | VDict items =>
      (fix loop (items : list (string * value))
           (merged : list (string * value)) {struct items}
         : list (string * value) :=
         match items with
         | [] => merged
         | (key, v) :: rest =>
             loop rest
               match v, Py.lookup merged key with
               | VDict _, Some (VDict below) =>
                   dict_set merged key (VDict (merge_into v below))
               | _, _ => dict_set merged key v
               end
         end) items merged
  | _ => merged
  end.

Definition _deep_merge (base override : list (string * value))
    : list (string * value) :=
  merge_into (VDict override) base.

(** One turn of that loop. *)
Definition merge_item (merged : list (string * value))
    (item : string * value) : list (string * value) :=
  match snd item, Py.lookup merged (fst item) with
  | VDict over, Some (VDict below) =>
      dict_set merged (fst item) (VDict (_deep_merge below over))
  | v, _ => dict_set merged (fst item) v
  end.

(** What the merge leaves under a key that [override] binds to [v]. *)
Definition merged_value (below : option value) (v : value) : value :=
  match v, below with
  | VDict over, Some (VDict base) => VDict (_deep_merge base over)
  | _, _ => v
  end.

(** A dict has each key once, at every depth that the merge reaches. *)
Fixpoint well_keyed (v : value) : Prop :=
  match v with
  | VDict d =>
      NoDup (map fst d)
      /\ (fix all (d : list (string * value)) : Prop :=
            match d with
            | [] => True
            | (_, x) :: rest => well_keyed x /\ all rest
            end) d
  | _ => True
  end.

(** A part of the default configuration and a user's file. *)
Definition sample_defaults : list (string * value) :=
  [ ("classification",
     VDict [("method", VStr "auto"); ("rules", VDict [])]);
    ("zones",
     VDict [("easy_max", VInt 75); ("lt1_max", VInt 93);
            ("lt2_max", VInt 100)]);
    ("api", VDict [("max_retries", VInt 3)]) ].

Definition sample_user_config : list (string * value) :=
  [ ("zones", VDict [("lt1_max", VInt 90)]);
    ("api", VInt 0);
    ("export", VDict [("include_index", VBool false)]) ].

(** ** Text of a calendar entry ([commands/export.py]) *)

(** [s.replace(old, new)] for an [old] of one character. *)
Fixpoint replace_char (old : ascii) (new : string) (s : string) : string :=
  match s with
  | EmptyString => EmptyString
  | String c r =>
      if Ascii.eqb c old then (new ++ replace_char old new r)%string
      else String c (replace_char old new r)
  end.

Definition newline : ascii := "010"%char.

Definition _ics_escape (value : string) : string :=
  replace_char newline "\n"
    (replace_char "," "\,"
       (replace_char ";" "\;"
          (replace_char "\" "\\" value))).

(** What one character of the value becomes. *)
Definition escaped_char (c : ascii) : string :=
  if Ascii.eqb c "\" then "\\"
  else if Ascii.eqb c ";" then "\;"
  else if Ascii.eqb c "," then "\,"
  else if Ascii.eqb c newline then "\n"
  else String c EmptyString.

(** The text without its escaped pairs: every backslash is dropped with
    the character after it. *)
Fixpoint unescaped_part (s : string) : string :=
  match s with
  | EmptyString => EmptyString
  | String c r =>
      if Ascii.eqb c "\" then
        match r with
        | EmptyString => EmptyString
        | String _ r' => unescaped_part r'
        end
      else String c (unescaped_part r)
  end.

(** ** Date flags ([utils/date_ranges.py]) *)

Record date_flags : Type := DateFlags {
  start_date : option string;
  end_date : option string;
  last_days : option Z;
  last_weeks : option Z;
  last_months : option Z;
  this_week : bool;
  last_week : bool;
  this_month : bool;
  this_year : bool;
  all_time : bool
}.

(** The truth value of an optional string and of an optional integer. *)
Definition text_given (o : option string) : option string :=
  match o with
  | Some s => if String.eqb s "" then None else Some s
  | None => None
  end.

Definition count_given (o : option Z) : option Z :=
  match o with
  | Some n => if (n =? 0)%Z then None else Some n
  | None => None
  end.

(** [d.weekday()]: Monday is 0, and the day of ordinal 1 is a Monday. *)
Definition weekday (d : Z) : Z := ((d + 6) mod 7)%Z.

(** [date(2000, 1, 1)]. *)
Definition FIRST_DAY_OF_2000 : Z := 730120.

Section DateFlags.

(** [datetime.strptime(value, "%Y-%m-%d").date()]; [None] when it raises
    [ValueError]. *)
Variable parse_date : string -> option Z.

(** [date(now.year, now.month, 1)], the first day of the month after it
    ([None] when that is past the year 9999), [date(now.year, 1, 1)] and
    [date(now.year, 12, 31)]. *)
Variable month_start : Z -> Z.
Variable next_month_start : Z -> option Z.
Variable year_start : Z -> Z.
Variable year_end : Z -> Z.

Definition date_of (text : string) : result Z :=
  match parse_date text with
  | Some d => Ok d
  | None => Raise ValueError
  end.

(** [now - timedelta(days=max(days, 0))], with [now]. *)
Definition days_back (now days : Z) : result (Z * Z) :=
  let* start := add_days now (- Z.max days 0) in
  Ok (start, now).

(** [(start, start + timedelta(days=6))]. *)
Definition week_from (start : Z) : result (Z * Z) :=
  let* last := add_days start 6 in
  Ok (start, last).

Definition resolve_date_range (flags : date_flags) (now : Z)
    : result (Z * Z) :=
  match text_given (start_date flags), text_given (end_date flags) with
  | Some first, Some last =>
      let* a := date_of first in
      let* b := date_of last in
      Ok (a, b)
  | Some first, None =>
      let* a := date_of first in
      Ok (a, now)
  | None, Some last =>
      let* b := date_of last in
      Ok (FIRST_DAY_OF_2000, b)
  | None, None =>
      match count_given (last_days flags) with
      | Some n => days_back now (n - 1)
      | None =>
      match count_given (last_weeks flags) with
      | Some n => days_back now (n * 7 - 1)
      | None =>
      match count_given (last_months flags) with
      | Some n => days_back now (n * 30 - 1)
      | None =>
          if this_week flags then
            let* start := add_days now (- weekday now) in
            week_from start
          else if last_week flags then
            let* this_week_start := add_days now (- weekday now) in
            let* start := add_days this_week_start (- 7) in
            week_from start
          else if this_month flags then
            match next_month_start now with
            | Some next =>
                let* month_end := add_days next (- 1) in
                Ok (month_start now, month_end)
            | None => Raise ValueError
            end
          else if this_year flags then Ok (year_start now, year_end now)
          else if all_time flags then Ok (FIRST_DAY_OF_2000, now)
          else
            let* start := add_days now (- 29) in
            Ok (start, now)
      end end end
  end.

End DateFlags.

(** The flags of [--this-week], a day (14 February 2026, a Saturday) and
    a calendar that is not consulted. *)
Definition this_week_flags : date_flags :=
  DateFlags None None None None None true false false false false.

Definition sample_today : Z := 739661.

Definition no_calendar : Z -> Z := fun d => d.

(* ===================================================================== *)
(** * Properties *)
(* ===================================================================== *)

(** ** The zone classifier *)

Lemma Qle_bool_false (x y : Q) : Qle_bool x y = false <-> (y < x)%Q.
Proof.
  split; intros H.
  - apply Qnot_le_lt. intros Hle. apply Qle_bool_iff in Hle. congruence.
  - destruct (Qle_bool x y) eqn:E; [|reflexivity].
    apply Qle_bool_iff in E. exfalso. apply (Qlt_not_le _ _ H E).
Qed.






(** ** Week patterns *)

Lemma Qlt_bool_iff (x y : Q) : Qlt_bool x y = true <-> (x < y)%Q.
Proof.
  unfold Qlt_bool. rewrite negb_true_iff. apply Qle_bool_false.
Qed.

Lemma Qlt_bool_false (x y : Q) : Qlt_bool x y = false <-> ~ (x < y)%Q.
Proof.
  rewrite <- Qlt_bool_iff. destruct (Qlt_bool x y); split; congruence.
Qed.

(** C4.  [classify_week] gives a label for every input, choosing in this
    order: a race week; else an off week when there are at most 2 sessions
    and fewer than 20000 metres; else a start week without a delta; else
    recovery below -25, build above 15, maintenance otherwise; with the six
    sample weeks of the specification. *)
Theorem classify_week_priority_order
    (total_distance : Q) (total_sessions : Z) (has_race : bool)
    (delta_pct : option Q) :
  let label := classify_week total_distance total_sessions has_race delta_pct in
  let off_week := (total_sessions <= 2)%Z /\ (total_distance < 20000)%Q in
  label ∈ ["race"; "off"; "start"; "recovery"; "build"; "maintenance"]
  /\ (has_race = true -> label = "race")
  /\ (has_race = false -> off_week -> label = "off")
  /\ (has_race = false -> ~ off_week -> delta_pct = None -> label = "start")
  /\ (forall delta, has_race = false -> ~ off_week -> delta_pct = Some delta ->
        (delta < -25)%Q -> label = "recovery")
  /\ (forall delta, has_race = false -> ~ off_week -> delta_pct = Some delta ->
        ~ (delta < -25)%Q -> (15 < delta)%Q -> label = "build")
  /\ (forall delta, has_race = false -> ~ off_week -> delta_pct = Some delta ->
        ~ (delta < -25)%Q -> ~ (15 < delta)%Q -> label = "maintenance")
  /\ classify_week 10000 3 true (Some 10%Q) = "race"
  /\ classify_week 10000 2 false (Some 0%Q) = "off"
  /\ classify_week 30000 5 false None = "start"
  /\ classify_week 30000 5 false (Some (-30)%Q) = "recovery"
  /\ classify_week 30000 5 false (Some 20%Q) = "build"
  /\ classify_week 30000 5 false (Some 3%Q) = "maintenance".
Proof.
  intros label off_week.
  split.
  { subst label. unfold classify_week.
    destruct has_race; [set_solver|].
    destruct (_ && _); [set_solver|].
    destruct delta_pct as [delta|]; [|set_solver].
    destruct (Qlt_bool delta (-25)); [set_solver|].
    destruct (Qlt_bool 15 delta); set_solver. }
  assert (Hoff : (total_sessions <=? 2)%Z && Qlt_bool total_distance 20000 = true
                 <-> off_week).
  { unfold off_week. rewrite andb_true_iff, Z.leb_le, Qlt_bool_iff. tauto. }
  assert (Hnoff : ~ off_week ->
            (total_sessions <=? 2)%Z && Qlt_bool total_distance 20000 = false).
  { intros Hn. destruct (_ && _) eqn:E; [|reflexivity].
    exfalso. apply Hn, Hoff. reflexivity. }
  split; [intros ->; reflexivity|].
  split.
  { intros -> H. apply Hoff in H. subst label. unfold classify_week.
    rewrite H. reflexivity. }
  split.
  { intros -> H ->. subst label. unfold classify_week.
    rewrite (Hnoff H). reflexivity. }
  split.
  { intros delta -> H -> Hd. subst label. unfold classify_week.
    rewrite (Hnoff H). apply Qlt_bool_iff in Hd. rewrite Hd. reflexivity. }
  split.
  { intros delta -> H -> Hd Hd'. subst label. unfold classify_week.
    rewrite (Hnoff H). apply Qlt_bool_false in Hd. apply Qlt_bool_iff in Hd'.
    rewrite Hd, Hd'. reflexivity. }
  split.
  { intros delta -> H -> Hd Hd'. subst label. unfold classify_week.
    rewrite (Hnoff H). apply Qlt_bool_false in Hd, Hd'.
    rewrite Hd, Hd'. reflexivity. }
  repeat split.
Qed.

Lemma classify_week_priority_order_witness :
  classify_week 30000 5 false (Some (-30)%Q) = "recovery"
  /\ classify_week 12000 2 false None = "off".
Proof.
  split.
  - refine (proj1 (proj2 (proj2 (proj2 (proj2
      (classify_week_priority_order 30000 5 false (Some (-30)%Q))))))
      (-30)%Q eq_refl _ eq_refl eq_refl).
    intros [H _]. revert H. apply Z.lt_nge. reflexivity.
  - refine (proj1 (proj2 (proj2
      (classify_week_priority_order 12000 2 false None))) eq_refl _).
    split; [apply Z.leb_le|]; reflexivity.
Defined.

(** ** Length tokens *)












(** ** The DSL compiler *)

Lemma min_targets_returns (t : value) :
  target_typed t -> exists targets, min_targets t = Ok targets.
Proof.
  intros Ht. unfold min_targets, parse_target.
  destruct (Py.truthy t) eqn:E; [|eauto].
  destruct (Ht E) as [s ->]. simpl. eauto.
Qed.

Lemma on_targets_of_returns (t : value) :
  target_typed t -> exists targets, on_targets_of t = Ok targets.
Proof.
  intros Ht. unfold on_targets_of.
  destruct (Py.truthy t) eqn:E; [|eauto].
  destruct (Ht E) as [s ->].
  destruct (match_range s) as [[lo hi]|]; [eauto|].
  destruct (match_single s); eauto.
Qed.

(** C7.  An interval entry whose [on] and [off] lengths parse compiles to
    exactly one block, after the pending warm-up steps if any: a
    [repetition] block whose length is the entry's [reps] (1 when absent)
    in unit [repetition] and whose steps are the "on" step, of class
    [active], then the "off" step, of class [rest] and named [Easy] unless
    [off_name] is given.  The entry with 4 reps, on 8:00 and off 2:00 gives
    one repetition block of length 4 with two steps. *)
Theorem interval_entry_compiles_to_repetition
    (d : list (string * value)) (on off : value)
    (on_value off_value : Z) (on_unit off_unit : string)
    (blocks warmup_steps : list value) (intensity_metric : string) :
  Py.lookup d "type" = Some (VStr "interval") ->
  Py.lookup d "on" = Some on ->
  parse_length_of on = Ok (on_value, on_unit) ->
  Py.lookup d "off" = Some off ->
  parse_length_of off = Ok (off_value, off_unit) ->
  target_typed (Py.dget d "on_target" VNone) ->
  target_typed (Py.dget d "off_target" VNone) ->
  (exists block_fields on_fields off_fields,
      compile_entry (VDict d) (blocks, warmup_steps)
        = Ok (flush_warmup blocks warmup_steps ++ [VDict block_fields], [])
      /\ simple_to_tp_structure [VDict d] intensity_metric
        = Ok (VDict [("primaryIntensityMetric", VStr intensity_metric);
                     ("structure", VList [VDict block_fields])])
      /\ Py.lookup block_fields "type" = Some (VStr "repetition")
      /\ Py.lookup block_fields "length"
        = Some (VDict [("value", Py.dget d "reps" (VInt 1));
                       ("unit", VStr "repetition")])
      /\ Py.lookup block_fields "steps"
        = Some (VList [VDict on_fields; VDict off_fields])
      /\ Py.lookup on_fields "intensityClass" = Some (VStr "active")
      /\ Py.lookup on_fields "length"
        = Some (VDict [("value", VInt on_value); ("unit", VStr on_unit)])
      /\ Py.lookup off_fields "intensityClass" = Some (VStr "rest")
      /\ Py.lookup off_fields "name" = Some (Py.dget d "off_name" (VStr "Easy"))
      /\ Py.lookup off_fields "length"
        = Some (VDict [("value", VInt off_value); ("unit", VStr off_unit)]))
  /\ (exists on_step off_step,
        simple_to_tp_structure
          [VDict [("type", VStr "interval"); ("reps", VInt 4);
                  ("on", VStr "8:00"); ("off", VStr "2:00")]]
          intensity_metric
        = Ok (VDict [("primaryIntensityMetric", VStr intensity_metric);
                     ("structure",
                      VList [VDict [("type", VStr "repetition");
                                    ("length",
                                     VDict [("value", VInt 4);
                                            ("unit", VStr "repetition")]);
                                    ("steps",
                                     VList [on_step; off_step])]])])).
Proof.
  intros Htype Hon Pon Hoff Poff Ton Toff.
  destruct (on_targets_of_returns _ Ton) as [on_targets Eon].
  destruct (min_targets_returns _ Toff) as [off_targets Eoff].
  assert (Hentry : forall bs ws,
    compile_entry (VDict d) (bs, ws)
    = Ok (flush_warmup bs ws
            ++ [interval_block d on_value on_unit on_targets
                  off_value off_unit off_targets], [])).
  { intros bs ws. unfold compile_entry. simpl.
    rewrite Htype. simpl. rewrite Hon. simpl. rewrite Pon. simpl.
    rewrite Hoff. simpl. rewrite Poff. simpl. rewrite Eon. simpl.
    rewrite Eoff. reflexivity. }
  split.
  - eexists _, _, _. split; [apply Hentry|].
    split.
    { unfold simple_to_tp_structure, compile_loop.
      rewrite Hentry. reflexivity. }
    repeat split.
  - eexists _, _. reflexivity.
Qed.

Lemma interval_entry_compiles_to_repetition_witness :
  exists block_fields on_step off_step,
    simple_to_tp_structure
      [VDict [("type", VStr "interval"); ("reps", VInt 4);
              ("on", VStr "8:00"); ("off", VStr "2:00")]]
      "percentOfThresholdPace"
    = Ok (VDict [("primaryIntensityMetric", VStr "percentOfThresholdPace");
                 ("structure", VList [VDict block_fields])])
    /\ Py.lookup block_fields "length"
       = Some (VDict [("value", VInt 4); ("unit", VStr "repetition")])
    /\ Py.lookup block_fields "steps" = Some (VList [on_step; off_step]).
Proof.
  destruct (interval_entry_compiles_to_repetition
              [("type", VStr "interval"); ("reps", VInt 4);
               ("on", VStr "8:00"); ("off", VStr "2:00")]
              (VStr "8:00") (VStr "2:00") 480 120 "second" "second"
              [] [] "percentOfThresholdPace"
              eq_refl eq_refl eq_refl eq_refl eq_refl)
    as [(bf & onf & offf & _ & Hs & _ & Hl & Hst & _) _].
  - intros H. discriminate H.
  - intros H. discriminate H.
  - exists bf, (VDict onf), (VDict offf). split; [exact Hs|]. split; assumption.
Defined.

(** ** The duration and distance estimator *)



Lemma half_up_unique (x : Q) (r r' : Z) : half_up x r -> half_up x r' -> r = r'.
Proof.
  intros [H1 H2] [H3 H4].
  assert (A : (inject_Z r < inject_Z r' + 1)%Q) by lra.
  assert (B : (inject_Z r' < inject_Z r + 1)%Q) by lra.
  change 1%Q with (inject_Z 1) in A, B.
  rewrite <- (inject_Z_plus r' 1) in A. rewrite <- (inject_Z_plus r 1) in B.
  rewrite <- Zlt_Qlt in A, B. lia.
Qed.

Lemma digits_go_nonneg (s : string) (acc : Z) :
  (0 <= acc)%Z -> (0 <= fst (digits_go s acc))%Z.
Proof.
  revert acc. induction s as [|c r IH]; intros acc Hacc; simpl; [exact Hacc|].
  destruct (Str.is_digit c) eqn:E; [|exact Hacc].
  apply IH. unfold Str.is_digit in E. unfold Str.digit_val.
  apply andb_true_iff in E as [E _]. apply N.leb_le in E. lia.
Qed.

Lemma leading_digits_nonneg (s : string) (n : Z) (r : string) :
  leading_digits s = Some (n, r) -> (0 <= n)%Z.
Proof.
  unfold leading_digits. destruct s as [|c s]; [discriminate|].
  destruct (Str.is_digit c) eqn:E; [|discriminate].
  intros H. inversion H as [H'].
  assert (Hd : (0 <= Str.digit_val c)%Z).
  { unfold Str.is_digit in E. unfold Str.digit_val.
    apply andb_true_iff in E as [E _]. apply N.leb_le in E. lia. }
  pose proof (digits_go_nonneg s _ Hd) as Hn. rewrite H' in Hn. exact Hn.
Qed.

Lemma match_single_nonneg (s : string) (n : Z) :
  match_single s = Some n -> (0 <= n)%Z.
Proof.
  unfold match_single. destruct (leading_digits s) as [[m r]|] eqn:E; [|discriminate].
  intros H. inversion H; subst. eapply leading_digits_nonneg, E.
Qed.


Lemma inject_Z_nonneg (z : Z) : (0 <= z)%Z -> (0 <= inject_Z z)%Q.
Proof. intros H. change 0%Q with (inject_Z 0). rewrite <- Zle_Qle. exact H. Qed.










(** ** The workout-type classifier *)

Lemma startswith_spec (p s : string) :
  Str.startswith p s = true <-> exists rest, s = (p ++ rest)%string.
Proof.
  revert s. induction p as [|a p IH]; intros s; simpl.
  - split; [intros _; exists s; reflexivity|reflexivity].
  - destruct s as [|b s].
    + split; [discriminate|intros [rest H]; discriminate H].
    + rewrite andb_true_iff, Ascii.eqb_eq, IH. split.
      * intros [-> [rest ->]]. exists rest. reflexivity.
      * intros [rest H]. inversion H; subst. eauto.
Qed.

Lemma contains_spec (needle hay : string) :
  Str.contains needle hay = true <-> substring needle hay.
Proof.
  unfold substring. induction hay as [|c r IH].
  - simpl. rewrite orb_false_r, startswith_spec. split.
    + intros [rest H]. exists EmptyString, rest. exact H.
    + intros (a & b & H). destruct a; [|discriminate H]. exists b. exact H.
  - cbn [Str.contains]. rewrite orb_true_iff, startswith_spec, IH. split.
    + intros [[rest H]|(a & b & H)].
      * exists EmptyString, rest. exact H.
      * exists (String c a), b. simpl. rewrite H. reflexivity.
    + intros (a & b & H). destruct a as [|c' a].
      * left. exists b. exact H.
      * right. inversion H; subst. eauto.
Qed.

Lemma rule_matches_spec (text : string) (keywords : list string) :
  rule_matches text keywords = true
  <-> exists keyword, keyword ∈ keywords /\ substring keyword text.
Proof.
  unfold rule_matches. rewrite existsb_exists. split.
  - intros (k & Hin & H). exists k. split; [apply list_elem_of_In, Hin|].
    apply contains_spec, H.
  - intros (k & Hin & H). exists k. split; [apply list_elem_of_In, Hin|].
    apply contains_spec, H.
Qed.

Lemma first_match_hit (text : string) (pre post : list (string * list string))
    (workout_type : string) (keywords : list string) :
  Forall (fun rule => rule_matches text (snd rule) = false) pre ->
  rule_matches text keywords = true ->
  first_match text (pre ++ (workout_type, keywords) :: post) = workout_type.
Proof.
  intros Hpre Hhit. induction Hpre as [|[t ks] pre Hrule _ IH]; simpl.
  - rewrite Hhit. reflexivity.
  - simpl in Hrule. rewrite Hrule. exact IH.
Qed.

Lemma first_match_miss (text : string) (rules : list (string * list string)) :
  Forall (fun rule => rule_matches text (snd rule) = false) rules ->
  first_match text rules = "other".
Proof.
  induction 1 as [|[t ks] rules Hrule _ IH]; simpl; [reflexivity|].
  simpl in Hrule. rewrite Hrule. exact IH.
Qed.

Lemma no_keyword_no_match (text : string) (rules : list (string * list string)) :
  (forall workout_type keywords keyword,
      (workout_type, keywords) ∈ rules -> keyword ∈ keywords ->
      ~ substring keyword text) ->
  Forall (fun rule => rule_matches text (snd rule) = false) rules.
Proof.
  intros H. apply Forall_forall. intros [t ks] Hin. simpl.
  destruct (rule_matches text ks) eqn:E; [|reflexivity].
  apply rule_matches_spec in E as (k & Hk & Hsub).
  exfalso. exact (H t ks k Hin Hk Hsub).
Qed.

Lemma race_has_priority : "race" ∈ _PRIORITY_KEYWORD_TYPES.
Proof. unfold _PRIORITY_KEYWORD_TYPES. set_solver. Qed.

(** C3.  The keyword label is the type of the first rule, in list order,
    one of whose keywords occurs in the lowercased title, description,
    coach comments and tags, and [other] when no rule matches; a keyword
    label among race, test, strength, long and sprint is the workout's
    label whatever its structure; otherwise the structural label is used
    when there is one and the keyword label when there is none.  With the
    default rules a text containing "race" is labelled race, also when it
    contains "threshold" and when the structure alone gives lt2. *)
Theorem classify_keyword_priority_then_structure
    (repr : value -> string) (json_loads : string -> option value)
    (workout : list (string * value)) (rules : list (string * list string)) :
  let field key := str_ repr (Py.or_ (Py.dget workout key VNone) (VStr "")) in
  let text := _normalized_text repr workout in
  let keyword_label := _classify_by_keywords repr workout rules in
  let classify := classify_workout repr json_loads workout in
  text = Str.lower (field "title" ++ " " ++ field "description" ++ " "
                    ++ field "coachComments" ++ " " ++ field "userTags")%string
  /\ (forall pre workout_type keywords post,
        rules = pre ++ (workout_type, keywords) :: post ->
        (forall t ks k, (t, ks) ∈ pre -> k ∈ ks -> ~ substring k text) ->
        (exists k, k ∈ keywords /\ substring k text) ->
        keyword_label = workout_type)
  /\ ((forall t ks k, (t, ks) ∈ rules -> k ∈ ks -> ~ substring k text) ->
      keyword_label = "other")
  /\ (keyword_label ∈ _PRIORITY_KEYWORD_TYPES ->
      _classify_with_source repr json_loads workout rules
        = Ok (keyword_label, "keyword")
      /\ classify rules = Ok keyword_label)
  /\ (forall label,
        keyword_label ∉ _PRIORITY_KEYWORD_TYPES ->
        _classify_from_structure repr json_loads workout = Ok (Some label) ->
        _classify_with_source repr json_loads workout rules
          = Ok (label, "structure")
        /\ classify rules = Ok label)
  /\ (keyword_label ∉ _PRIORITY_KEYWORD_TYPES ->
      _classify_from_structure repr json_loads workout = Ok None ->
      _classify_with_source repr json_loads workout rules
        = Ok (keyword_label, "keyword")
      /\ classify rules = Ok keyword_label)
  /\ (substring "race" text -> classify TYPE_RULES = Ok "race")
  /\ (_classify_from_structure repr json_loads race_workout = Ok (Some "lt2")
      /\ classify_workout repr json_loads race_workout TYPE_RULES = Ok "race").
Proof.
  intros field text keyword_label classify.
  split; [reflexivity|].
  split.
  { intros pre workout_type keywords post -> Hpre Hhit.
    apply first_match_hit.
    - apply no_keyword_no_match. exact Hpre.
    - apply rule_matches_spec, Hhit. }
  split.
  { intros Hnone. apply first_match_miss, no_keyword_no_match, Hnone. }
  assert (Hprio : forall rules',
    _classify_by_keywords repr workout rules' ∈ _PRIORITY_KEYWORD_TYPES ->
    _classify_with_source repr json_loads workout rules'
      = Ok (_classify_by_keywords repr workout rules', "keyword")
    /\ classify_workout repr json_loads workout rules'
      = Ok (_classify_by_keywords repr workout rules')).
  { intros rules' Hin.
    assert (E : _classify_with_source repr json_loads workout rules'
                = Ok (_classify_by_keywords repr workout rules', "keyword")).
    { unfold _classify_with_source.
      rewrite bool_decide_eq_true_2 by exact Hin. reflexivity. }
    split; [exact E|]. unfold classify_workout. rewrite E. reflexivity. }
  split; [apply Hprio|].
  split.
  { intros label Hnot Hs.
    assert (E : _classify_with_source repr json_loads workout rules
                = Ok (label, "structure")).
    { unfold _classify_with_source.
      rewrite bool_decide_eq_false_2 by exact Hnot. rewrite Hs. reflexivity. }
    split; [exact E|]. unfold classify, classify_workout. rewrite E. reflexivity. }
  split.
  { intros Hnot Hs.
    assert (E : _classify_with_source repr json_loads workout rules
                = Ok (keyword_label, "keyword")).
    { unfold _classify_with_source.
      rewrite bool_decide_eq_false_2 by exact Hnot. rewrite Hs. reflexivity. }
    split; [exact E|]. unfold classify, classify_workout. rewrite E. reflexivity. }
  split.
  { intros Hrace.
    assert (E : _classify_by_keywords repr workout TYPE_RULES = "race").
    { unfold _classify_by_keywords, TYPE_RULES. fold text.
      apply (first_match_hit text []); [constructor|].
      apply rule_matches_spec. exists "race". split; [constructor|exact Hrace]. }
    destruct (Hprio TYPE_RULES) as [_ H].
    - rewrite E. apply race_has_priority.
    - unfold classify. rewrite H, E. reflexivity. }
  split; vm_compute; reflexivity.
Qed.

Lemma classify_keyword_priority_then_structure_witness :
  _classify_by_keywords (fun _ => "") race_workout TYPE_RULES = "race"
  /\ classify_workout (fun _ => "") (fun _ => None) race_workout TYPE_RULES
     = Ok "race".
Proof.
  destruct (classify_keyword_priority_then_structure
              (fun _ => "") (fun _ => None) race_workout TYPE_RULES)
    as (_ & Hfirst & _ & Hprio & _).
  assert (E : _classify_by_keywords (fun _ => "") race_workout TYPE_RULES
              = "race").
  { apply (Hfirst [] "race"
             ["race"; "competition"; "event"; "marathon"; "triathlon"; "70.3"]
             (tail TYPE_RULES) eq_refl).
    - intros t ks k Hin. inversion Hin.
    - exists "race". split; [constructor|].
      exists "", " day prep local race effort  ". reflexivity. }
  split; [exact E|].
  destruct Hprio as [_ H]; [rewrite E; apply race_has_priority|].
  rewrite H, E. reflexivity.
Defined.

(** ** Steps without duration in the structural signal *)

Lemma step_load_untimed (seconds : Q) (rep_count : Z) (pct : Q) :
  (0 < pct)%Q -> (seconds <= 0)%Q -> step_load seconds rep_count pct = 30%Q.
Proof.
  intros Hpct Hs. unfold step_load.
  assert (Hrep : (0 <= inject_Z (Z.max rep_count 1))%Q).
  { apply inject_Z_nonneg. lia. }
  assert (Hload : (seconds * inject_Z (Z.max rep_count 1) <= 0)%Q).
  { set (k := inject_Z (Z.max rep_count 1)) in *. nra. }
  apply Qle_bool_iff in Hload. apply Qlt_bool_iff in Hpct.
  rewrite Hload, Hpct. reflexivity.
Qed.

Lemma _length_to_seconds_nonneg (repr : value -> string) (length : value)
    (seconds : Q) :
  _length_to_seconds repr length = Ok seconds -> (0 <= seconds)%Q.
Proof.
  unfold _length_to_seconds. destruct length; try discriminate. simpl.
  destruct (Py.float_ _) as [v|e].
  2:{ destruct e; intros H; inversion H; subst; lra. }
  destruct (Qle_bool v 0) eqn:E; [intros H; inversion H; lra|].
  apply Qle_bool_false in E.
  repeat match goal with
    | |- context [String.eqb ?u ?k] => destruct (String.eqb u k)
    end; intros H; inversion H; subst; try lra.
  apply Qle_shift_div_l; [reflexivity|]. lra.
Qed.

Lemma _length_to_seconds_no_value (repr : value -> string)
    (d : list (string * value)) :
  Py.dget d "value" VNone = VNone ->
  _length_to_seconds repr (VDict d) = Ok 0%Q.
Proof.
  intros H. unfold _length_to_seconds. simpl. rewrite H. reflexivity.
Qed.

Lemma _length_to_seconds_non_positive (repr : value -> string)
    (d : list (string * value)) (q : Q) :
  Py.dget d "value" VNone = VNum q -> (q <= 0)%Q ->
  _length_to_seconds repr (VDict d) = Ok 0%Q.
Proof.
  intros H Hq. unfold _length_to_seconds. simpl. rewrite H.
  unfold Py.or_. destruct (Py.truthy (VNum q)); simpl; [|reflexivity].
  apply Qle_bool_iff in Hq. rewrite Hq. reflexivity.
Qed.

Lemma _length_to_seconds_other_unit (repr : value -> string)
    (d : list (string * value)) (q : Q) :
  Py.dget d "value" VNone = VNum q ->
  Str.lower (str_ repr (Py.or_ (Py.dget d "unit" VNone) (VStr ""))) ∉ timed_units ->
  _length_to_seconds repr (VDict d) = Ok 0%Q.
Proof.
  intros H Hu. unfold _length_to_seconds. simpl. rewrite H.
  set (unit := Str.lower _) in *.
  assert (Hne : forall k, k ∈ timed_units -> String.eqb unit k = false).
  { intros k Hk. apply String.eqb_neq. intros ->. exact (Hu Hk). }
  assert (Hf : exists v, Py.float_ (Py.or_ (VNum q) (VInt 0)) = Ok v).
  { unfold Py.or_. destruct (Py.truthy (VNum q)); simpl; eauto. }
  destruct Hf as [v ->].
  destruct (Qle_bool v 0); [reflexivity|].
  rewrite !Hne by (unfold timed_units; set_solver). reflexivity.
Qed.

(** C10.  A step with a positive intensity whose length gives no seconds
    (no value, a value that is not positive, or a unit that is none of
    second, minute, hour, meter, kilometer) adds exactly 30 seconds to the
    load of its zone, whatever the repetition count of its block.  Six such
    steps above 100% therefore reach the 180 seconds of vo2 and turn the
    label from lt2 into vo2; six reach the 180 seconds of lt2 and ten the
    300 seconds of lt1. *)
Theorem untimed_steps_are_credited_30_seconds
    (repr : value -> string) (json_loads : string -> option value) :
  (forall seconds rep_count pct,
      (0 < pct)%Q -> (seconds <= 0)%Q ->
      step_load seconds rep_count pct = 30%Q)
  /\ (forall length seconds,
        _length_to_seconds repr length = Ok seconds -> (0 <= seconds)%Q)
  /\ (forall d,
        Py.dget d "value" VNone = VNone ->
        _length_to_seconds repr (VDict d) = Ok 0%Q)
  /\ (forall d q,
        Py.dget d "value" VNone = VNum q -> (q <= 0)%Q ->
        _length_to_seconds repr (VDict d) = Ok 0%Q)
  /\ (forall d q,
        Py.dget d "value" VNone = VNum q ->
        Str.lower (str_ repr (Py.or_ (Py.dget d "unit" VNone) (VStr "")))
          ∉ timed_units ->
        _length_to_seconds repr (VDict d) = Ok 0%Q)
  /\ (forall block_type rep_count step t pct zone seconds,
        _step_intensity_pct step = Ok pct ->
        (0 < pct)%Q ->
        classify_zone pct block_type
          (str_ repr (Py.or_ (Py.dget step "intensityClass" VNone)
                        (VStr "active")))
          DEFAULT_ZONE_THRESHOLDS = Ok zone ->
        _length_to_seconds repr (Py.dget step "length" (VDict [])) = Ok seconds ->
        (seconds <= 0)%Q ->
        tally_step repr block_type rep_count step t
        = Ok (Tally (zone_update (zone_loads t) zone (fun x => x + 30)%Q)
                (zone_update (zone_counts t) zone (fun n => n + 1)%Z)
                true (py_max (max_pct t) pct)))
  /\ (exists t6 t5,
        structure_tally repr json_loads (untimed_workout 6 103) = Ok t6
        /\ (z_vo2 (zone_loads t6) == 180)%Q
        /\ _classify_from_structure repr json_loads (untimed_workout 6 103)
           = Ok (Some "vo2")
        /\ structure_label
             (Tally (Zones 0 0 0 0)%Q (zone_counts t6) true (max_pct t6))
           = Some "lt2"
        /\ structure_tally repr json_loads (untimed_workout 5 103) = Ok t5
        /\ (z_vo2 (zone_loads t5) == 150)%Q
        /\ _classify_from_structure repr json_loads (untimed_workout 5 103)
           = Ok (Some "lt2"))
  /\ (exists t,
        structure_tally repr json_loads (untimed_workout 6 97) = Ok t
        /\ (z_lt2 (zone_loads t) + z_vo2 (zone_loads t) == 180)%Q
        /\ _classify_from_structure repr json_loads (untimed_workout 6 97)
           = Ok (Some "lt2"))
  /\ (exists t,
        structure_tally repr json_loads (untimed_workout 10 85) = Ok t
        /\ (z_lt1 (zone_loads t) == 300)%Q
        /\ _classify_from_structure repr json_loads (untimed_workout 10 85)
           = Ok (Some "lt1")).
Proof.
  split; [apply step_load_untimed|].
  split; [apply _length_to_seconds_nonneg|].
  split; [apply _length_to_seconds_no_value|].
  split; [apply _length_to_seconds_non_positive|].
  split; [apply _length_to_seconds_other_unit|].
  split.
  { intros block_type rep_count step t pct zone seconds Hpct Hpos Hzone Hlen Hs.
    unfold tally_step. rewrite Hpct. simpl. rewrite Hzone. simpl.
    rewrite Hlen. simpl. rewrite (step_load_untimed _ _ _ Hpos Hs).
    apply Qlt_bool_iff in Hpos. rewrite Hpos, orb_true_r. reflexivity. }
  split.
  { eexists _, _. split; [vm_compute; reflexivity|].
    split; [reflexivity|]. split; [vm_compute; reflexivity|].
    split; [vm_compute; reflexivity|]. split; [vm_compute; reflexivity|].
    split; [reflexivity|vm_compute; reflexivity]. }
  split.
  { eexists. split; [vm_compute; reflexivity|].
    split; [reflexivity|vm_compute; reflexivity]. }
  eexists. split; [vm_compute; reflexivity|].
  split; [reflexivity|vm_compute; reflexivity].
Qed.

Lemma untimed_steps_are_credited_30_seconds_witness :
  tally_step (fun _ => "") "repetition" 5 (untimed_step 103) tally0
  = Ok (Tally (Zones 0 0 0 (0 + 30))%Q (Zones 0 0 0 (0 + 1))%Z true 103%Q).
Proof.
  destruct (untimed_steps_are_credited_30_seconds (fun _ => "") (fun _ => None))
    as (_ & _ & _ & _ & _ & H & _).
  apply (H "repetition" 5%Z (untimed_step 103) tally0 103%Q vo2 0%Q).
  - reflexivity.
  - reflexivity.
  - reflexivity.
  - reflexivity.
  - discriminate.
Defined.

(** ** The zone-distance decomposer *)

Lemma classify_zone_returns pct block_type intensity_class thresholds :
  has_thresholds thresholds ->
  exists zone, classify_zone pct block_type intensity_class thresholds = Ok zone.
Proof.
  intros ([e He] & [l1 Hl1] & [l2 Hl2]). unfold classify_zone, threshold.
  destruct (String.eqb _ "rampup"); [eauto|].
  destruct (bool_decide _); [eauto|].
  rewrite He, Hl1, Hl2. simpl.
  destruct (Qle_bool pct e); [eauto|].
  destruct (Qle_bool pct l1); [eauto|].
  destruct (Qle_bool pct l2); eauto.
Qed.











(** ** Weekly hard load and injury risk *)











Lemma sort_by_Forall {A : Type} (key : A -> string) (P : A -> Prop)
    (l : list A) :
  Forall P l -> Forall P (sort_by key l).
Proof.
  induction 1 as [|x l Hx _ IH]; simpl; [constructor|].
  revert IH. generalize (sort_by key l). intros sorted Hsorted.
  induction Hsorted as [|y rest Hy Hrest IH']; simpl.
  - constructor; [exact Hx|constructor].
  - destruct (String.leb (key x) (key y)).
    + constructor; [exact Hx|]. constructor; assumption.
    + constructor; assumption.
Qed.








(** ** The reports and the objects they are given *)
















Lemma lookup_dict_set_same (d : list (string * value)) (key : string) (v : value) :
  Py.lookup (dict_set d key v) key = Some v.
Proof.
  induction d as [|[k x] rest IH]; simpl.
  - rewrite String.eqb_refl. reflexivity.
  - destruct (String.eqb k key) eqn:E; simpl; rewrite E; [reflexivity|exact IH].
Qed.

Lemma lookup_dict_set_other (d : list (string * value)) (key other : string)
    (v : value) :
  other <> key -> Py.lookup (dict_set d key v) other = Py.lookup d other.
Proof.
  intros Hne. induction d as [|[k x] rest IH]; simpl.
  - apply String.eqb_neq in Hne. rewrite String.eqb_sym, Hne. reflexivity.
  - destruct (String.eqb_spec k key) as [->|Hk]; simpl.
    + apply String.eqb_neq in Hne. rewrite String.eqb_sym, Hne. reflexivity.
    + rewrite IH. reflexivity.
Qed.



(** ** The reports on the store return what they return on the records *)

Lemma read_records_at (s : store) (items : list positive)
    (records : list (list (string * value))) :
  records_at s items records -> read_records items s = (Ok records, s).
Proof.
  unfold read_records.
  induction 1 as [|l fields items records Hl _ IH]; [reflexivity|].
  cbn [st_map]. unfold st_bind at 1. unfold read_dict at 1. rewrite Hl.
  unfold st_bind at 1. rewrite IH. reflexivity.
Qed.

Lemma filter_by_zip (keep : list (string * value) -> result bool)
    (items : list positive) (records : list (list (string * value))) :
  length items = length records ->
  filter_by (fun w => w) keep records
  = (let* kept := filter_by snd keep (zip items records) in Ok (map snd kept)).
Proof.
  revert records. induction items as [|l items IH]; intros [|r records] Hlen;
    try discriminate Hlen; [reflexivity|].
  cbn [zip zip_with filter_by snd]. destruct (keep r) as [kept|e]; [|reflexivity].
  cbn [bind]. rewrite (IH records) by (simpl in Hlen; lia).
  destruct (filter_by snd keep (zip items records)) as [xs|e]; [|reflexivity].
  cbn [bind]. destruct kept; reflexivity.
Qed.

Lemma filter_by_Forall {A : Type} (record_of : A -> list (string * value))
    (keep : list (string * value) -> result bool) (P : A -> Prop)
    (l xs : list A) :
  Forall P l -> filter_by record_of keep l = Ok xs -> Forall P xs.
Proof.
  intros Hl. revert xs. induction Hl as [|x l Hx _ IH]; intros xs; cbn [filter_by].
  - intros H. inversion H. constructor.
  - destruct (keep (record_of x)) as [kept|e]; [|discriminate]. cbn [bind].
    destruct (filter_by record_of keep l) as [ys|e]; [|discriminate]. cbn [bind].
    intros H. inversion H; subst.
    destruct kept; [constructor; [exact Hx|]|]; apply IH; reflexivity.
Qed.

Lemma insert_by_map_snd {A : Type} (key : list (string * value) -> string)
    (x : A * list (string * value)) (l : list (A * list (string * value))) :
  map snd (insert_by (fun p => key (snd p)) x l)
  = insert_by key (snd x) (map snd l).
Proof.
  induction l as [|y l IH]; [reflexivity|]. cbn [insert_by map].
  destruct (String.leb (key (snd x)) (key (snd y))); [reflexivity|].
  cbn [map]. rewrite IH. reflexivity.
Qed.

Lemma sort_by_map_snd {A : Type} (key : list (string * value) -> string)
    (l : list (A * list (string * value))) :
  map snd (sort_by (fun p => key (snd p)) l) = sort_by key (map snd l).
Proof.
  unfold sort_by. induction l as [|x l IH]; [reflexivity|].
  cbn [foldr map]. rewrite insert_by_map_snd, IH. reflexivity.
Qed.

Lemma records_at_pairs (s : store)
    (pairs : list (positive * list (string * value))) :
  Forall (fun p => s !! fst p = Some (ODict (snd p))) pairs ->
  records_at s (map fst pairs) (map snd pairs).
Proof.
  unfold records_at. induction 1; cbn [map]; constructor; assumption.
Qed.

Lemma records_at_zip (s : store) (items : list positive)
    (records : list (list (string * value))) :
  records_at s items records ->
  Forall (fun p => s !! fst p = Some (ODict (snd p))) (zip items records).
Proof.
  induction 1; cbn [zip zip_with]; constructor; assumption.
Qed.

(** The rows that [sorted_copy] returns are the kept records, sorted. *)
Lemma sorted_copy_result (s : store)
    (keep : list (string * value) -> result bool)
    (key : list (string * value) -> string) (workouts : positive)
    (items : list positive) (records : list (list (string * value))) :
  s !! workouts = Some (OList items) ->
  records_at s items records ->
  (sorted_copy keep key workouts s).1
  = (let* rows := filter_by (fun w => w) keep records in
     Ok (sort_by key rows)).
Proof.
  intros Hlist Hrecords.
  rewrite (filter_by_zip keep items records)
    by (eapply Forall2_length, Hrecords).
  unfold sorted_copy. unfold st_bind at 1. unfold read_list at 1. rewrite Hlist.
  unfold st_bind at 1. rewrite (read_records_at _ _ _ Hrecords).
  unfold st_bind at 1. unfold st_lift at 1.
  destruct (filter_by snd keep (zip items records)) as [kept|e] eqn:Ekept;
    [|reflexivity].
  cbn [bind].
  assert (Hkept : Forall (fun p => s !! fst p = Some (ODict (snd p))) kept).
  { eapply filter_by_Forall; [|exact Ekept]. apply records_at_zip, Hrecords. }
  unfold st_bind at 1. unfold alloc at 1.
  set (copy := fresh (dom s)).
  assert (Hfresh : s !! copy = None) by (apply not_elem_of_dom, is_fresh).
  set (s1 := <[copy := OList (map fst kept)]> s).
  assert (Hkept1 : Forall (fun p => s1 !! fst p = Some (ODict (snd p))) kept).
  { eapply Forall_impl; [exact Hkept|]. intros p Hp. unfold s1.
    rewrite lookup_insert_ne; [exact Hp|]. intros E. congruence. }
  unfold st_bind at 1. unfold sort_in_place.
  unfold st_bind at 1. unfold read_list at 1.
  unfold s1 at 1. rewrite lookup_insert_eq. fold s1.
  unfold st_bind at 1. rewrite (read_records_at s1 _ _ (records_at_pairs _ _ Hkept1)).
  unfold write. rewrite zip_fst_snd.
  set (sorted := sort_by (fun p => key (snd p)) kept).
  set (s2 := <[copy := OList (map fst sorted)]> s1).
  assert (Hsorted : Forall (fun p => s2 !! fst p = Some (ODict (snd p))) sorted).
  { apply sort_by_Forall. eapply Forall_impl; [exact Hkept|]. intros p Hp.
    unfold s2, s1. rewrite !lookup_insert_ne by (intros E; congruence).
    exact Hp. }
  unfold st_bind at 1. unfold read_list at 1.
  unfold s2 at 1. rewrite lookup_insert_eq. fold s2.
  rewrite (read_records_at s2 _ _ (records_at_pairs _ _ Hsorted)).
  cbn [fst]. unfold sorted. rewrite sort_by_map_snd. reflexivity.
Qed.

Lemma st_bind_lift_result {A B : Type} (m : St A) (f : A -> result B)
    (s : store) (r : result A) :
  (m s).1 = r ->
  (st_bind m (fun a => st_lift (f a)) s).1 = (let* a := r in f a).
Proof.
  intros <-. unfold st_bind, st_lift. destruct (m s) as [[a|e] s']; reflexivity.
Qed.

Lemma analyze_zones_st_result repr json_loads iso_week_key month_key
    (s : store) (workouts : positive) (items : list positive)
    (records : list (list (string * value))) sport group_by thresholds :
  s !! workouts = Some (OList items) ->
  records_at s items records ->
  (analyze_zones_st repr json_loads iso_week_key month_key workouts sport
     group_by thresholds s).1
  = analyze_zones repr json_loads iso_week_key month_key records sport
      group_by thresholds.
Proof.
  intros Hlist Hrecords. unfold analyze_zones_st, analyze_zones, sport_rows.
  rewrite (st_bind_lift_result _ _ _ _
             (sorted_copy_result s _ _ _ _ _ Hlist Hrecords)).
  destruct (filter_by _ _ records); reflexivity.
Qed.

Lemma analyze_patterns_st_result repr iso_week_key
    (s : store) (workouts : positive) (items : list positive)
    (records : list (list (string * value))) injury_risk :
  s !! workouts = Some (OList items) ->
  records_at s items records ->
  (analyze_patterns_st repr iso_week_key workouts injury_risk s).1
  = analyze_patterns repr iso_week_key records injury_risk.
Proof.
  intros Hlist Hrecords. unfold analyze_patterns_st, analyze_patterns, run_bike_rows.
  rewrite (st_bind_lift_result _ _ _ _
             (sorted_copy_result s _ _ _ _ _ Hlist Hrecords)).
  destruct (filter_by _ _ records); reflexivity.
Qed.

Lemma build_weekly_analysis_st_result repr week_span
    (s : store) (workouts : positive) (items : list positive)
    (records : list (list (string * value))) sport_filter :
  s !! workouts = Some (OList items) ->
  records_at s items records ->
  (build_weekly_analysis_st repr week_span workouts sport_filter s).1
  = build_weekly_analysis repr week_span records sport_filter.
Proof.
  intros Hlist Hrecords. unfold build_weekly_analysis_st.
  unfold st_bind at 1. unfold read_list at 1. rewrite Hlist.
  unfold st_bind at 1. rewrite (read_records_at _ _ _ Hrecords).
  reflexivity.
Qed.

Lemma parse_workout_zones_st_result repr json_loads (s : store)
    (workout : positive) (fields : list (string * value))
    threshold_speed thresholds :
  s !! workout = Some (ODict fields) ->
  (parse_workout_zones_st repr json_loads workout threshold_speed thresholds s).1
  = parse_workout_zones repr json_loads fields threshold_speed thresholds.
Proof.
  intros Hw. unfold parse_workout_zones_st, st_bind, read_dict.
  rewrite Hw. reflexivity.
Qed.

(** ** Integers as text *)

Lemma digit_char_is_digit (d : Z) :
  (0 <= d < 10)%Z ->
  Str.is_digit (digit_char d) = true /\ Str.digit_val (digit_char d) = d.
Proof.
  intros H.
  assert (Hd : (d = 0 \/ d = 1 \/ d = 2 \/ d = 3 \/ d = 4 \/ d = 5 \/ d = 6
                \/ d = 7 \/ d = 8 \/ d = 9)%Z) by lia.
  destruct Hd as [->|[->|[->|[->|[->|[->|[->|[->|[->| ->]]]]]]]]];
    split; reflexivity.
Qed.

Lemma append_cons (c : ascii) (a b : string) :
  (String c a ++ b)%string = String c (a ++ b).
Proof. reflexivity. Qed.

Lemma append_nil_l (b : string) : ("" ++ b)%string = b.
Proof. reflexivity. Qed.

Lemma append_assoc (a b c : string) :
  ((a ++ b) ++ c = a ++ (b ++ c))%string.
Proof.
  induction a as [|x a IH]; [reflexivity|].
  rewrite !append_cons, IH. reflexivity.
Qed.

Lemma append_nil_r (a : string) : (a ++ "" = a)%string.
Proof.
  induction a as [|x a IH]; [reflexivity|].
  rewrite append_cons, IH. reflexivity.
Qed.

Lemma length_append (a b : string) :
  String.length (a ++ b) = (String.length a + String.length b)%nat.
Proof.
  induction a as [|x a IH]; [reflexivity|].
  rewrite append_cons. simpl. rewrite IH. reflexivity.
Qed.

Lemma all_digits_app (a b : string) :
  all_digits (a ++ b) = all_digits a && all_digits b.
Proof.
  induction a as [|c a IH]; [reflexivity|].
  rewrite append_cons. simpl. rewrite IH, andb_assoc. reflexivity.
Qed.

Lemma digits_val_app (a b : string) (acc : Z) :
  digits_val (a ++ b) acc = digits_val b (digits_val a acc).
Proof.
  revert acc. induction a as [|c a IH]; intros acc; [reflexivity|].
  rewrite append_cons. simpl. apply IH.
Qed.

Lemma dec_go_S (fuel : nat) (n : Z) (acc : string) :
  dec_go (S fuel) n acc
  = if (n <? 10)%Z then String (digit_char (n mod 10)) acc
    else dec_go fuel (n / 10) (String (digit_char (n mod 10)) acc).
Proof. reflexivity. Qed.

Lemma dec_go_spec (fuel : nat) :
  forall n acc,
    (0 <= n < 2 ^ Z.of_nat (S fuel))%Z ->
    exists ds,
      dec_go (S fuel) n acc = (ds ++ acc)%string
      /\ all_digits ds = true
      /\ ds <> ""
      /\ forall a, digits_val ds a
                   = (a * 10 ^ Z.of_nat (String.length ds) + n)%Z.
Proof.
  induction fuel as [|fuel IH]; intros n acc Hn.
  - change (2 ^ Z.of_nat 1)%Z with 2%Z in Hn.
    rewrite dec_go_S. replace (n <? 10)%Z with true by (symmetry; apply Z.ltb_lt; lia).
    exists (String (digit_char (n mod 10)) ""). 
    assert (Hm : (n mod 10 = n)%Z) by (apply Z.mod_small; lia).
    destruct (digit_char_is_digit (n mod 10)) as [Hd Hv]; [lia|].
    repeat split.
    + simpl. rewrite Hd. reflexivity.
    + discriminate.
    + intros a. simpl. rewrite Hv, Hm. lia.
  - rewrite dec_go_S. destruct (n <? 10)%Z eqn:E.
    + apply Z.ltb_lt in E.
      exists (String (digit_char (n mod 10)) "").
      assert (Hm : (n mod 10 = n)%Z) by (apply Z.mod_small; lia).
      destruct (digit_char_is_digit (n mod 10)) as [Hd Hv]; [lia|].
      repeat split.
      * simpl. rewrite Hd. reflexivity.
      * discriminate.
      * intros a. simpl. rewrite Hv, Hm. lia.
    + apply Z.ltb_ge in E.
      assert (Hq : (0 <= n / 10 < 2 ^ Z.of_nat (S fuel))%Z).
      { split; [apply Z.div_pos; lia|].
        apply Z.div_lt_upper_bound; [lia|].
        replace (Z.of_nat (S (S fuel))) with (Z.succ (Z.of_nat (S fuel))) in Hn by lia.
        rewrite Z.pow_succ_r in Hn by lia. lia. }
      destruct (IH (n / 10)%Z (String (digit_char (n mod 10)) acc) Hq)
        as (ds & Hgo & Hall & Hne & Hval).
      assert (Hmod : (0 <= n mod 10 < 10)%Z) by (apply Z.mod_pos_bound; lia).
      destruct (digit_char_is_digit (n mod 10) Hmod) as [Hd Hv].
      exists (ds ++ String (digit_char (n mod 10)) "")%string.
      repeat split.
      * rewrite Hgo, append_assoc. reflexivity.
      * rewrite all_digits_app, Hall. simpl. rewrite Hd. reflexivity.
      * destruct ds; [congruence|discriminate].
      * intros a. rewrite digits_val_app, Hval. simpl. rewrite Hv.
        rewrite length_append. simpl String.length.
        rewrite Nat.add_1_r, Nat2Z.inj_succ, Z.pow_succ_r by lia.
        pose proof (Z.div_mod n 10). lia.
Qed.

Lemma dec_spec (n : Z) :
  (0 <= n)%Z ->
  all_digits (dec n) = true /\ dec n <> "" /\ digits_val (dec n) 0 = n.
Proof.
  intros Hn. unfold dec.
  assert (Hb : (0 <= n < 2 ^ Z.of_nat (S (Z.to_nat (Z.log2 n))))%Z).
  { split; [exact Hn|].
    rewrite Nat2Z.inj_succ, Z2Nat.id by apply Z.log2_nonneg.
    destruct (Z.eq_dec n 0) as [->|Hz]; [reflexivity|].
    apply Z.log2_spec. lia. }
  destruct (dec_go_spec _ n "" Hb) as (ds & Hgo & Hall & Hne & Hval).
  rewrite Hgo, append_nil_r. repeat split; [exact Hall|exact Hne|].
  rewrite Hval. lia.
Qed.

Lemma digits_go_app (ds rest : string) (a : Z) :
  all_digits ds = true ->
  digits_go (ds ++ rest) a = digits_go rest (digits_val ds a).
Proof.
  revert a. induction ds as [|c ds IH]; intros a H; [reflexivity|].
  simpl in H. apply andb_true_iff in H as [Hc Hds].
  rewrite append_cons. simpl. rewrite Hc. apply IH, Hds.
Qed.


Lemma leading_digits_app (ds rest : string) :
  all_digits ds = true -> ds <> "" ->
  leading_digits (ds ++ rest) = Some (digits_go rest (digits_val ds 0)).
Proof.
  intros H Hne. destruct ds as [|c ds]; [congruence|].
  simpl in H. apply andb_true_iff in H as [Hc Hds].
  rewrite append_cons. simpl. rewrite Hc, digits_go_app by exact Hds.
  reflexivity.
Qed.


Lemma none_of_app (p : ascii -> bool) (a b : string) :
  none_of p (a ++ b) = none_of p a && none_of p b.
Proof.
  induction a as [|c a IH]; [reflexivity|].
  rewrite append_cons. simpl. rewrite IH, andb_assoc. reflexivity.
Qed.











(** ** Suffixes and fields of strings *)





















(** ** Durations and paces as text *)




Lemma inject_Z_le_inv (a b : Z) : (inject_Z a <= inject_Z b)%Q -> (a <= b)%Z.
Proof. rewrite <- Zle_Qle. trivial. Qed.




(** ** Pace labels *)

Lemma dict_set_twice (d : list (string * value)) (key : string) (v w : value) :
  dict_set (dict_set d key v) key w = dict_set d key w.
Proof.
  induction d as [|[k x] d IH]; simpl.
  - rewrite String.eqb_refl. reflexivity.
  - destruct (String.eqb k key) eqn:E; simpl; rewrite E; [reflexivity|].
    rewrite IH. reflexivity.
Qed.

Lemma dict_del_set (d : list (string * value)) (key : string) (v : value) :
  dict_del (dict_set d key v) key = dict_del d key.
Proof.
  induction d as [|[k x] d IH]; simpl.
  - rewrite String.eqb_refl. reflexivity.
  - destruct (String.eqb k key) eqn:E; simpl; rewrite E; [reflexivity|].
    rewrite IH. reflexivity.
Qed.

Lemma pace_label_renamed (threshold_speed : Q) (d : list (string * value))
    (name : value) :
  pace_label threshold_speed (VDict (dict_set d "name" name))
  = pace_label threshold_speed (VDict d).
Proof.
  unfold pace_label, Py.get, Py.dget.
  rewrite lookup_dict_set_other by discriminate. reflexivity.
Qed.

Lemma label_step_dict_or_same (threshold_speed : Q) (step : value) :
  fst (label_step threshold_speed step) = step
  \/ exists d name,
       step = VDict d
       /\ label_step threshold_speed step
          = (VDict (dict_set d "name" (VStr name)), Ok tt)
       /\ pace_label threshold_speed step = Ok (Some name).
Proof.
  unfold label_step.
  destruct (pace_label threshold_speed step) as [[name|]|e] eqn:E;
    [|left; reflexivity..].
  destruct step; try (left; reflexivity).
  right. eauto.
Qed.

Lemma label_step_again (threshold_speed : Q) (step : value) :
  label_step threshold_speed (fst (label_step threshold_speed step))
  = label_step threshold_speed step.
Proof.
  destruct (label_step_dict_or_same threshold_speed step)
    as [H|(d & name & -> & H & Hl)].
  - rewrite H. reflexivity.
  - rewrite H. simpl. unfold label_step.
    rewrite pace_label_renamed, Hl, dict_set_twice. reflexivity.
Qed.

Lemma update_each_again (f : value -> value * result unit) (l : list value) :
  (forall x, f (fst (f x)) = f x) ->
  update_each f (fst (update_each f l)) = update_each f l.
Proof.
  intros Hf. induction l as [|x rest IH]; [reflexivity|]. simpl.
  pose proof (Hf x) as Hx.
  destruct (f x) as [x' [[]|e]] eqn:Ex; simpl in Hx.
  - destruct (update_each f rest) as [rest' r'] eqn:Er. simpl in IH.
    simpl. rewrite Hx, IH. reflexivity.
  - simpl. rewrite Hx. reflexivity.
Qed.

Lemma update_items_again (f : value -> value * result unit) (key : string)
    (owner : value) :
  (forall x, f (fst (f x)) = f x) ->
  update_items f key (fst (update_items f key owner))
  = update_items f key owner.
Proof.
  intros Hf. unfold update_items.
  destruct owner as [| | | | |d]; try reflexivity.
  destruct (Py.lookup d key) as [v|] eqn:El; [|simpl; rewrite El; reflexivity].
  destruct v as [| | | |items|]; simpl;
    try (rewrite El; reflexivity);
    try (destruct (update_each f _); simpl; rewrite El; reflexivity).
  pose proof (update_each_again f items Hf) as Hagain.
  destruct (update_each f items) as [items' r] eqn:Ei. simpl in Hagain.
  simpl. rewrite lookup_dict_set_same, Hagain, dict_set_twice. reflexivity.
Qed.

(** X3.  Labelling is idempotent: a second call of [label_run_steps] on
    the structure the first call left behind changes nothing more and ends
    the way the first call did. *)
Theorem label_run_steps_idempotent (structure_dict : value)
    (threshold_speed : Q) :
  label_run_steps (fst (label_run_steps structure_dict threshold_speed))
    threshold_speed
  = label_run_steps structure_dict threshold_speed.
Proof.
  unfold label_run_steps. apply update_items_again.
  intros block. apply update_items_again.
  intros step. apply label_step_again.
Qed.

Lemma update_each_map (f : value -> value * result unit) (g : value -> value)
    (l : list value) :
  (forall x, g (fst (f x)) = g x) ->
  map g (fst (update_each f l)) = map g l.
Proof.
  intros Hf. induction l as [|x rest IH]; [reflexivity|]. simpl.
  pose proof (Hf x) as Hx.
  destruct (f x) as [x' [[]|e]]; simpl in Hx.
  - destruct (update_each f rest) as [rest' r']. simpl in *.
    rewrite Hx, IH. reflexivity.
  - simpl. rewrite Hx. reflexivity.
Qed.

Lemma update_items_map (f : value -> value * result unit) (g : value -> value)
    (key : string) (owner : value) :
  (forall x, g (fst (f x)) = g x) ->
  map_items g key (fst (update_items f key owner)) = map_items g key owner.
Proof.
  intros Hf. unfold update_items, map_items.
  destruct owner as [| | | | |d]; try reflexivity.
  destruct (Py.lookup d key) as [v|] eqn:El; [|simpl; rewrite El; reflexivity].
  destruct v as [| | | |items|]; simpl;
    try (rewrite El; reflexivity);
    try (destruct (update_each f _); simpl; rewrite El; reflexivity).
  pose proof (update_each_map f g items Hf) as Hmap.
  destruct (update_each f items) as [items' r]. simpl in Hmap.
  simpl. rewrite lookup_dict_set_same, Hmap, dict_set_twice. reflexivity.
Qed.

(** X4.  [label_run_steps] changes nothing but the names of steps: with
    the names taken away, the structure it leaves behind is the structure
    it was given, whether the call returns or raises. *)
Theorem label_run_steps_changes_names_only (structure_dict : value)
    (threshold_speed : Q) :
  without_names (fst (label_run_steps structure_dict threshold_speed))
  = without_names structure_dict.
Proof.
  unfold without_names, label_run_steps. apply update_items_map.
  intros block. apply update_items_map.
  intros step.
  destruct (label_step_dict_or_same threshold_speed step)
    as [H|(d & name & -> & H & _)].
  - rewrite H. reflexivity.
  - rewrite H. simpl. rewrite dict_del_set. reflexivity.
Qed.

(** ** Length and target tokens *)











(** The first character of a string is not a digit. *)
Lemma digits_go_stop (rest : string) (v : Z) :
  match rest with
  | EmptyString => True
  | String c _ => Str.is_digit c = false
  end ->
  digits_go rest v = (v, rest).
Proof.
  destruct rest as [|c r]; [reflexivity|]. simpl. intros ->. reflexivity.
Qed.

(** X6.  [parse_target] reads the digits a target starts with, and only
    those: a target that is false (absent, empty) has no value, a string
    that starts with the digits of [n] and goes on with something else has
    the value [n], a string that starts with anything but a digit (a sign,
    a space) has no value, and no value is ever negative. *)
Theorem parse_target_reads_leading_digits :
  (forall t, Py.truthy t = false -> parse_target t = Ok None)
  /\ (forall n rest,
        (0 <= n)%Z ->
        match rest with
        | EmptyString => True
        | String c _ => Str.is_digit c = false
        end ->
        parse_target (VStr (dec n ++ rest)) = Ok (Some n))
  /\ (forall c rest,
        Str.is_digit c = false ->
        parse_target (VStr (String c rest)) = Ok None)
  /\ (forall t n, parse_target t = Ok (Some n) -> (0 <= n)%Z).
Proof.
  split; [|split; [|split]].
  - intros t Ht. unfold parse_target. rewrite Ht. reflexivity.
  - intros n rest Hn Hrest.
    destruct (dec_spec n Hn) as (Hall & Hne & Hval).
    unfold parse_target.
    assert (Ht : Py.truthy (VStr (dec n ++ rest)) = true).
    { simpl. destruct (dec n) eqn:E; [congruence|]. reflexivity. }
    rewrite Ht. simpl. unfold match_single.
    rewrite (leading_digits_app _ _ Hall Hne), Hval.
    rewrite (digits_go_stop _ _ Hrest). reflexivity.
  - intros c rest Hc. unfold parse_target, match_single. simpl.
    rewrite Hc. reflexivity.
  - intros t n. unfold parse_target.
    destruct (negb (Py.truthy t)); [discriminate|].
    destruct t; try discriminate. intros H. inversion H as [Hm].
    eapply match_single_nonneg, Hm.
Qed.

Lemma parse_target_reads_leading_digits_witness :
  parse_target (VStr "72% TP") = Ok (Some 72%Z)
  /\ parse_target (VStr " 72%") = Ok None.
Proof.
  destruct parse_target_reads_leading_digits as (_ & Hdigits & Hother & _).
  split.
  - apply (Hdigits 72%Z "% TP"); [lia|reflexivity].
  - apply (Hother " "%char "72%"). reflexivity.
Defined.

(** ** Upload payloads *)

Lemma lower_char_idempotent (c : ascii) :
  Str.lower_char (Str.lower_char c) = Str.lower_char c.
Proof. destruct c as [[] [] [] [] [] [] [] []]; reflexivity. Qed.

Lemma lower_idempotent (s : string) : Str.lower (Str.lower s) = Str.lower s.
Proof.
  induction s as [|c s IH]; [reflexivity|]. simpl.
  rewrite lower_char_idempotent, IH. reflexivity.
Qed.

Lemma sport_id_of_range (sport : string) (id : Z) :
  sport_id_of sport = Some id -> (id = 1 \/ id = 2 \/ id = 3)%Z.
Proof.
  unfold sport_id_of, SPORT_ID_BY_NAME. cbn [find fst].
  destruct (String.eqb "swim" sport); [intros H; inversion H; auto|].
  destruct (String.eqb "bike" sport); [intros H; inversion H; auto|].
  destruct (String.eqb "run" sport); [intros H; inversion H; auto|].
  discriminate.
Qed.

(** X7.  The quick-creation path: the workout that [build_basic_workout]
    makes from a date, a sport, a title and a description is uploaded by
    [convert_workout] as that date at midnight, the id of the sport in
    lower case, the title and the description, with no planned totals and
    no structure; the workout is left as it was.  [build_basic_workout]
    raises [ValueError] exactly for a sport that is, in lower case, none of
    swim, bike and run. *)
Theorem convert_workout_of_basic_workout (repr : value -> string)
    (json_loads : string -> option value) (json_dumps : value -> string)
    (date sport title description user_id : string)
    (threshold_speed : option Q) :
  match sport_id_of (Str.lower sport) with
  | None =>
      build_basic_workout date sport title description = Raise ValueError
  | Some id =>
      (id = 1 \/ id = 2 \/ id = 3)%Z
      /\ exists workout,
           build_basic_workout date sport title description = Ok workout
           /\ convert_workout repr json_loads json_dumps workout user_id
                threshold_speed
              = (workout,
                 Ok (VDict
                       [ ("athleteId", VStr user_id);
                         ("workoutDay", VStr (date ++ "T00:00:00"));
                         ("workoutTypeValueId", VInt id);
                         ("title", VStr title);
                         ("description", VStr description);
                         ("totalTimePlanned", VNone);
                         ("distancePlanned", VNone);
                         ("tssPlanned", VNone);
                         ("structure", VNone) ]))
  end.
Proof.
  unfold build_basic_workout.
  destruct (sport_id_of (Str.lower sport)) as [id|] eqn:E; [|reflexivity].
  split; [eapply sport_id_of_range, E|].
  eexists. split; [reflexivity|].
  unfold convert_workout.
  change (Py.dget _ "sport" (VStr "run")) with (VStr (Str.lower sport)).
  cbn [str_]. rewrite lower_idempotent, E.
  unfold planned_totals, upload_structure.
  change (Py.lookup _ "steps") with (@None value).
  change (Py.lookup _ "structure") with (@None value).
  cbn. reflexivity.
Qed.

(** X8.  What [convert_workout] does to the workout it is given: nothing,
    or, when the workout holds its structure as an object, the sport is
    run and a threshold speed is given, the step names of that object are
    replaced by pace labels in place, as [label_run_steps] leaves them. *)
Theorem convert_workout_relabels_held_structure (repr : value -> string)
    (json_loads : string -> option value) (json_dumps : value -> string)
    (workout : list (string * value)) (user_id : string)
    (threshold_speed : option Q) :
  let after :=
    fst (convert_workout repr json_loads json_dumps workout user_id
           threshold_speed) in
  after = workout
  \/ exists st speed,
       Py.lookup workout "structure" = Some (VDict st)
       /\ speed_given threshold_speed = Some speed
       /\ Str.lower (str_ repr (Py.dget workout "sport" (VStr "run"))) = "run"
       /\ after
          = dict_set workout "structure"
              (fst (label_run_steps (VDict st) speed)).
Proof.
  unfold convert_workout.
  set (sport := Str.lower (str_ repr (Py.dget workout "sport" (VStr "run")))).
  destruct (Py.item (VDict workout) "date") as [date|e]; [|left; reflexivity].
  cbn [bind].
  destruct (planned_totals repr workout threshold_speed) as [calc|e];
    [|left; reflexivity].
  cbn [bind].
  destruct (Py.item (VDict workout) "title") as [title|e]; [|left; reflexivity].
  cbn [bind].
  destruct (upload_structure repr json_loads workout sport)
    as [[struct own]|e] eqn:Es; [|left; reflexivity].
  cbn [bind].
  destruct (Py.truthy struct && String.eqb sport "run") eqn:Et;
    [|left; reflexivity].
  destruct (speed_given threshold_speed) as [speed|] eqn:Esp;
    [|left; reflexivity].
  apply andb_true_iff in Et as [_ Erun]. apply String.eqb_eq in Erun.
  destruct (label_run_steps struct speed) as [labelled r] eqn:El.
  destruct own.
  - right. unfold upload_structure in Es.
    destruct (Py.lookup workout "structure") as [held|] eqn:Eh.
    + destruct held as [| | | | |st];
        try (destruct (json_loads _); inversion Es).
      inversion Es; subst struct. exists st, speed.
      rewrite El. destruct r; auto.
    + destruct (Py.lookup workout "steps");
        [destruct (iterate _); [|discriminate];
         cbn [bind] in Es; destruct (simple_to_tp_structure _ _);
         inversion Es|inversion Es].
  - left. destruct r; reflexivity.
Qed.

(** X9.  Every payload that [convert_workout] returns has the same nine
    entries in the same order; the athlete is the user, the day is the
    workout's date followed by [T00:00:00], the sport id is 1, 2 or 3 (3,
    run, for a sport that is none of swim, bike and run), and the
    structure is [None] or a text that [json.dumps] made, never an
    object.  A workout without [date] raises [KeyError]. *)
Theorem convert_workout_payload_shape (repr : value -> string)
    (json_loads : string -> option value) (json_dumps : value -> string)
    (workout : list (string * value)) (user_id : string)
    (threshold_speed : option Q) :
  (Py.lookup workout "date" = None ->
   convert_workout repr json_loads json_dumps workout user_id threshold_speed
   = (workout, Raise KeyError))
  /\ forall payload,
       snd (convert_workout repr json_loads json_dumps workout user_id
              threshold_speed) = Ok payload ->
       exists entries date id,
         payload = VDict entries
         /\ map fst entries = payload_keys
         /\ Py.lookup workout "date" = Some date
         /\ Py.lookup entries "athleteId" = Some (VStr user_id)
         /\ Py.lookup entries "workoutDay"
            = Some (VStr (str_ repr date ++ "T00:00:00"))
         /\ Py.lookup entries "workoutTypeValueId" = Some (VInt id)
         /\ (id = 1 \/ id = 2 \/ id = 3)%Z
         /\ (sport_id_of
               (Str.lower (str_ repr (Py.dget workout "sport" (VStr "run"))))
             = None -> id = 3%Z)
         /\ (Py.lookup entries "structure" = Some VNone
             \/ exists st,
                  Py.lookup entries "structure" = Some (VStr (json_dumps st))).
Proof.
  split.
  { intros Hd. unfold convert_workout, Py.item. rewrite Hd. reflexivity. }
  intros payload. unfold convert_workout.
  set (sport := Str.lower (str_ repr (Py.dget workout "sport" (VStr "run")))).
  assert (Hid : (default 3 (sport_id_of sport) = 1
                 \/ default 3 (sport_id_of sport) = 2
                 \/ default 3 (sport_id_of sport) = 3)%Z).
  { destruct (sport_id_of sport) as [id|] eqn:E; simpl; [|auto].
    eapply sport_id_of_range, E. }
  assert (Hnone : sport_id_of sport = None -> default 3%Z (sport_id_of sport) = 3%Z)
    by (intros ->; reflexivity).
  set (sport_id := default 3%Z (sport_id_of sport)) in *.
  unfold Py.item at 1.
  destruct (Py.lookup workout "date") as [date|]; [|discriminate].
  cbn [bind].
  destruct (planned_totals repr workout threshold_speed) as [calc|e];
    [|discriminate].
  cbn [bind].
  destruct (Py.item (VDict workout) "title") as [title|e]; [|discriminate].
  cbn [bind].
  destruct (upload_structure repr json_loads workout sport)
    as [[struct own]|e]; [|discriminate].
  cbn [bind].
  destruct (if Py.truthy struct && String.eqb sport "run"
            then speed_given threshold_speed else None) as [speed|].
  - destruct (label_run_steps struct speed) as [labelled [[]|e]];
      [|discriminate].
    cbn [snd]. intros H. inversion H; subst payload.
    eexists _, date, sport_id.
    split; [reflexivity|]. split; [reflexivity|]. split; [reflexivity|].
    split; [reflexivity|]. split; [reflexivity|]. split; [reflexivity|].
    split; [exact Hid|]. split; [exact Hnone|].
    right. exists labelled. reflexivity.
  - cbn [snd]. intros H. inversion H; subst payload.
    eexists _, date, sport_id.
    split; [reflexivity|]. split; [reflexivity|]. split; [reflexivity|].
    split; [reflexivity|]. split; [reflexivity|]. split; [reflexivity|].
    split; [exact Hid|]. split; [exact Hnone|].
    destruct (Py.truthy struct).
    + right. exists struct. reflexivity.
    + left. reflexivity.
Qed.

Lemma convert_workout_payload_shape_witness :
  convert_workout (fun _ => "") (fun _ => None) (fun _ => "{}")
    [("title", VStr "Easy run")] "42" (Some 4%Q)
  = ([("title", VStr "Easy run")], Raise KeyError).
Proof.
  apply (convert_workout_payload_shape (fun _ => "") (fun _ => None)
           (fun _ => "{}") [("title", VStr "Easy run")] "42" (Some 4%Q)).
  reflexivity.
Defined.

Lemma convert_workout_relabels_held_structure_witness :
  fst (convert_workout (fun _ => "") (fun _ => None) (fun _ => "{}")
         (run_workout "Hard") "42" (Some 4%Q))
  = run_workout "Pace 4:10".
Proof.
  destruct (convert_workout_relabels_held_structure (fun _ => "")
              (fun _ => None) (fun _ => "{}") (run_workout "Hard") "42"
              (Some 4%Q)) as [H|(st & speed & Hst & Hsp & _ & H)].
  - vm_compute in H. discriminate H.
  - rewrite H. inversion Hst; subst st. inversion Hsp; subst speed.
    reflexivity.
Defined.

(** ** Rules and labels *)

Lemma TYPE_RULES_lower_case :
  Forall (fun rule => Forall lower_case (snd rule)) TYPE_RULES.
Proof. repeat constructor. Qed.

Lemma rules_of_items_lower_case (repr : value -> string)
    (items : list (string * value)) :
  Forall (fun rule => Forall lower_case (snd rule)) (rules_of_items repr items).
Proof.
  induction items as [|[key value] rest IH]; simpl; [constructor|].
  destruct (iterate value) as [members|e]; [|exact IH].
  constructor; [|exact IH]. simpl.
  apply Forall_forall. intros k Hk.
  apply list_elem_of_fmap in Hk as (item & -> & _).
  apply lower_idempotent.
Qed.

(** X10.  The rules that [classification_rules_from_config] returns are
    never empty, and every keyword in them is in lower case, as the text
    they are matched against is: it returns the configured rules with
    their keywords lowered, or the built-in rules when the configuration
    has none that can be used.  It raises only when the configuration, or
    its [classification] entry, is not an object. *)
Theorem classification_rules_usable (repr : value -> string) (config : value) :
  (forall rules,
      classification_rules_from_config repr config = Ok rules ->
      rules <> []
      /\ Forall (fun rule => Forall lower_case (snd rule)) rules)
  /\ (forall e,
        classification_rules_from_config repr config = Raise e ->
        e = AttributeError
        /\ (Py.is_dict config = false
            \/ exists d other,
                 config = VDict d
                 /\ Py.lookup d "classification" = Some other
                 /\ Py.is_dict other = false))
  /\ (forall d,
        config = VDict d -> Py.lookup d "classification" = None ->
        classification_rules_from_config repr config = Ok TYPE_RULES).
Proof.
  unfold classification_rules_from_config.
  split; [|split].
  - intros rules.
    destruct (Py.get config "classification" (VDict [])) as [c|e]; [|discriminate].
    cbn [bind].
    destruct (Py.get c "rules" (VDict [])) as [configured|e]; [|discriminate].
    cbn [bind].
    assert (Hdefault :
      Ok TYPE_RULES = Ok rules ->
      rules <> [] /\ Forall (fun rule => Forall lower_case (snd rule)) rules).
    { intros H. inversion H; subst rules.
      split; [discriminate|exact TYPE_RULES_lower_case]. }
    destruct configured as [| | | | |items]; try exact Hdefault.
    destruct items as [|item items]; [exact Hdefault|].
    pose proof (rules_of_items_lower_case repr (item :: items)) as Hlow.
    destruct (rules_of_items repr (item :: items)) as [|r rs];
      [exact Hdefault|].
    intros H. inversion H; subst rules. split; [discriminate|exact Hlow].
  - intros e. destruct config as [| | | | |d];
      try (simpl; intros H; inversion H; split; [reflexivity|left; reflexivity]).
    simpl. unfold Py.dget.
    destruct (Py.lookup d "classification") as [c|] eqn:Ec.
    + destruct c as [| | | | |cd];
        try (simpl; intros H; inversion H; split; [reflexivity|];
             right; eexists _, _; split; [reflexivity|]; split; [exact Ec|];
             reflexivity).
      simpl.
      destruct (Py.dget cd "rules" (VDict [])) as [| | | | |[|x xs]];
        try discriminate.
      destruct (rules_of_items repr (x :: xs)); discriminate.
    + simpl. discriminate.
  - intros d -> Hnone. simpl. unfold Py.dget. rewrite Hnone. reflexivity.
Qed.

Lemma classification_rules_usable_witness :
  classification_rules_from_config (fun _ => "") (VDict []) = Ok TYPE_RULES.
Proof.
  apply (classification_rules_usable (fun _ => "") (VDict [])) with (d := []);
    reflexivity.
Defined.

Lemma lower_fixed_prefix (k rest : string) :
  Str.lower (k ++ rest) = (k ++ rest)%string -> Str.lower k = k.
Proof.
  induction k as [|c k IH]; [reflexivity|].
  rewrite append_cons. simpl. intros H. inversion H as [[Hc Hk]].
  rewrite Hc, Hc. f_equal. apply IH. exact Hk.
Qed.

Lemma lower_fixed_part (before k after : string) :
  Str.lower (before ++ k ++ after) = (before ++ k ++ after)%string ->
  Str.lower k = k.
Proof.
  induction before as [|c before IH].
  - rewrite append_nil_l. apply lower_fixed_prefix.
  - rewrite append_cons. simpl. intros H. inversion H as [[Hc Hk]].
    apply IH. exact Hk.
Qed.

Lemma contains_lower_case (keyword text : string) :
  Str.contains keyword (Str.lower text) = true -> lower_case keyword.
Proof.
  intros H. apply contains_spec in H as (before & after & H).
  apply (lower_fixed_part before keyword after).
  rewrite <- H. apply lower_idempotent.
Qed.

Lemma rule_matches_capitals (text : string) (keywords : list string) :
  Forall (fun keyword => ~ lower_case keyword) keywords ->
  rule_matches (Str.lower text) keywords = false.
Proof.
  intros Hk. destruct (rule_matches (Str.lower text) keywords) eqn:E;
    [|reflexivity].
  apply rule_matches_spec in E as (k & Hin & Hsub).
  apply contains_spec, contains_lower_case in Hsub.
  rewrite Forall_forall in Hk. exfalso. exact (Hk k Hin Hsub).
Qed.

(** X11.  Keywords are matched against the text in lower case and are
    themselves taken as written, so a rule whose keywords all hold a
    capital letter never fires: the keyword label is what it would be
    without that rule. *)
Theorem keywords_with_capitals_never_match (repr : value -> string)
    (workout : list (string * value)) (pre post : list (string * list string))
    (workout_type : string) (keywords : list string) :
  Forall (fun keyword => ~ lower_case keyword) keywords ->
  _classify_by_keywords repr workout (pre ++ (workout_type, keywords) :: post)
  = _classify_by_keywords repr workout (pre ++ post).
Proof.
  intros Hk. unfold _classify_by_keywords, _normalized_text.
  set (text := Str.join " " _).
  induction pre as [|[t ks] pre IH]; simpl.
  - rewrite (rule_matches_capitals text keywords Hk). reflexivity.
  - destruct (rule_matches (Str.lower text) ks); [reflexivity|exact IH].
Qed.

Lemma keywords_with_capitals_never_match_witness :
  _classify_by_keywords (fun _ => "") [("title", VStr "Tempo run")]
    [("lt1", ["Tempo"]); ("easy", ["run"])]
  = "easy".
Proof.
  apply (keywords_with_capitals_never_match (fun _ => "")
           [("title", VStr "Tempo run")] [] [("easy", ["run"])] "lt1" ["Tempo"]).
  constructor; [|constructor]. unfold lower_case. discriminate.
Defined.






(** X13.  [classify_with_metadata] gives the label of [classify_workout]
    whatever the method asked for, and raises when it raises; the method
    it reports is always [auto]; the confidence is 0.6 with a note when
    [ai] was asked for, and otherwise 0.97 with a note for a label read
    from the structure, 0.95 for a keyword label, 0.6 for [other]. *)
Theorem classify_with_metadata_agrees (repr : value -> string)
    (json_loads : string -> option value) (workout : list (string * value))
    (method : string) (rules : list (string * list string)) :
  classify_workout repr json_loads workout rules
  = (let* c := classify_with_metadata repr json_loads workout method rules in
     Ok (wc_type c))
  /\ forall c,
       classify_with_metadata repr json_loads workout method rules = Ok c ->
       wc_method c = "auto"
       /\ exists source,
            _classify_with_source repr json_loads workout rules
            = Ok (wc_type c, source)
            /\ if String.eqb method "ai"
               then wc_confidence c = (6 # 10)%Q /\ wc_reasoning c <> None
               else if String.eqb source "structure"
               then wc_confidence c = (97 # 100)%Q /\ wc_reasoning c <> None
               else wc_reasoning c = None
                    /\ wc_confidence c
                       = if String.eqb (wc_type c) "other"
                         then (6 # 10)%Q else (95 # 100)%Q.
Proof.
  unfold classify_workout, classify_with_metadata.
  destruct (_classify_with_source repr json_loads workout rules)
    as [[label source]|e]; [|split; [reflexivity|discriminate]].
  cbn [bind]. split.
  - destruct (String.eqb method "ai"); reflexivity.
  - intros c. destruct (String.eqb method "ai") eqn:Em.
    + intros H. inversion H; subst c. simpl.
      split; [reflexivity|]. exists source.
      split; [reflexivity|]. split; [reflexivity|discriminate].
    + intros H. inversion H; subst c. simpl.
      split; [reflexivity|]. exists source.
      split; [reflexivity|].
      destruct (String.eqb source "structure").
      * split; [reflexivity|discriminate].
      * split; [reflexivity|].
        destruct (String.eqb label "other"); reflexivity.
Qed.

Lemma classify_with_metadata_agrees_witness :
  classify_workout (fun _ => "") (fun _ => None) race_workout TYPE_RULES
  = Ok "race".
Proof.
  rewrite (proj1 (classify_with_metadata_agrees (fun _ => "") (fun _ => None)
                    race_workout "ai" TYPE_RULES)).
  reflexivity.
Defined.

Lemma filter_dicts_again (blocks : list value) :
  filter (fun b => Py.is_dict b = true)
    (filter (fun b => Py.is_dict b = true) blocks)
  = filter (fun b => Py.is_dict b = true) blocks.
Proof.
  induction blocks as [|b blocks IH]; [reflexivity|].
  rewrite filter_cons. destruct (decide (Py.is_dict b = true)) as [Hb|Hb].
  - rewrite filter_cons. destruct (decide (Py.is_dict b = true));
      [|contradiction]. rewrite IH. reflexivity.
  - exact IH.
Qed.

Lemma filter_dicts_all (blocks : list value) :
  Forall (fun b => Py.is_dict b = true)
    (filter (fun b => Py.is_dict b = true) blocks).
Proof.
  apply Forall_forall. intros b Hb. apply list_elem_of_filter in Hb as [Hb _].
  exact Hb.
Qed.

Lemma _normalize_blocks_dicts (raw_blocks : value) :
  Forall (fun b => Py.is_dict b = true) (_normalize_blocks raw_blocks).
Proof.
  unfold _normalize_blocks. destruct raw_blocks as [| | | |blocks|];
    try constructor.
  pose proof (filter_dicts_all blocks) as Hall.
  destruct (filter _ blocks) as [|b bs]; [constructor|].
  destruct (forallb _ (b :: bs)); [|exact Hall].
  constructor; [reflexivity|constructor].
Qed.

(** X14.  [_normalize_blocks] returns objects only, and normalizing its
    result again changes nothing; so do the blocks of
    [_extract_structure], whichever of the three keys they come from. *)
Theorem _normalize_blocks_idempotent (repr : value -> string)
    (json_loads : string -> option value) :
  (forall raw_blocks,
      Forall (fun b => Py.is_dict b = true) (_normalize_blocks raw_blocks)
      /\ _normalize_blocks (VList (_normalize_blocks raw_blocks))
         = _normalize_blocks raw_blocks)
  /\ (forall workout,
        Forall (fun b => Py.is_dict b = true)
          (fst (_extract_structure repr json_loads workout))).
Proof.
  split.
  - intros raw_blocks. split; [apply _normalize_blocks_dicts|].
    unfold _normalize_blocks. destruct raw_blocks as [| | | |blocks|];
      try reflexivity.
    pose proof (filter_dicts_again blocks) as Hagain.
    destruct (filter _ blocks) as [|b bs] eqn:Ef; [reflexivity|].
    destruct (forallb _ (b :: bs)) eqn:Ea.
    + reflexivity.
    + rewrite Hagain, Ea. reflexivity.
  - intros workout. unfold _extract_structure.
    generalize (str_ repr (Py.or_ (Py.dget workout "primaryIntensityMetric"
                                      VNone) (VStr ""))).
    generalize ["structuredSteps"; "structuredWorkout"; "structure"].
    intros keys. induction keys as [|key keys IH]; intros metric;
      [constructor|].
    simpl.
    destruct (_parse_structure_value json_loads (Py.dget workout key VNone))
      as [parsed|]; [|apply IH].
    destruct parsed as [| | | | |d].
    1-5: match goal with
         | |- context [_normalize_blocks ?v] =>
             pose proof (_normalize_blocks_dicts v) as Hd;
             destruct (_normalize_blocks v); [apply IH|exact Hd]
         end.
    match goal with
    | |- context [_normalize_blocks ?v] =>
        pose proof (_normalize_blocks_dicts v) as Hd;
        destruct (_normalize_blocks v); [apply IH|exact Hd]
    end.
Qed.

Lemma default_has_thresholds : has_thresholds DEFAULT_ZONE_THRESHOLDS.
Proof. repeat split; eexists; reflexivity. Qed.

(** X15.  A step whose [length] is present and is not an object (a null
    length, say) makes both readers of the structure raise
    [AttributeError]: [classify_workout], as soon as the keywords do not
    decide, and [parse_workout_zones]. *)
Theorem step_length_must_be_an_object (repr : value -> string)
    (json_loads : string -> option value) (step : list (string * value))
    (length : value) (threshold_speed : Q) (thresholds : gmap string Q) :
  Py.lookup step "length" = Some length ->
  Py.is_dict length = false ->
  (exists pct, _step_intensity_pct step = Ok pct) ->
  classify_workout repr json_loads (one_step_workout step) TYPE_RULES
  = Raise AttributeError
  /\ parse_workout_zones repr json_loads (one_step_workout step)
       threshold_speed thresholds
     = Raise AttributeError.
Proof.
  intros Hl Hd [pct Hpct]. split.
  - unfold classify_workout, _classify_with_source.
    change (_classify_by_keywords repr (one_step_workout step) TYPE_RULES)
      with "other".
    replace (bool_decide ("other" ∈ _PRIORITY_KEYWORD_TYPES)) with false
      by reflexivity.
    unfold _classify_from_structure.
    change (fst (_extract_structure repr json_loads (one_step_workout step)))
      with [VDict [("type", VStr "step"); ("steps", VList [VDict step])]].
    cbn [tally_blocks tally_block].
    change (str_ repr (Py.or_ (Py.dget [("type", VStr "step");
                                       ("steps", VList [VDict step])]
                                 "type" VNone) (VStr "step")))
      with "step".
    change (block_rep_count _ "step") with (@Ok Z 1%Z).
    cbn [bind].
    change (Py.dget [("type", VStr "step"); ("steps", VList [VDict step])]
              "steps" VNone)
      with (VList [VDict step]).
    cbn [tally_steps]. unfold tally_step. rewrite Hpct. cbn [bind].
    destruct (classify_zone_returns pct "step"
                (str_ repr (Py.or_ (Py.dget step "intensityClass" VNone)
                              (VStr "active")))
                DEFAULT_ZONE_THRESHOLDS default_has_thresholds) as [z ->].
    cbn [bind]. unfold Py.dget. rewrite Hl.
    unfold _length_to_seconds, Py.get.
    destruct length; try discriminate Hd; reflexivity.
  - unfold parse_workout_zones.
    change (Py.dget (one_step_workout step) "structure" VNone)
      with (VDict [("primaryIntensityMetric", VStr "percentOfThresholdPace");
                   ("structure",
                    VList [VDict [("type", VStr "step");
                                  ("steps", VList [VDict step])]])]).
    cbn [Py.truthy negb load_structure Py.get bind].
    change (Py.dget _ "primaryIntensityMetric" (VStr ""))
      with (VStr "percentOfThresholdPace").
    cbn [bind]. replace (not_percent_metric (VStr "percentOfThresholdPace"))
      with (@Ok bool false) by reflexivity.
    cbn [bind]. unfold raw_zones.
    cbn [Py.get bind].
    change (Py.dget _ "structure" (VList []))
      with (VList [VDict [("type", VStr "step");
                          ("steps", VList [VDict step])]]).
    cbn [iterate bind zone_blocks]. unfold zone_block.
    cbn [Py.get bind].
    change (Py.dget _ "type" (VStr "step")) with (VStr "step").
    cbn [bind].
    change (Py.eq_str (VStr "step") "repetition") with false.
    cbn [bind].
    change (Py.dget [("type", VStr "step"); ("steps", VList [VDict step])]
              "steps" (VList []))
      with (VList [VDict step]).
    cbn [iterate bind zone_steps]. unfold zone_step, _step_distance_raw.
    cbn [Py.get bind]. unfold Py.dget at 1. rewrite Hl.
    destruct length; try discriminate Hd; reflexivity.
Qed.

Lemma step_length_must_be_an_object_witness :
  classify_workout (fun _ => "") (fun _ => None)
    (one_step_workout [("length", VNone);
                       ("targets", VList [VDict [("minValue", VInt 90)]])])
    TYPE_RULES
  = Raise AttributeError.
Proof.
  apply (step_length_must_be_an_object (fun _ => "") (fun _ => None)
           [("length", VNone);
            ("targets", VList [VDict [("minValue", VInt 90)]])]
           VNone 4 DEFAULT_ZONE_THRESHOLDS).
  - reflexivity.
  - reflexivity.
  - eexists. reflexivity.
Defined.

(** ** What the zone report adds up to *)














(** ** What the weekly report adds up to *)













(** ** The weekly hard load *)

Lemma is_hard_cases (intensity : string) :
  (String.eqb intensity "lt2" = true /\ String.eqb intensity "vo2" = false
   /\ is_hard intensity = true)
  \/ (String.eqb intensity "lt2" = false /\ String.eqb intensity "vo2" = true
      /\ is_hard intensity = true)
  \/ (String.eqb intensity "lt2" = false /\ String.eqb intensity "vo2" = false
      /\ is_hard intensity = false).
Proof.
  unfold is_hard.
  destruct (String.eqb_spec intensity "lt2") as [->|H1]; [left; auto|].
  destruct (String.eqb_spec intensity "vo2") as [->|H2]; [right; left; auto|].
  right. right. auto.
Qed.

Lemma count_day_ok (run_intensity bike_intensity week_key : string)
    (weekly : gmap string week_counts) :
  (forall key row, weekly !! key = Some row -> counts_ok row) ->
  forall key row,
    count_day run_intensity bike_intensity week_key weekly !! key = Some row ->
    counts_ok row.
Proof.
  intros Hinv key row. unfold count_day.
  assert (Hold : weekly !! week_key = None
                 \/ exists old, weekly !! week_key = Some old /\ counts_ok old).
  { destruct (weekly !! week_key) as [old|] eqn:E; [right|left; reflexivity].
    exists old. split; [reflexivity|]. apply (Hinv _ _ E). }
  destruct (is_hard_cases run_intensity) as [(-> & -> & ->)|[(-> & -> & ->)|(-> & -> & ->)]];
    destruct (is_hard_cases bike_intensity) as [(-> & E2 & ->)|[(-> & E2 & ->)|(-> & E2 & ->)]];
    clear E2;
    (destruct (decide (key = week_key)) as [->|Hne];
     [ unfold week_row; rewrite ?lookup_insert_eq; cbn [default];
       first
         [ solve [intros H; apply (Hinv _ _ H)]
         | destruct Hold as [Hnone|(old & Hsome & Hok)];
           [ rewrite ?Hnone | rewrite ?Hsome ];
           cbn [default];
           intros H; inversion H; subst row;
           unfold counts_ok in *; cbn; lia ]
     | rewrite ?lookup_insert_ne by congruence; apply Hinv ]).
Qed.

Lemma weekly_loop_counts_ok (iso_week_key : string -> option string)
    (run_by_date bike_by_date : gmap string (list string))
    (days : list string) :
  forall weekly weekly',
    (forall key row, weekly !! key = Some row -> counts_ok row) ->
    weekly_loop iso_week_key run_by_date bike_by_date days weekly = Ok weekly' ->
    forall key row, weekly' !! key = Some row -> counts_ok row.
Proof.
  induction days as [|day rest IH]; intros weekly weekly' Hinv; simpl.
  - intros H. inversion H; subst. exact Hinv.
  - destruct (iso_week_key day) as [week_key|]; [|discriminate].
    apply IH. apply count_day_ok, Hinv.
Qed.

(** X19.  Every row of [weekly_load] in the payload of [analyze_patterns]
    counts at least one hard session: a week without one has no row, so
    the week before a row in the table is the last week that had a hard
    session, not the calendar week before.  In every row the counts are
    not negative and [total_hard] is at least
    [run_lt2 + run_vo2 + bike_lt2]. *)
Theorem weekly_load_rows_have_hard_sessions (repr : value -> string)
    (iso_week_key : string -> option string)
    (workouts : list (list (string * value))) (injury_risk : bool)
    (payload : pattern_payload) :
  analyze_patterns repr iso_week_key workouts injury_risk = Ok payload ->
  Forall (fun entry => counts_ok (snd entry)) (weekly_load payload).
Proof.
  unfold analyze_patterns, patterns_of, weekly_table_of.
  destruct (run_bike_rows workouts) as [rows|e]; [|discriminate].
  cbn [bind].
  destruct (group_rows repr (sort_by (day_key repr) rows) (∅, ∅, ∅))
    as [[[run_by_date bike_by_date] all_dates]|e]; [|discriminate].
  cbn [bind].
  destruct (weekly_loop iso_week_key run_by_date bike_by_date
              (py_sorted (elements all_dates)) ∅) as [weekly|e] eqn:E;
    [|discriminate].
  cbn [bind]. intros H. inversion H; subst payload. clear H.
  cbn [weekly_load].
  assert (Hinv : forall key row, weekly !! key = Some row -> counts_ok row).
  { eapply weekly_loop_counts_ok; [|exact E].
    intros key row Hr. rewrite lookup_empty in Hr. discriminate Hr. }
  apply Forall_forall. intros [week row] Hin.
  apply list_elem_of_fmap in Hin as (key & Heq & Hin). inversion Heq; subst.
  unfold py_sorted in Hin. rewrite merge_sort_Permutation in Hin.
  apply list_elem_of_fmap in Hin as ([k r] & -> & Hin).
  apply elem_of_map_to_list in Hin. cbn [snd fst].
  unfold week_row. rewrite Hin. cbn [default]. apply (Hinv _ _ Hin).
Qed.

Lemma weekly_load_rows_have_hard_sessions_witness :
  exists payload,
    analyze_patterns (fun _ => "") sample_iso_week sample_pattern_workouts true
    = Ok payload
    /\ map fst (weekly_load payload) = ["2026-W06"; "2026-W07"]
    /\ Forall (fun entry => counts_ok (snd entry)) (weekly_load payload).
Proof.
  destruct (analyze_patterns (fun _ => "") sample_iso_week
              sample_pattern_workouts true) as [payload|e] eqn:E;
    [|vm_compute in E; discriminate E].
  exists payload. split; [reflexivity|].
  split; [revert E; vm_compute; intros E; inversion E; reflexivity|].
  exact (weekly_load_rows_have_hard_sessions _ _ _ _ _ E).
Defined.

Lemma first_max_spec (rest : list string) :
  forall best,
    exists before after,
      best :: rest = before ++ first_max best rest :: after
      /\ Forall (fun t => (intensity_rank t
                           < intensity_rank (first_max best rest))%Z) before
      /\ Forall (fun t => (intensity_rank t
                           <= intensity_rank (first_max best rest))%Z) after.
Proof.
  induction rest as [|x rest IH]; intros best.
  - exists [], []. repeat split; constructor.
  - cbn [first_max].
    destruct (Z.ltb_spec (intensity_rank best) (intensity_rank x)) as [Hlt|Hge].
    + destruct (IH x) as (before & after & Heq & Hb & Ha).
      remember (first_max x rest) as m eqn:Em. clear Em.
      assert (Hx : (intensity_rank x <= intensity_rank m)%Z).
      { destruct before as [|b before']; simpl in Heq; injection Heq as Hhd _.
        - subst m. lia.
        - subst b. inversion Hb; subst. lia. }
      exists (best :: before), after. split; [simpl; f_equal; exact Heq|].
      split; [|exact Ha]. constructor; [lia|exact Hb].
    + destruct (IH best) as (before & after & Heq & Hb & Ha).
      remember (first_max best rest) as m eqn:Em. clear Em.
      destruct before as [|b before']; simpl in Heq; injection Heq as Hhd Htl.
      * subst m. exists [], (x :: after). split; [simpl; f_equal; f_equal; exact Htl|].
        split; [constructor|]. constructor; [lia|exact Ha].
      * subst b. exists (best :: x :: before'), after.
        split; [simpl; f_equal; f_equal; exact Htl|]. split; [|exact Ha].
        inversion Hb; subst. constructor; [assumption|].
        constructor; [lia|assumption].
Qed.

(** X20.  [_day_intensity] is [rest] for a day without sessions, and
    otherwise the first of the day's labels whose rank is the greatest
    (vo2 4, lt2 3, lt1 2, easy 1, any other label 0): every label before
    it has a smaller rank and none after it has a greater one. *)
Theorem _day_intensity_first_of_greatest (types : list string) :
  match types with
  | [] => _day_intensity types = "rest"
  | _ =>
      exists before after,
        types = before ++ _day_intensity types :: after
        /\ Forall (fun t => (intensity_rank t
                             < intensity_rank (_day_intensity types))%Z) before
        /\ Forall (fun t => (intensity_rank t
                             <= intensity_rank (_day_intensity types))%Z) after
  end.
Proof.
  destruct types as [|x rest]; [reflexivity|].
  cbn [_day_intensity]. apply first_max_spec.
Qed.

(** ** The shape of a compiled structure *)

Lemma parse_length_units (value : string) (n : Z) (unit : string) :
  parse_length value = Ok (n, unit) -> unit ∈ ["second"; "meter"].
Proof.
  unfold parse_length.
  destruct (Str.endswith _ "km").
  { destruct (float_of_str _) as [x|]; [|discriminate]. cbn [bind].
    destruct (Num.int_of_pyfloat _); [|discriminate].
    intros H. inversion H. repeat constructor. }
  destruct (Str.endswith _ "m").
  { destruct (float_of_str _) as [x|]; [|discriminate]. cbn [bind].
    destruct (Num.int_of_pyfloat _); [|discriminate].
    intros H. inversion H. repeat constructor. }
  destruct (Str.split ":" _) as [|p1 [|p2 [|p3 [|p4 ps]]]];
    repeat (destruct (int_of_str _); [|discriminate]; cbn [bind]);
    intros H; inversion H; repeat constructor.
Qed.

Lemma parse_length_of_units (v : value) (n : Z) (unit : string) :
  parse_length_of v = Ok (n, unit) -> unit ∈ ["second"; "meter"].
Proof. destruct v; try discriminate. apply parse_length_units. Qed.

Lemma min_targets_shape (t targets : value) :
  min_targets t = Ok targets -> targets_shape targets.
Proof.
  unfold min_targets. destruct (Py.truthy t).
  - destruct (parse_target t); [|discriminate]. simpl.
    intros H. inversion H. right. left. eauto.
  - intros H. inversion H. left. reflexivity.
Qed.

Lemma on_targets_of_shape (t targets : value) :
  on_targets_of t = Ok targets -> targets_shape targets.
Proof.
  unfold on_targets_of. destruct (Py.truthy t).
  - destruct t; try discriminate.
    destruct (match_range s) as [[lo hi]|].
    + intros H. inversion H. right. right. eauto.
    + destruct (match_single s).
      * intros H. inversion H. right. left. eauto.
      * intros H. inversion H. left. reflexivity.
  - intros H. inversion H. left. reflexivity.
Qed.

Lemma flush_warmup_shape (blocks warmup_steps : list value) :
  Forall block_shape blocks ->
  (warmup_steps = [] \/ ramp_shape warmup_steps) ->
  Forall block_shape (flush_warmup blocks warmup_steps).
Proof.
  intros Hb [->|Hw]; [exact Hb|].
  unfold flush_warmup. destruct warmup_steps as [|w ws]; [exact Hb|].
  apply Forall_app. split; [exact Hb|]. constructor; [|constructor].
  left. eauto.
Qed.

Lemma flush_warmup_nil (blocks : list value) : flush_warmup blocks [] = blocks.
Proof. reflexivity. Qed.

Lemma flush_warmup_length (blocks warmup_steps : list value) :
  (length blocks <= length (flush_warmup blocks warmup_steps)
   <= S (length blocks))%nat.
Proof.
  unfold flush_warmup. destruct warmup_steps; [lia|].
  rewrite length_app. simpl. lia.
Qed.

Lemma compile_entry_ok (entry : value) (read : nat)
    (st st' : list value * list value) :
  compile_state_ok read st ->
  compile_entry entry st = Ok st' ->
  compile_state_ok (S read) st'.
Proof.
  destruct st as [blocks warmup_steps]. intros (Hb & Hw & Hn).
  cbn [fst snd] in *. unfold compile_entry.
  destruct (Py.item entry "type") as [step_type|e]; [|discriminate].
  cbn [bind]. destruct entry as [| | | | |d]; try discriminate.
  pose proof (flush_warmup_shape blocks warmup_steps Hb Hw) as Hflush.
  pose proof (flush_warmup_length blocks warmup_steps) as Hlen.
  destruct (Py.eq_str step_type "warmup").
  { destruct (Py.item (VDict d) "duration") as [duration|e]; [|discriminate].
    cbn [bind].
    destruct (parse_length_of duration) as [[dur_value dur_unit]|e] eqn:El;
      [|discriminate].
    cbn [bind]. apply parse_length_of_units in El.
    destruct (min_targets _) as [targets|e] eqn:Et; [|discriminate].
    cbn [bind]. apply min_targets_shape in Et.
    intros H. inversion H; subst st'. clear H.
    unfold compile_state_ok. cbn [fst snd].
    split; [exact Hb|]. split.
    - right. destruct warmup_steps as [|w ws].
      + exists (step_dict (Py.dget d "name" (VStr ""))
                  (length_dict (VInt dur_value) dur_unit) targets "warmUp"), [].
        split; [reflexivity|]. split; [|constructor].
        eexists _, _, _, _. eauto.
      + destruct Hw as [Hw|(first & rest & Heq & Hf & Hr)]; [discriminate|].
        inversion Heq; subst. exists first, (rest ++ [step_dict
            (Py.dget d "name" (VStr ""))
            (length_dict (VInt dur_value) dur_unit) targets "active"]).
        split; [reflexivity|]. split; [exact Hf|].
        apply Forall_app. split; [exact Hr|]. constructor; [|constructor].
        eexists _, _, _, _. eauto.
    - unfold flush_warmup in *. destruct warmup_steps as [|w ws].
      + simpl. rewrite length_app. simpl. lia.
      + simpl. rewrite length_app in *. simpl in *. lia. }
  destruct (Py.eq_str step_type "interval").
  { destruct (Py.item (VDict d) "on") as [on|e]; [|discriminate].
    cbn [bind].
    destruct (parse_length_of on) as [[on_value on_unit]|e] eqn:Eon;
      [|discriminate].
    cbn [bind]. apply parse_length_of_units in Eon.
    destruct (Py.item (VDict d) "off") as [off|e]; [|discriminate].
    cbn [bind].
    destruct (parse_length_of off) as [[off_value off_unit]|e] eqn:Eoff;
      [|discriminate].
    cbn [bind]. apply parse_length_of_units in Eoff.
    destruct (on_targets_of _) as [on_targets|e] eqn:Eot; [|discriminate].
    cbn [bind]. apply on_targets_of_shape in Eot.
    destruct (min_targets _) as [off_targets|e] eqn:Et; [|discriminate].
    cbn [bind]. apply min_targets_shape in Et.
    intros H. inversion H; subst st'. clear H.
    unfold compile_state_ok. cbn [fst snd].
    split; [|split; [left; reflexivity|]].
    - apply Forall_app. split; [exact Hflush|]. constructor; [|constructor].
      right. left. unfold interval_block. eexists _, _, _.
      split; [reflexivity|]. split; eexists _, _, _, _; eauto.
    - rewrite flush_warmup_nil, length_app. simpl. lia. }
  destruct (Py.eq_str step_type "cooldown").
  { destruct (Py.item (VDict d) "duration") as [duration|e]; [|discriminate].
    cbn [bind].
    destruct (parse_duration duration) as [seconds|e]; [|discriminate].
    cbn [bind].
    destruct (min_targets _) as [targets|e] eqn:Et; [|discriminate].
    cbn [bind]. apply min_targets_shape in Et.
    intros H. inversion H; subst st'. clear H.
    unfold compile_state_ok. cbn [fst snd].
    split; [|split; [left; reflexivity|]].
    - apply Forall_app. split; [exact Hflush|]. constructor; [|constructor].
      right. right. eexists. split; [reflexivity|]. left.
      eexists _, _, _, _. split; [reflexivity|]. split; [constructor|exact Et].
    - rewrite flush_warmup_nil, length_app. simpl. lia. }
  destruct (Py.eq_str step_type "steady").
  { destruct (Py.item (VDict d) "duration") as [duration|e]; [|discriminate].
    cbn [bind].
    destruct (parse_duration duration) as [seconds|e]; [|discriminate].
    cbn [bind].
    destruct (min_targets _) as [targets|e] eqn:Et; [|discriminate].
    cbn [bind]. apply min_targets_shape in Et.
    intros H. inversion H; subst st'. clear H.
    unfold compile_state_ok. cbn [fst snd].
    split; [|split; [left; reflexivity|]].
    - apply Forall_app. split; [exact Hflush|]. constructor; [|constructor].
      right. right. eexists. split; [reflexivity|]. right.
      eexists _, _, _, _. split; [reflexivity|]. split; [constructor|exact Et].
    - rewrite flush_warmup_nil, length_app. simpl. lia. }
  intros H. inversion H; subst st'. clear H.
    unfold compile_state_ok. cbn [fst snd].
  split; [exact Hflush|]. split; [left; reflexivity|].
  rewrite flush_warmup_nil. lia.
Qed.

Lemma compile_loop_ok (steps : list value) :
  forall read st st',
    compile_state_ok read st ->
    compile_loop steps st = Ok st' ->
    compile_state_ok (read + length steps) st'.
Proof.
  induction steps as [|entry rest IH]; intros read st st' Hok; simpl.
  - intros H. inversion H; subst. rewrite Nat.add_0_r. exact Hok.
  - destruct (compile_entry entry st) as [st1|e] eqn:E; [|discriminate].
    cbn [bind]. intros H.
    replace (read + S (length rest))%nat with (S read + length rest)%nat by lia.
    eapply IH; [|exact H]. eapply compile_entry_ok; eassumption.
Qed.

(** X21.  Whatever [simple_to_tp_structure] returns is a payload of the
    given metric whose blocks have one of three shapes: a [rampUp] block
    of length 1 whose first step is of class [warmUp] and whose other
    steps are [active]; a [repetition] block of an [active] step and a
    [rest] step; a [step] block of length 1 with one [coolDown] or
    [active] step whose length is in seconds whatever the unit of the
    token.  Every step has an integer length in seconds or metres and no
    target, a minimum, or a range.  There are no more blocks than
    entries. *)
Theorem simple_to_tp_structure_shape (steps : list value)
    (intensity_metric : string) (payload : value) :
  simple_to_tp_structure steps intensity_metric = Ok payload ->
  exists blocks,
    payload = structure_of intensity_metric blocks
    /\ Forall block_shape blocks
    /\ (length blocks <= length steps)%nat.
Proof.
  unfold simple_to_tp_structure.
  destruct (compile_loop steps ([], [])) as [[blocks warmup_steps]|e] eqn:E;
    [|discriminate].
  cbn [bind]. intros H. inversion H; subst payload. clear H.
  assert (Hok : compile_state_ok (0 + length steps) (blocks, warmup_steps)).
  { eapply compile_loop_ok; [|exact E].
    split; [constructor|]. split; [left; reflexivity|]. simpl. lia. }
  destruct Hok as (Hb & Hw & Hn). cbn [fst snd] in *.
  exists (flush_warmup blocks warmup_steps).
  split; [reflexivity|]. split; [|exact Hn].
  apply flush_warmup_shape; assumption.
Qed.

Lemma simple_to_tp_structure_shape_witness :
  exists blocks,
    simple_to_tp_structure
      [warmup_entry "10:00"; warmup_entry "5:00"; steady_entry "5km"]
      "percentOfThresholdPace"
    = Ok (structure_of "percentOfThresholdPace" blocks)
    /\ Forall block_shape blocks
    /\ length blocks = 2%nat.
Proof.
  destruct (simple_to_tp_structure
              [warmup_entry "10:00"; warmup_entry "5:00"; steady_entry "5km"]
              "percentOfThresholdPace") as [payload|e] eqn:E;
    [|vm_compute in E; discriminate E].
  destruct (simple_to_tp_structure_shape _ _ _ E) as (blocks & -> & Hb & _).
  exists blocks. split; [reflexivity|]. split; [exact Hb|].
  revert E. vm_compute. intros E. inversion E. reflexivity.
Defined.

(** ** How entries compose *)

Lemma flush_warmup_prefix (pre blocks warmup_steps : list value) :
  flush_warmup (pre ++ blocks) warmup_steps
  = pre ++ flush_warmup blocks warmup_steps.
Proof.
  unfold flush_warmup. destruct warmup_steps; [reflexivity|].
  rewrite app_assoc. reflexivity.
Qed.

Lemma compile_entry_prefix (pre : list value) (entry : value)
    (blocks warmup_steps : list value) :
  compile_entry entry (pre ++ blocks, warmup_steps)
  = let* (blocks', warmup_steps') := compile_entry entry (blocks, warmup_steps) in
    Ok (pre ++ blocks', warmup_steps').
Proof.
  unfold compile_entry.
  destruct (Py.item entry "type") as [step_type|e]; [|reflexivity].
  cbn [bind]. destruct entry as [| | | | |d]; try reflexivity.
  rewrite flush_warmup_prefix.
  destruct (Py.eq_str step_type "warmup").
  { destruct (Py.item (VDict d) "duration"); [|reflexivity]. cbn [bind].
    destruct (parse_length_of _) as [[? ?]|]; [|reflexivity]. cbn [bind].
    destruct (min_targets _); reflexivity. }
  destruct (Py.eq_str step_type "interval").
  { destruct (Py.item (VDict d) "on"); [|reflexivity]. cbn [bind].
    destruct (parse_length_of _) as [[? ?]|]; [|reflexivity]. cbn [bind].
    destruct (Py.item (VDict d) "off"); [|reflexivity]. cbn [bind].
    destruct (parse_length_of _) as [[? ?]|]; [|reflexivity]. cbn [bind].
    destruct (on_targets_of _); [|reflexivity]. cbn [bind].
    destruct (min_targets _); [|reflexivity]. cbn [bind].
    rewrite <- app_assoc. reflexivity. }
  destruct (Py.eq_str step_type "cooldown").
  { destruct (Py.item (VDict d) "duration"); [|reflexivity]. cbn [bind].
    destruct (parse_duration _); [|reflexivity]. cbn [bind].
    destruct (min_targets _); [|reflexivity]. cbn [bind].
    rewrite <- app_assoc. reflexivity. }
  destruct (Py.eq_str step_type "steady"); [|reflexivity].
  destruct (Py.item (VDict d) "duration"); [|reflexivity]. cbn [bind].
  destruct (parse_duration _); [|reflexivity]. cbn [bind].
  destruct (min_targets _); [|reflexivity]. cbn [bind].
  rewrite <- app_assoc. reflexivity.
Qed.

Lemma compile_loop_prefix (pre : list value) (steps : list value) :
  forall blocks warmup_steps,
    compile_loop steps (pre ++ blocks, warmup_steps)
    = let* (blocks', warmup_steps') := compile_loop steps (blocks, warmup_steps) in
      Ok (pre ++ blocks', warmup_steps').
Proof.
  induction steps as [|entry rest IH]; intros blocks warmup_steps;
    [reflexivity|].
  cbn [compile_loop]. rewrite compile_entry_prefix.
  destruct (compile_entry entry (blocks, warmup_steps)) as [[b w]|e];
    [|reflexivity].
  cbn [bind]. apply IH.
Qed.

Lemma compile_loop_app (a b : list value) :
  forall st,
    compile_loop (a ++ b) st
    = let* st' := compile_loop a st in compile_loop b st'.
Proof.
  induction a as [|entry rest IH]; intros st; [reflexivity|].
  cbn [app compile_loop].
  destruct (compile_entry entry st) as [st1|e]; [|reflexivity].
  cbn [bind]. apply IH.
Qed.

Lemma compile_entry_flushed (entry : value) (blocks warmup_steps : list value) :
  not_warmup entry ->
  compile_entry entry (blocks, warmup_steps)
  = compile_entry entry (flush_warmup blocks warmup_steps, []).
Proof.
  intros Hnw. unfold compile_entry.
  destruct (Py.item entry "type") as [step_type|e] eqn:Et; [|reflexivity].
  cbn [bind]. rewrite (Hnw step_type Et).
  destruct entry as [| | | | |d]; reflexivity.
Qed.

(** X22.  Compiling is compositional across an entry that is not a
    warm-up: when a second list of entries is empty or starts with such an
    entry, the blocks of the two lists one after the other are the blocks
    of the first followed by the blocks of the second.  (Warm-ups on both
    sides of the cut would be merged into one ramp.) *)
Theorem simple_to_tp_structure_app (a b : list value)
    (intensity_metric : string) (blocks_a blocks_b : list value) :
  simple_to_tp_structure a intensity_metric
  = Ok (structure_of intensity_metric blocks_a) ->
  simple_to_tp_structure b intensity_metric
  = Ok (structure_of intensity_metric blocks_b) ->
  match b with
  | [] => True
  | entry :: _ => not_warmup entry
  end ->
  simple_to_tp_structure (a ++ b) intensity_metric
  = Ok (structure_of intensity_metric (blocks_a ++ blocks_b)).
Proof.
  unfold simple_to_tp_structure. rewrite compile_loop_app.
  destruct (compile_loop a ([], [])) as [[ba wa]|e]; [|discriminate].
  cbn [bind]. intros Ha. inversion Ha as [HA]. clear Ha.
  destruct b as [|entry rest].
  - cbn [compile_loop bind]. intros Hb _. inversion Hb as [HB].
    rewrite app_nil_r. reflexivity.
  - intros Hb Hnw. cbn [compile_loop] in Hb |- *.
    rewrite (compile_entry_flushed entry ba wa Hnw).
    rewrite <- (app_nil_r (flush_warmup ba wa)).
    rewrite compile_entry_prefix.
    destruct (compile_entry entry ([], [])) as [[b1 w1]|e]; [|discriminate].
    cbn [bind] in Hb |- *. rewrite compile_loop_prefix.
    destruct (compile_loop rest (b1, w1)) as [[bb wb]|e]; [|discriminate].
    cbn [bind] in Hb |- *. inversion Hb as [HB].
    rewrite flush_warmup_prefix, !app_nil_r. reflexivity.
Qed.

Lemma simple_to_tp_structure_app_witness :
  exists ramp steady,
    simple_to_tp_structure
      ([warmup_entry "10:00"; warmup_entry "5:00"] ++ [steady_entry "20:00"])
      "percentOfFtp"
    = Ok (structure_of "percentOfFtp" ([ramp] ++ [steady])).
Proof.
  eexists _, _.
  apply (simple_to_tp_structure_app
           [warmup_entry "10:00"; warmup_entry "5:00"] [steady_entry "20:00"]
           "percentOfFtp" [_] [_]).
  - vm_compute. reflexivity.
  - vm_compute. reflexivity.
  - intros step_type H. inversion H. reflexivity.
Defined.

(** ** What the estimator skips *)

Lemma estimate_loop_app (repr : value -> string) (threshold_speed : Q)
    (a b : list value) :
  forall totals,
    estimate_loop repr threshold_speed (a ++ b) totals
    = let* totals' := estimate_loop repr threshold_speed a totals in
      estimate_loop repr threshold_speed b totals'.
Proof.
  induction a as [|entry rest IH]; intros totals; [reflexivity|].
  cbn [app estimate_loop].
  destruct (estimate_entry repr threshold_speed entry totals); [|reflexivity].
  cbn [bind]. apply IH.
Qed.

(** X23.  [calc_time_and_distance] skips an entry whose type is none of
    warmup, steady, cooldown and interval (a missing type included): the
    estimate is what it is without that entry, wherever the entry stands.
    An entry that is not an object makes it raise [AttributeError]
    instead, when the entries before it are read without error. *)
Theorem calc_time_and_distance_skips_unknown (repr : value -> string)
    (before after : list value) (entry : value) (threshold_speed : Q) :
  (skipped_entry entry ->
   calc_time_and_distance repr (before ++ entry :: after) threshold_speed
   = calc_time_and_distance repr (before ++ after) threshold_speed)
  /\ (Py.is_dict entry = false ->
      forall totals,
        estimate_loop repr threshold_speed before (0, 0)%Q = Ok totals ->
        calc_time_and_distance repr (before ++ entry :: after) threshold_speed
        = Raise AttributeError).
Proof.
  unfold calc_time_and_distance. rewrite !estimate_loop_app. split.
  - intros (d & -> & H1 & H2 & H3 & H4).
    destruct (estimate_loop repr threshold_speed before (0, 0)%Q)
      as [totals|e]; [|reflexivity].
    cbn [bind estimate_loop]. unfold estimate_entry.
    cbn [Py.get bind]. rewrite H1, H2, H3, H4. reflexivity.
  - intros Hd totals ->. cbn [bind estimate_loop]. unfold estimate_entry.
    destruct entry; try discriminate Hd; reflexivity.
Qed.

Lemma calc_time_and_distance_skips_unknown_witness :
  calc_time_and_distance (fun _ => "")
    ([steady_entry "10:00"] ++ VDict [("type", VStr "note")] :: [])
    4
  = Ok (600, 1728)%Z.
Proof.
  rewrite (proj1 (calc_time_and_distance_skips_unknown (fun _ => "")
                    [steady_entry "10:00"] [] (VDict [("type", VStr "note")])
                    4)).
  - reflexivity.
  - exists [("type", VStr "note")]. repeat split; reflexivity.
Defined.

(** ** Date chunks *)

Lemma add_days_ok (d k : Z) :
  (Z.abs k <= MAX_DELTA_DAYS)%Z -> (1 <= d + k <= MAX_ORDINAL)%Z ->
  add_days d k = Ok (d + k)%Z.
Proof.
  intros Hk Hd. unfold add_days, valid_date.
  replace (MAX_DELTA_DAYS <? Z.abs k)%Z with false
    by (symmetry; apply Z.ltb_ge; exact Hk).
  replace (1 <=? d + k)%Z with true by (symmetry; apply Z.leb_le; lia).
  replace (d + k <=? MAX_ORDINAL)%Z with true by (symmetry; apply Z.leb_le; lia).
  reflexivity.
Qed.

Lemma chunk_count_later (cursor end_ chunk_days : Z) :
  (1 <= chunk_days)%Z -> (cursor + chunk_days <= end_)%Z ->
  chunk_count cursor end_ chunk_days
  = S (chunk_count (cursor + chunk_days) end_ chunk_days).
Proof.
  intros Hc Hle. unfold chunk_count.
  replace (cursor <=? end_)%Z with true by (symmetry; apply Z.leb_le; lia).
  replace (cursor + chunk_days <=? end_)%Z with true
    by (symmetry; apply Z.leb_le; lia).
  replace (end_ - cursor)%Z
    with ((end_ - (cursor + chunk_days)) + 1 * chunk_days)%Z by lia.
  rewrite Z.div_add by lia.
  assert (0 <= (end_ - (cursor + chunk_days)) / chunk_days)%Z
    by (apply Z.div_pos; lia).
  lia.
Qed.

Lemma chunk_count_last (cursor end_ chunk_days : Z) :
  (1 <= chunk_days)%Z -> (cursor <= end_ < cursor + chunk_days)%Z ->
  chunk_count cursor end_ chunk_days = 1%nat.
Proof.
  intros Hc Hle. unfold chunk_count.
  replace (cursor <=? end_)%Z with true by (symmetry; apply Z.leb_le; lia).
  rewrite Z.div_small by lia. reflexivity.
Qed.

Lemma chunks_of_later (cursor end_ chunk_days : Z) :
  (1 <= chunk_days)%Z -> (cursor + chunk_days <= end_)%Z ->
  chunks_of cursor end_ chunk_days
  = (cursor, cursor + chunk_days - 1)%Z
    :: chunks_of (cursor + chunk_days) end_ chunk_days.
Proof.
  intros Hc Hle. unfold chunks_of.
  rewrite (chunk_count_later cursor end_ chunk_days Hc Hle).
  cbn [seq map]. f_equal.
  - change (Z.of_nat 0) with 0%Z. rewrite Z.min_l by lia. f_equal; lia.
  - rewrite <- seq_shift, map_map. apply map_ext. intros i.
    f_equal; [lia|]. f_equal. lia.
Qed.

Lemma chunk_loop_spec (chunk_days end_ : Z) :
  (1 <= chunk_days <= MAX_DELTA_DAYS)%Z ->
  (end_ + chunk_days <= MAX_ORDINAL)%Z ->
  forall fuel cursor,
    (1 <= cursor)%Z ->
    (chunk_count cursor end_ chunk_days < fuel)%nat ->
    chunk_loop fuel cursor end_ chunk_days
    = Some (chunks_of cursor end_ chunk_days, Ok tt).
Proof.
  intros Hc Hend. induction fuel as [|fuel IH]; intros cursor Hcur Hfuel;
    [lia|].
  cbn [chunk_loop]. destruct (Z.leb_spec cursor end_) as [Hle|Hgt].
  - rewrite add_days_ok by lia.
    destruct (Z.le_gt_cases (cursor + chunk_days) end_) as [Hmore|Hlast].
    + replace (Z.min (cursor + (chunk_days - 1)) end_)
        with (cursor + chunk_days - 1)%Z by lia.
      rewrite add_days_ok by (unfold MAX_DELTA_DAYS; simpl; lia).
      replace (cursor + chunk_days - 1 + 1)%Z with (cursor + chunk_days)%Z
        by lia.
      rewrite (chunk_count_later cursor end_ chunk_days) in Hfuel by lia.
      rewrite IH by lia.
      rewrite (chunks_of_later cursor end_ chunk_days) by lia. reflexivity.
    + replace (Z.min (cursor + (chunk_days - 1)) end_) with end_ by lia.
      rewrite add_days_ok by (unfold MAX_DELTA_DAYS; simpl; lia).
      pose proof (chunk_count_last cursor end_ chunk_days) as Hone.
      rewrite Hone in Hfuel by lia.
      destruct fuel as [|fuel']; [lia|]. cbn [chunk_loop].
      replace (end_ + 1 <=? end_)%Z with false
        by (symmetry; apply Z.leb_gt; lia).
      unfold chunks_of. rewrite Hone by lia. cbn [seq map].
      repeat f_equal; lia.
  - unfold chunks_of, chunk_count.
    replace (cursor <=? end_)%Z with false by (symmetry; apply Z.leb_gt; lia).
    reflexivity.
Qed.

Lemma chunk_loop_zero (fuel : nat) (cursor end_ : Z) :
  (1 < cursor <= end_)%Z -> (end_ <= MAX_ORDINAL)%Z ->
  chunk_loop fuel cursor end_ 0 = None.
Proof.
  intros Hcur Hend. induction fuel as [|fuel IH]; [reflexivity|].
  cbn [chunk_loop].
  replace (cursor <=? end_)%Z with true by (symmetry; apply Z.leb_le; lia).
  rewrite add_days_ok by (unfold MAX_DELTA_DAYS; simpl; lia).
  replace (Z.min (cursor + (0 - 1)) end_) with (cursor - 1)%Z by lia.
  rewrite add_days_ok by (unfold MAX_DELTA_DAYS; simpl; lia).
  replace (cursor - 1 + 1)%Z with cursor by lia.
  rewrite IH. reflexivity.
Qed.

(** X24.  For a chunk length of at least one day and dates that leave
    room for one more chunk before [date.max], [chunk_date_range] ends,
    without an error, after yielding exactly the chunks [chunks_of]: the
    [i]-th chunk starts [i * chunk_days] days after [start] and is
    [chunk_days] days long, the last one being cut at [end]; there is none
    when [start] is after [end], and one, [(start, end)], when the range is
    no longer than [chunk_days].  Every day from [start] to [end] is in a
    chunk and every chunk is inside the range.  With a chunk length of 0
    the generator never ends. *)
Theorem chunk_date_range_chunks (start end_ chunk_days : Z) :
  (1 <= start)%Z ->
  (1 <= chunk_days <= MAX_DELTA_DAYS)%Z ->
  (end_ + chunk_days <= MAX_ORDINAL)%Z ->
  (forall fuel,
      (chunk_count start end_ chunk_days < fuel)%nat ->
      chunk_date_range fuel start end_ chunk_days
      = Some (chunks_of start end_ chunk_days, Ok tt))
  /\ (end_ < start -> chunks_of start end_ chunk_days = [])%Z
  /\ (start <= end_ < start + chunk_days ->
      chunks_of start end_ chunk_days = [(start, end_)])%Z
  /\ (forall first last,
        (first, last) ∈ chunks_of start end_ chunk_days ->
        (start <= first <= last /\ last <= end_
         /\ last - first < chunk_days)%Z)
  /\ (forall day,
        (start <= day <= end_)%Z ->
        exists first last,
          (first, last) ∈ chunks_of start end_ chunk_days
          /\ (first <= day <= last)%Z)
  /\ (forall fuel,
        (1 < start <= end_)%Z ->
        chunk_date_range fuel start end_ 0 = None).
Proof.
  intros Hstart Hc Hend.
  split; [|split; [|split; [|split; [|split]]]].
  - intros fuel Hfuel. apply chunk_loop_spec; assumption.
  - intros Hlt. unfold chunks_of, chunk_count.
    replace (start <=? end_)%Z with false by (symmetry; apply Z.leb_gt; lia).
    reflexivity.
  - intros Hone. unfold chunks_of.
    rewrite chunk_count_last by lia. cbn [seq map]. repeat f_equal; lia.
  - intros first last Hin. unfold chunks_of in Hin.
    apply list_elem_of_fmap in Hin as (i & Heq & Hi).
    apply list_elem_of_In, in_seq in Hi. inversion Heq; subst first last.
    clear Heq. unfold chunk_count in Hi.
    destruct (Z.leb_spec start end_) as [Hle|Hgt]; [|simpl in Hi; lia].
    assert (Hq : (0 <= (end_ - start) / chunk_days)%Z)
      by (apply Z.div_pos; lia).
    assert (Hi' : (Z.of_nat i <= (end_ - start) / chunk_days)%Z) by lia.
    assert (Hmul : (Z.of_nat i * chunk_days <= end_ - start)%Z).
    { pose proof (Z.mul_div_le (end_ - start) chunk_days ltac:(lia)).
      nia. }
    lia.
  - intros day Hday.
    set (i := ((day - start) / chunk_days)%Z).
    assert (Hi0 : (0 <= i)%Z) by (apply Z.div_pos; lia).
    assert (Hdm : (day - start = chunk_days * i + (day - start) mod chunk_days)%Z)
      by (apply Z.div_mod; lia).
    pose proof (Z.mod_pos_bound (day - start) chunk_days ltac:(lia)) as Hmod.
    exists (start + Z.of_nat (Z.to_nat i) * chunk_days)%Z,
           (Z.min (start + Z.of_nat (Z.to_nat i) * chunk_days + chunk_days - 1)
              end_).
    split.
    + unfold chunks_of. apply list_elem_of_fmap. exists (Z.to_nat i).
      split; [reflexivity|]. apply list_elem_of_In, in_seq.
      unfold chunk_count.
      replace (start <=? end_)%Z with true by (symmetry; apply Z.leb_le; lia).
      assert (i <= (end_ - start) / chunk_days)%Z
        by (apply Z.div_le_mono; lia).
      lia.
    + rewrite Z2Nat.id by lia. nia.
  - intros fuel Hs. apply chunk_loop_zero; lia.
Qed.

Lemma chunk_date_range_chunks_witness :
  chunk_date_range 5 739000 739200 90
  = Some ([(739000, 739089); (739090, 739179); (739180, 739200)]%Z, Ok tt).
Proof.
  apply (proj1 (chunk_date_range_chunks 739000 739200 90
                  ltac:(lia) ltac:(unfold MAX_DELTA_DAYS; lia)
                  ltac:(unfold MAX_ORDINAL; lia))).
  vm_compute. lia.
Defined.

(** ** The filters of [fetch_workouts_in_chunks] *)

Lemma insert_by_Permutation {A : Type} (key : A -> string) (x : A)
    (l : list A) :
  insert_by key x l ≡ₚ x :: l.
Proof.
  induction l as [|y l IH]; [reflexivity|]. cbn [insert_by].
  destruct (String.leb (key x) (key y)); [reflexivity|].
  rewrite IH. apply Permutation_swap.
Qed.

Lemma sort_by_Permutation {A : Type} (key : A -> string) (l : list A) :
  sort_by key l ≡ₚ l.
Proof.
  unfold sort_by. induction l as [|x l IH]; [reflexivity|].
  cbn [foldr]. rewrite insert_by_Permutation, IH. reflexivity.
Qed.

Lemma insert_by_Sorted {A : Type} (key : A -> string) (x : A) (l : list A) :
  Sorted (fun a b => String.leb (key a) (key b) = true) l ->
  Sorted (fun a b => String.leb (key a) (key b) = true) (insert_by key x l).
Proof.
  induction 1 as [|y l Hl IH Hhd]; cbn [insert_by].
  - repeat constructor.
  - destruct (String.leb (key x) (key y)) eqn:E.
    + constructor; [constructor; assumption|]. constructor. exact E.
    + constructor; [exact IH|].
      assert (Hyx : String.leb (key y) (key x) = true).
      { destruct (String.leb_total (key x) (key y)) as [H|H];
          [congruence|exact H]. }
      destruct Hhd as [|z l' Hz]; cbn [insert_by].
      * constructor. exact Hyx.
      * destruct (String.leb (key x) (key z)); constructor; assumption.
Qed.

Lemma sort_by_Sorted {A : Type} (key : A -> string) (l : list A) :
  Sorted (fun a b => String.leb (key a) (key b) = true) (sort_by key l).
Proof.
  unfold sort_by. induction l as [|x l IH]; [constructor|].
  cbn [foldr]. apply insert_by_Sorted, IH.
Qed.

Lemma Sorted_rev {A : Type} (R : relation A) (l : list A) :
  Sorted R l -> Sorted (flip R) (rev l).
Proof.
  intros H. apply Sorted_reverse in H. unfold reverse in H.
  rewrite rev_append_rev, app_nil_r in H. exact H.
Qed.

Lemma insert_by_map {A B : Type} (f : A -> B) (key : B -> string) (x : A)
    (l : list A) :
  insert_by key (f x) (map f l) = map f (insert_by (fun a => key (f a)) x l).
Proof.
  induction l as [|y l IH]; [reflexivity|]. cbn [insert_by map].
  destruct (String.leb (key (f x)) (key (f y))); [reflexivity|].
  cbn [map]. rewrite IH. reflexivity.
Qed.

Lemma sort_by_map {A B : Type} (f : A -> B) (key : B -> string) (l : list A) :
  sort_by key (map f l) = map f (sort_by (fun a => key (f a)) l).
Proof.
  unfold sort_by. induction l as [|x l IH]; [reflexivity|].
  cbn [foldr map]. rewrite IH. apply insert_by_map.
Qed.

Lemma zip_map_r {A B : Type} (g : A -> B) (l : list A) :
  zip l (map g l) = map (fun x => (x, g x)) l.
Proof.
  induction l as [|x l IH]; [reflexivity|].
  cbn [map zip zip_with]. f_equal. exact IH.
Qed.

Section FetchFacts.

Variable repr : value -> string.
Variable json_loads : string -> option value.
Variable sport_filter : string.
Variable type_filter : option string.
Variable min_tss max_tss : option Q.
Variable classify_method : string.
Variable rules : list (string * list string).

Lemma dget_dict_set_other (d : list (string * value)) (key other : string)
    (v dflt : value) :
  other <> key -> Py.dget (dict_set d key v) other dflt = Py.dget d other dflt.
Proof.
  intros Hne. unfold Py.dget. rewrite lookup_dict_set_other by exact Hne.
  reflexivity.
Qed.

Lemma extract_from_ignores (workout : list (string * value)) (key : string)
    (v : value) (keys : list string) (metric : string) :
  key ∉ keys ->
  extract_from repr json_loads (dict_set workout key v) keys metric
  = extract_from repr json_loads workout keys metric.
Proof.
  revert metric. induction keys as [|k keys IH]; intros metric Hnot;
    [reflexivity|].
  cbn [extract_from].
  rewrite dget_dict_set_other
    by (intros ->; apply Hnot; constructor).
  assert (Hrest : key ∉ keys)
    by (intros Hin; apply Hnot; constructor; exact Hin).
  destruct (_parse_structure_value json_loads (Py.dget workout k VNone))
    as [parsed|]; [|apply IH, Hrest].
  destruct parsed; rewrite ?IH by exact Hrest; reflexivity.
Qed.

Lemma classify_ignores_classification (workout : list (string * value))
    (v : value) :
  classify_with_metadata repr json_loads
    (dict_set workout "classification" v) classify_method rules
  = classify_with_metadata repr json_loads workout classify_method rules.
Proof.
  unfold classify_with_metadata, _classify_with_source,
    _classify_by_keywords, _classify_from_structure, _extract_structure,
    _normalized_text.
  rewrite !dget_dict_set_other by discriminate.
  rewrite extract_from_ignores; [reflexivity|].
  intros Hin. repeat (apply elem_of_cons in Hin as [Hin|Hin];
                      [discriminate Hin|]).
  apply elem_of_nil in Hin. exact Hin.
Qed.

Abbreviation classify :=
  (fun workout =>
     classify_with_metadata repr json_loads workout classify_method rules).
Abbreviation admits_ :=
  (admits repr json_loads sport_filter type_filter min_tss max_tss
     classify_method rules).
Abbreviation admitted_ :=
  (admitted repr json_loads sport_filter type_filter min_tss max_tss
     classify_method rules).
Abbreviation settled_ := (settled repr json_loads classify_method rules).
Abbreviation evolves_ := (evolves repr json_loads classify_method rules).
Abbreviation classified_ := (classified repr json_loads classify_method rules).
Abbreviation fetch_turn_ :=
  (fetch_turn repr json_loads sport_filter type_filter min_tss max_tss
     classify_method rules).
Abbreviation fetch_loop_ :=
  (fetch_loop repr json_loads sport_filter type_filter min_tss max_tss
     classify_method rules).

Lemma attached_twice (workout : list (string * value))
    (c c' : WorkoutClassification) :
  attached (attached workout c) c' = attached workout c'.
Proof. unfold attached. apply dict_set_twice. Qed.

Lemma admits_attached (workout : list (string * value))
    (c : WorkoutClassification) :
  classify workout = Ok c -> admits_ (attached workout c) = admits_ workout.
Proof.
  intros Hc. unfold admits. unfold attached at 1 2.
  rewrite dget_dict_set_other by discriminate.
  rewrite classify_ignores_classification. simpl in Hc. rewrite Hc.
  cbn [bind]. rewrite attached_twice. reflexivity.
Qed.

Lemma settled_classify (before after : list (string * value)) :
  settled_ before after -> classify after = classify before.
Proof.
  intros [->|(c & Hc & ->)]; [reflexivity|].
  apply classify_ignores_classification.
Qed.

Lemma settled_admits (before after : list (string * value)) :
  settled_ before after -> admits_ after = admits_ before.
Proof.
  intros [->|(c & Hc & ->)]; [reflexivity|]. apply admits_attached, Hc.
Qed.

Lemma settled_lookup (before after : list (string * value)) (key : string) :
  settled_ before after -> key <> "classification" ->
  Py.lookup after key = Py.lookup before key.
Proof.
  intros [->|(c & Hc & ->)] Hkey; [reflexivity|].
  apply lookup_dict_set_other, Hkey.
Qed.

Lemma settled_trans (a b c : list (string * value)) :
  settled_ a b -> settled_ b c -> settled_ a c.
Proof.
  intros Hab Hbc. pose proof (settled_classify _ _ Hab) as Hsame.
  destruct Hbc as [->|(cb & Hcb & ->)]; [exact Hab|].
  simpl in Hsame. rewrite Hsame in Hcb.
  destruct Hab as [->|(ca & Hca & ->)].
  - right. exists cb. split; [exact Hcb|reflexivity].
  - right. exists cb. split; [exact Hcb|apply attached_twice].
Qed.

Lemma settled_classified (before after : list (string * value)) :
  settled_ before after -> classified_ before -> classified_ after.
Proof.
  intros Hs (c & Hc & Hl). pose proof (settled_classify _ _ Hs) as Hsame.
  simpl in Hsame. exists c. split; [rewrite Hsame; exact Hc|].
  destruct Hs as [->|(c' & Hc' & ->)]; [exact Hl|].
  rewrite Hc in Hc'. inversion Hc'; subst c'.
  apply lookup_dict_set_same.
Qed.

Lemma classified_attached (workout : list (string * value))
    (c : WorkoutClassification) :
  classify workout = Ok c -> classified_ (attached workout c).
Proof.
  intros Hc. exists c. split.
  - unfold attached. rewrite classify_ignores_classification. exact Hc.
  - apply lookup_dict_set_same.
Qed.

Lemma evolves_refl (s : store) : evolves_ s s.
Proof.
  intros l. destruct (s !! l) as [[fields|items]|]; try reflexivity.
  exists fields. split; [reflexivity|left; reflexivity].
Qed.

Lemma evolves_trans (s1 s2 s3 : store) :
  evolves_ s1 s2 -> evolves_ s2 s3 -> evolves_ s1 s3.
Proof.
  intros H12 H23 l. specialize (H12 l). specialize (H23 l).
  destruct (s1 !! l) as [[f1|items]|].
  - destruct H12 as (f2 & E2 & S12). rewrite E2 in H23.
    destruct H23 as (f3 & E3 & S23). exists f3. split; [exact E3|].
    eapply settled_trans; eassumption.
  - rewrite H12 in H23. exact H23.
  - rewrite H12 in H23. exact H23.
Qed.

Lemma evolves_attach (s : store) (l : positive)
    (fields : list (string * value)) (c : WorkoutClassification) :
  s !! l = Some (ODict fields) -> classify fields = Ok c ->
  evolves_ s (<[l := ODict (attached fields c)]> s).
Proof.
  intros Hl Hc l'. destruct (decide (l' = l)) as [->|Hne].
  - rewrite Hl, lookup_insert_eq. eexists. split; [reflexivity|].
    right. exists c. split; [exact Hc|reflexivity].
  - rewrite lookup_insert_ne by congruence.
    destruct (s !! l') as [[f|items]|]; try reflexivity.
    exists f. split; [reflexivity|left; reflexivity].
Qed.

Lemma evolves_admitted (s s' : store) (l : positive) :
  evolves_ s s' -> admitted_ s' l = admitted_ s l.
Proof.
  intros H. specialize (H l). unfold admitted.
  destruct (s !! l) as [[f|items]|].
  - destruct H as (f' & -> & Hs). rewrite (settled_admits _ _ Hs).
    reflexivity.
  - rewrite H. reflexivity.
  - rewrite H. reflexivity.
Qed.

(** A turn, read off the record of the workout. *)
Lemma fetch_turn_dict (s : store) (l : positive)
    (fields : list (string * value)) :
  s !! l = Some (ODict fields) ->
  fetch_turn_ l s
  = match sport_of (Py.dget fields "workoutTypeValueId" VNone) with
    | Raise e => (Raise e, s)
    | Ok sport_key =>
        if wrong_sport sport_filter sport_key then (Ok false, s)
        else
          match classify fields with
          | Raise e => (Raise e, s)
          | Ok c =>
              (passes type_filter min_tss max_tss (wc_type c)
                 (attached fields c),
               <[l := ODict (attached fields c)]> s)
          end
    end.
Proof.
  intros Hl. unfold fetch_turn. unfold st_bind at 1. unfold read_dict at 1.
  rewrite Hl. unfold st_bind at 1. unfold st_lift at 1.
  destruct (sport_of (Py.dget fields "workoutTypeValueId" VNone))
    as [sport_key|e]; [|reflexivity].
  destruct (wrong_sport sport_filter sport_key); [reflexivity|].
  unfold st_bind at 1. unfold classify_with_metadata_st.
  unfold st_bind at 1. unfold read_dict at 1. rewrite Hl.
  unfold st_lift at 1.
  destruct (classify_with_metadata repr json_loads fields classify_method
              rules) as [c|e]; [|reflexivity].
  unfold st_bind at 1. unfold read_dict at 1. rewrite Hl.
  unfold st_bind at 1. unfold write at 1.
  unfold st_bind at 1. unfold read_dict at 1. rewrite lookup_insert_eq.
  unfold st_lift. reflexivity.
Qed.

Lemma fetch_turn_not_dict (s : store) (l : positive) :
  (forall fields, s !! l <> Some (ODict fields)) ->
  fetch_turn_ l s = (Raise AttributeError, s).
Proof.
  intros Hl. unfold fetch_turn. unfold st_bind at 1. unfold read_dict at 1.
  destruct (s !! l) as [[fields|items]|]; try reflexivity.
  exfalso. apply (Hl fields). reflexivity.
Qed.

(** What a turn that answers has done. *)
Lemma fetch_turn_ok (s s1 : store) (l : positive) (kept : bool) :
  fetch_turn_ l s = (Ok kept, s1) ->
  evolves_ s s1
  /\ exists fields,
       s !! l = Some (ODict fields)
       /\ admits_ fields = Ok kept
       /\ (kept = true ->
           exists after,
             s1 !! l = Some (ODict after) /\ classified_ after).
Proof.
  intros H. destruct (s !! l) as [[fields|items]|] eqn:Hl.
  2,3: rewrite fetch_turn_not_dict in H
         by (intros f Hf; rewrite Hl in Hf; discriminate Hf);
       discriminate H.
  rewrite (fetch_turn_dict s l fields Hl) in H.
  destruct (sport_of (Py.dget fields "workoutTypeValueId" VNone))
    as [sport_key|e] eqn:Es; [|discriminate H].
  destruct (wrong_sport sport_filter sport_key) eqn:Ew.
  - inversion H; subst. split; [apply evolves_refl|].
    exists fields. split; [reflexivity|]. split.
    + unfold admits. rewrite Es. cbn [bind]. rewrite Ew. reflexivity.
    + intros Hk. discriminate Hk.
  - destruct (classify_with_metadata repr json_loads fields classify_method
                rules) as [c|e] eqn:Hc; [|discriminate H].
    inversion H as [[Hp Hs]]. split.
    + apply evolves_attach; assumption.
    + exists fields. split; [reflexivity|]. split.
      * unfold admits. rewrite Es. cbn [bind]. rewrite Ew, Hc. reflexivity.
      * intros _. exists (attached fields c).
        split; [apply lookup_insert_eq|]. apply classified_attached, Hc.
Qed.

Lemma evolves_classified (s s' : store) (l : positive)
    (fields : list (string * value)) :
  evolves_ s s' -> s !! l = Some (ODict fields) -> classified_ fields ->
  exists after, s' !! l = Some (ODict after) /\ classified_ after.
Proof.
  intros H Hl Hc. specialize (H l). rewrite Hl in H.
  destruct H as (after & Ha & Hs). exists after. split; [exact Ha|].
  eapply settled_classified; eassumption.
Qed.

Lemma filter_ext_bool (f g : positive -> bool) (l : list positive) :
  (forall x, f x = g x) ->
  filter (fun x => f x = true) l = filter (fun x => g x = true) l.
Proof.
  intros H. induction l as [|x l IH]; [reflexivity|].
  rewrite !filter_cons. rewrite IH.
  destruct (decide (f x = true)) as [Hf|Hf], (decide (g x = true)) as [Hg|Hg];
    try reflexivity; rewrite H in Hf; contradiction.
Qed.

(** The loop: the store evolves, the workouts kept are those their record
    admits, every workout had an answer, and every kept one carries its
    own classification. *)
Lemma fetch_loop_ok (items : list positive) :
  forall (s s' : store) (kept : list positive),
    fetch_loop_ items s = (Ok kept, s') ->
    evolves_ s s'
    /\ kept = filter (fun l => admitted_ s l = true) items
    /\ Forall (fun l =>
                 exists fields answer,
                   s !! l = Some (ODict fields)
                   /\ admits_ fields = Ok answer) items
    /\ Forall (fun l =>
                 exists after,
                   s' !! l = Some (ODict after) /\ classified_ after) kept.
Proof.
  induction items as [|l rest IH]; intros s s' kept H.
  - cbn [fetch_loop] in H. unfold st_ret in H. inversion H; subst.
    split; [apply evolves_refl|]. split; [reflexivity|].
    split; constructor.
  - cbn [fetch_loop] in H. unfold st_bind at 1 in H.
    destruct (fetch_turn_ l s) as [[answer|e] s1] eqn:Hturn;
      [|discriminate H].
    unfold st_bind at 1 in H.
    destruct (fetch_loop_ rest s1) as [[filtered|e] s2] eqn:Hrest;
      [|discriminate H].
    unfold st_ret in H. inversion H; subst s2 kept. clear H.
    destruct (fetch_turn_ok s s1 l answer Hturn)
      as (Hev1 & fields & Hl & Hadm & Hkept).
    destruct (IH s1 s' filtered Hrest) as (Hev2 & Hfilt & Hall & Hcls).
    assert (Hsame : filter (fun x => admitted_ s1 x = true) rest
                    = filter (fun x => admitted_ s x = true) rest).
    { apply filter_ext_bool. intros x. apply evolves_admitted, Hev1. }
    assert (Hhead : admitted_ s l = answer).
    { unfold admitted. rewrite Hl, Hadm. destruct answer; reflexivity. }
    split; [eapply evolves_trans; eassumption|]. split; [|split].
    + rewrite filter_cons, Hhead, Hfilt, Hsame.
      destruct answer.
      * destruct (decide (true = true)); [reflexivity|contradiction].
      * destruct (decide (false = true)); [discriminate|reflexivity].
    + constructor; [exists fields, answer; split; assumption|].
      eapply Forall_impl; [exact Hall|]. intros x (f1 & a & Hx & Ha).
      pose proof (Hev1 x) as Hx0.
      destruct (s !! x) as [[f0|items0]|] eqn:Ex.
      * destruct Hx0 as (f1' & Hx1 & Hs). rewrite Hx in Hx1.
        inversion Hx1; subst f1'. exists f0, a. split; [reflexivity|].
        rewrite <- (settled_admits _ _ Hs). exact Ha.
      * rewrite Hx in Hx0. discriminate Hx0.
      * rewrite Hx in Hx0. discriminate Hx0.
    + destruct answer; [|exact Hcls]. constructor; [|exact Hcls].
      destruct (Hkept eq_refl) as (after & Ha & Hc).
      eapply evolves_classified; eassumption.
Qed.

Abbreviation fetch_filter_ :=
  (fetch_filter repr json_loads sport_filter type_filter min_tss max_tss
     classify_method rules).

Lemma records_at_record_at (s : store) (items : list positive) :
  Forall (fun l => exists fields, s !! l = Some (ODict fields)) items ->
  records_at s items (map (record_at s) items).
Proof.
  unfold records_at. induction 1 as [|l items (fields & Hl) _ IH];
    cbn [map]; constructor; [|exact IH].
  unfold record_at. rewrite Hl. reflexivity.
Qed.

(** What a workout that its record admits has passed. *)
Lemma admits_true (workout : list (string * value))
    (c : WorkoutClassification) :
  admits_ workout = Ok true ->
  classify workout = Ok c ->
  Py.lookup workout "classification" = Some (classification_dict c) ->
  (sport_filter <> "all" ->
   sport_of (Py.dget workout "workoutTypeValueId" VNone)
   = Ok (Some sport_filter))
  /\ (forall wanted,
        type_filter = Some wanted -> wanted <> "" -> wc_type c = wanted)
  /\ (forall bound,
        min_tss = Some bound ->
        exists x,
          is_none (tss_of workout) = false
          /\ Py.float_ (tss_of workout) = Ok x /\ (bound <= x)%Q)
  /\ (forall bound,
        max_tss = Some bound ->
        exists x,
          is_none (tss_of workout) = false
          /\ Py.float_ (tss_of workout) = Ok x /\ (x <= bound)%Q).
Proof.
  intros Hadm Hc Hl. unfold admits in Hadm. simpl in Hc. rewrite Hc in Hadm.
  destruct (sport_of (Py.dget workout "workoutTypeValueId" VNone))
    as [sport_key|e] eqn:Es; [|discriminate Hadm].
  cbn [bind] in Hadm.
  destruct (wrong_sport sport_filter sport_key) eqn:Ew; [discriminate Hadm|].
  cbn [bind] in Hadm. unfold passes in Hadm.
  destruct (wrong_type type_filter (wc_type c)) eqn:Et; [discriminate Hadm|].
  assert (Htss : tss_of (attached workout c) = tss_of workout).
  { unfold tss_of, attached. rewrite !dget_dict_set_other by discriminate.
    reflexivity. }
  rewrite Htss in Hadm.
  destruct (tss_below min_tss (tss_of workout)) as [below|e] eqn:Eb;
    [|discriminate Hadm].
  cbn [bind] in Hadm. destruct below; [discriminate Hadm|].
  destruct (tss_above max_tss (tss_of workout)) as [above|e] eqn:Ea;
    [|discriminate Hadm].
  cbn [bind] in Hadm. destruct above; [discriminate Hadm|].
  split; [|split; [|split]].
  - intros Hne. unfold wrong_sport in Ew.
    apply String.eqb_neq in Hne. rewrite Hne in Ew. cbn [negb andb] in Ew.
    apply negb_false_iff in Ew.
    destruct sport_key as [name|]; [|discriminate Ew].
    cbn [opt_str Py.eq_str] in Ew. apply String.eqb_eq in Ew. subst name.
    reflexivity.
  - intros wanted Hw Hne. unfold wrong_type in Et. rewrite Hw in Et.
    apply String.eqb_neq in Hne. rewrite Hne in Et. cbn [negb andb] in Et.
    apply negb_false_iff, String.eqb_eq in Et. exact Et.
  - intros bound Hb. unfold tss_below in Eb. rewrite Hb in Eb.
    destruct (is_none (tss_of workout)); [discriminate Eb|].
    destruct (Py.float_ (tss_of workout)) as [x|e]; [|discriminate Eb].
    cbn [bind] in Eb. exists x. split; [reflexivity|]. split; [reflexivity|].
    inversion Eb as [Hlt]. apply Qlt_bool_false in Hlt.
    apply Qnot_lt_le, Hlt.
  - intros bound Hb. unfold tss_above in Ea. rewrite Hb in Ea.
    destruct (is_none (tss_of workout)); [discriminate Ea|].
    destruct (Py.float_ (tss_of workout)) as [x|e]; [|discriminate Ea].
    cbn [bind] in Ea. exists x. split; [reflexivity|]. split; [reflexivity|].
    inversion Ea as [Hlt]. apply Qlt_bool_false in Hlt.
    apply Qnot_lt_le, Hlt.
Qed.

Lemma admits_no_filter (workout : list (string * value)) (answer : bool) :
  sport_filter = "all" -> type_filter = None -> min_tss = None ->
  max_tss = None ->
  admits_ workout = Ok answer -> answer = true.
Proof.
  intros Hs Ht Hlo Hhi. unfold admits, wrong_sport, passes, wrong_type,
    tss_below, tss_above.
  rewrite Hs, Ht, Hlo, Hhi. cbn [String.eqb Ascii.eqb Bool.eqb negb andb].
  destruct (sport_of (Py.dget workout "workoutTypeValueId" VNone));
    [|discriminate].
  cbn [bind].
  destruct (classify_with_metadata repr json_loads workout classify_method
              rules); [|discriminate].
  cbn [bind negb]. intros H. inversion H. reflexivity.
Qed.

End FetchFacts.

(** X25.  When the filter half of [fetch_workouts_in_chunks] returns, the
    store has changed by attached classifications only: no object is added
    or removed, every record keeps every field other than
    [classification].  The list returned holds exactly the given workouts
    that their record admits, each as often as it was given, in descending
    order of [str(workoutDay)], workouts of a same day in the order given.
    Every returned workout carries the classification that
    [classify_with_metadata] gives for it, is of the requested sport when
    one is requested, of the requested type when a non-empty one is
    requested, and has a TSS ([tssActual], or [tssPlanned] when that is
    missing or 0) within the bounds given.  With no filter every workout is
    returned. *)
Theorem fetch_filter_returns
    (repr : value -> string) (json_loads : string -> option value)
    (sport_filter : string) (type_filter : option string)
    (min_tss max_tss : option Q) (classify_method : string)
    (rules : list (string * list string))
    (all_workouts returned : list positive) (s s' : store) :
  fetch_filter repr json_loads sport_filter type_filter min_tss max_tss
    classify_method rules all_workouts s = (Ok returned, s') ->
  let admitted_now l :=
    admitted repr json_loads sport_filter type_filter min_tss max_tss
      classify_method rules s' l = true in
  let day l := day_key repr (record_at s' l) in
  (forall l,
      match s !! l with
      | Some (ODict before) =>
          exists after,
            s' !! l = Some (ODict after)
            /\ forall key, key <> "classification" ->
                 Py.lookup after key = Py.lookup before key
      | o => s' !! l = o
      end)
  /\ returned = rev (sort_by day (rev (filter admitted_now all_workouts)))
  /\ returned ≡ₚ filter admitted_now all_workouts
  /\ Sorted (fun a b => String.leb (day b) (day a) = true) returned
  /\ (forall l,
        l ∈ returned ->
        exists fields c,
          s' !! l = Some (ODict fields)
          /\ classify_with_metadata repr json_loads fields classify_method
               rules = Ok c
          /\ Py.lookup fields "classification" = Some (classification_dict c)
          /\ (sport_filter <> "all" ->
              sport_of (Py.dget fields "workoutTypeValueId" VNone)
              = Ok (Some sport_filter))
          /\ (forall wanted,
                type_filter = Some wanted -> wanted <> "" ->
                wc_type c = wanted)
          /\ (forall bound,
                min_tss = Some bound ->
                exists x,
                  is_none (tss_of fields) = false
                  /\ Py.float_ (tss_of fields) = Ok x /\ (bound <= x)%Q)
          /\ (forall bound,
                max_tss = Some bound ->
                exists x,
                  is_none (tss_of fields) = false
                  /\ Py.float_ (tss_of fields) = Ok x /\ (x <= bound)%Q))
  /\ (sport_filter = "all" -> type_filter = None -> min_tss = None ->
      max_tss = None -> returned ≡ₚ all_workouts).
Proof.
  intros H admitted_now day. unfold fetch_filter in H.
  unfold st_bind at 1 in H.
  destruct (fetch_loop repr json_loads sport_filter type_filter min_tss
              max_tss classify_method rules all_workouts s)
    as [[kept|e] s1] eqn:Hloop; [|discriminate H].
  destruct (fetch_loop_ok repr json_loads sport_filter type_filter min_tss
              max_tss classify_method rules all_workouts s s1 kept Hloop)
    as (Hev & Hkept & Hall & Hcls).
  assert (Hdicts : Forall (fun l => exists fields, s1 !! l = Some (ODict fields))
                     kept).
  { eapply Forall_impl; [exact Hcls|]. intros l (after & Ha & _).
    exists after. exact Ha. }
  unfold st_bind at 1 in H.
  rewrite (read_records_at s1 kept _ (records_at_record_at s1 kept Hdicts))
    in H.
  unfold st_ret in H. inversion H as [[Hret Hs]]. subst s1. clear H.
  rewrite zip_map_r, <- map_rev, sort_by_map, <- map_rev, map_map.
  cbn [fst snd]. rewrite map_id.
  assert (Hfilter : kept = filter admitted_now all_workouts).
  { rewrite Hkept. apply filter_ext_bool. intros x. symmetry.
    eapply evolves_admitted, Hev. }
  fold day. rewrite <- Hfilter.
  assert (Hperm : rev (sort_by day (rev kept)) ≡ₚ kept).
  { rewrite <- Permutation_rev, sort_by_Permutation, <- Permutation_rev.
    reflexivity. }
  split; [|split; [|split; [|split; [|split]]]].
  - intros l. pose proof (Hev l) as Hl.
    destruct (s !! l) as [[before|items]|]; try exact Hl.
    destruct Hl as (after & Ha & Hs). exists after. split; [exact Ha|].
    intros key Hkey. eapply settled_lookup; eassumption.
  - reflexivity.
  - exact Hperm.
  - apply (Sorted_rev _ _ (sort_by_Sorted day (rev kept))).
  - intros l Hin. rewrite Hperm in Hin.
    assert (Hadm : admitted_now l).
    { rewrite Hfilter in Hin. apply list_elem_of_filter in Hin as [Hin _].
      exact Hin. }
    rewrite Forall_forall in Hcls.
    destruct (Hcls l Hin) as (fields & Hl & c & Hc & Hlook).
    exists fields, c. split; [exact Hl|]. split; [exact Hc|].
    split; [exact Hlook|].
    apply (admits_true repr json_loads sport_filter type_filter min_tss
             max_tss classify_method rules fields c); try assumption.
    unfold admitted_now, admitted in Hadm. rewrite Hl in Hadm.
    destruct (admits repr json_loads sport_filter type_filter min_tss max_tss
                classify_method rules fields) as [[|]|]; try discriminate Hadm.
    reflexivity.
  - intros Hs Ht Hlo Hhi. rewrite Hperm, Hkept.
    assert (Hevery : Forall (fun l =>
                       admitted repr json_loads sport_filter type_filter
                         min_tss max_tss classify_method rules s l = true)
                       all_workouts).
    { eapply Forall_impl; [exact Hall|]. intros l (fields & answer & Hl & Ha).
      unfold admitted. rewrite Hl, Ha.
      rewrite (admits_no_filter repr json_loads sport_filter type_filter
                 min_tss max_tss classify_method rules fields answer
                 Hs Ht Hlo Hhi Ha).
      reflexivity. }
    clear -Hevery. induction Hevery as [|l rest Hl _ IH]; [reflexivity|].
    rewrite filter_cons. destruct (decide _) as [_|Hn]; [|contradiction].
    rewrite IH. reflexivity.
Qed.

Lemma fetch_filter_returns_witness :
  let run :=
    fetch_filter (fun _ => "") (fun _ => None) "run" None (Some (inject_Z 40))
      None "auto" TYPE_RULES [1; 2; 3; 4]%positive fetched_store in
  run.1 = Ok [2; 1]%positive
  /\ [2; 1]%positive
     ≡ₚ filter (fun l =>
                  admitted (fun _ => "") (fun _ => None) "run" None
                    (Some (inject_Z 40)) None "auto" TYPE_RULES run.2 l = true)
          [1; 2; 3; 4]%positive.
Proof.
  intros run.
  assert (H1 : run.1 = Ok [2; 1]%positive) by (vm_compute; reflexivity).
  split; [exact H1|].
  assert (H : fetch_filter (fun _ => "") (fun _ => None) "run" None
                (Some (inject_Z 40)) None "auto" TYPE_RULES
                [1; 2; 3; 4]%positive fetched_store
              = (Ok [2; 1]%positive, run.2)).
  { rewrite <- H1. subst run. apply surjective_pairing. }
  exact (proj1 (proj2 (proj2
           (fetch_filter_returns _ _ _ _ _ _ _ _ _ _ _ _ H)))).
Defined.

(** ** Slugs *)

Lemma sub_runs_shape (text : string) :
  forall in_run, slug_shape in_run (sub_runs in_run text) = true.
Proof.
  induction text as [|c rest IH]; intros in_run; [reflexivity|].
  cbn [sub_runs]. destruct (is_slug_char c) eqn:Ec.
  - cbn [slug_shape]. rewrite Ec. apply IH.
  - destruct in_run; [apply IH|].
    cbn [slug_shape]. change (is_slug_char "-") with false.
    rewrite Ascii.eqb_refl. cbn [negb andb]. apply IH.
Qed.

Lemma slug_shape_weaken (s : string) :
  slug_shape true s = true -> slug_shape false s = true.
Proof.
  destruct s as [|c r]; [reflexivity|]. cbn [slug_shape].
  destruct (is_slug_char c); [auto|].
  rewrite andb_false_r. discriminate.
Qed.

Lemma lstrip_hyphens_shape (s : string) :
  forall h, slug_shape h s = true -> slug_shape true (lstrip_hyphens s) = true.
Proof.
  induction s as [|c r IH]; intros h H; [reflexivity|].
  cbn [lstrip_hyphens]. cbn [slug_shape] in H.
  destruct (Ascii.eqb c "-") eqn:Ec.
  - apply Ascii.eqb_eq in Ec. subst c.
    change (is_slug_char "-") with false in H. cbn [andb] in H.
    apply andb_true_iff in H as [_ H]. eapply IH, H.
  - cbn [slug_shape]. destruct (is_slug_char c); [exact H|discriminate H].
Qed.

Lemma rstrip_hyphens_shape (s : string) :
  forall h, slug_shape h s = true -> slug_shape h (rstrip_hyphens s) = true.
Proof.
  induction s as [|c r IH]; intros h H; [reflexivity|].
  cbn [rstrip_hyphens]. cbn [slug_shape] in H.
  destruct (is_slug_char c) eqn:Es.
  - specialize (IH false H).
    destruct (rstrip_hyphens r) as [|c' r'] eqn:Er.
    + destruct (Ascii.eqb c "-"); [reflexivity|].
      cbn [slug_shape]. rewrite Es. reflexivity.
    + cbn [slug_shape]. rewrite Es. exact IH.
  - apply andb_true_iff in H as [H1 H2]. specialize (IH true H2).
    pose proof (proj1 (andb_true_iff _ _) H1) as [Hc _]. rewrite Hc.
    destruct (rstrip_hyphens r) as [|c' r'] eqn:Er; [reflexivity|].
    change (slug_shape h (String c (String c' r')) = true).
    cbn [slug_shape]. rewrite Es. cbn [slug_shape] in IH.
    rewrite H1. exact IH.
Qed.

Lemma rstrip_hyphens_last (s : string) :
  last_char (rstrip_hyphens s) <> Some "-"%char.
Proof.
  induction s as [|c r IH]; [discriminate|]. cbn [rstrip_hyphens].
  destruct (rstrip_hyphens r) as [|c' r'] eqn:Er.
  - destruct (Ascii.eqb c "-") eqn:Ec; [discriminate|].
    cbn [last_char]. intros H. inversion H; subst c. discriminate Ec.
  - exact IH.
Qed.

Lemma take_shape (k : nat) :
  forall s h, slug_shape h s = true ->
    slug_shape h (String.substring 0 k s) = true.
Proof.
  induction k as [|k IH]; intros s h H.
  - destruct s; reflexivity.
  - destruct s as [|c r]; [reflexivity|].
    cbn [String.substring]. cbn [slug_shape] in H |- *.
    destruct (is_slug_char c); [apply IH, H|].
    apply andb_true_iff in H as [H1 H2]. rewrite H1. apply IH, H2.
Qed.

Lemma length_take (k : nat) :
  forall s, String.length (String.substring 0 k s)
            = Nat.min k (String.length s).
Proof.
  induction k as [|k IH]; intros s.
  - destruct s; reflexivity.
  - destruct s as [|c r]; [reflexivity|].
    cbn [String.substring String.length]. rewrite IH. reflexivity.
Qed.

Lemma take_all (k : nat) :
  forall s, (String.length s <= k)%nat -> String.substring 0 k s = s.
Proof.
  induction k as [|k IH]; intros s H.
  - destruct s; [reflexivity|simpl in H; lia].
  - destruct s as [|c r]; [reflexivity|].
    cbn [String.substring]. rewrite IH; [reflexivity|]. simpl in H. lia.
Qed.

Lemma take_last (k : nat) :
  forall s, (String.length s < k)%nat ->
    last_char (String.substring 0 k s) = last_char s.
Proof.
  intros s H. rewrite take_all by lia. reflexivity.
Qed.

Lemma slug_char_lower (c : ascii) :
  is_slug_char c = true -> Str.lower_char c = c.
Proof.
  destruct c as [[] [] [] [] [] [] [] []]; intros H;
    first [reflexivity | vm_compute in H; discriminate H].
Qed.

Lemma slug_shape_lower (s : string) :
  forall h, slug_shape h s = true -> Str.lower s = s.
Proof.
  induction s as [|c r IH]; intros h H; [reflexivity|].
  cbn [slug_shape] in H. cbn [Str.lower].
  destruct (is_slug_char c) eqn:Es.
  - rewrite (slug_char_lower c Es), (IH false H). reflexivity.
  - apply andb_true_iff in H as [H1 H2]. apply andb_true_iff in H1 as [H1 _].
    apply Ascii.eqb_eq in H1. subst c. rewrite (IH true H2). reflexivity.
Qed.

Lemma slug_shape_sub_runs (s : string) :
  forall h, slug_shape h s = true -> sub_runs h s = s.
Proof.
  induction s as [|c r IH]; intros h H; [reflexivity|].
  cbn [slug_shape] in H. cbn [sub_runs].
  destruct (is_slug_char c) eqn:Es.
  - rewrite (IH false H). reflexivity.
  - apply andb_true_iff in H as [H1 H2]. apply andb_true_iff in H1 as [H1 H3].
    apply Ascii.eqb_eq in H1. subst c. apply negb_true_iff in H3. subst h.
    rewrite (IH true H2). reflexivity.
Qed.

Lemma slug_shape_lstrip (s : string) :
  slug_shape true s = true -> lstrip_hyphens s = s.
Proof.
  destruct s as [|c r]; [reflexivity|]. cbn [slug_shape lstrip_hyphens].
  destruct (Ascii.eqb c "-") eqn:Ec; [|reflexivity].
  apply Ascii.eqb_eq in Ec. subst c. change (is_slug_char "-") with false.
  cbn [negb andb]. discriminate.
Qed.

Lemma rstrip_hyphens_fixed (s : string) :
  last_char s <> Some "-"%char -> rstrip_hyphens s = s.
Proof.
  induction s as [|c r IH]; intros H; [reflexivity|].
  cbn [rstrip_hyphens]. destruct r as [|c' r'].
  - cbn [rstrip_hyphens]. destruct (Ascii.eqb c "-") eqn:Ec; [|reflexivity].
    apply Ascii.eqb_eq in Ec. subst c. exfalso. apply H. reflexivity.
  - rewrite IH by exact H. reflexivity.
Qed.

Lemma slug_shape_chars (s : string) :
  forall h c, slug_shape h s = true -> In c (String.list_ascii_of_string s) ->
    is_slug_char c = true \/ c = "-"%char.
Proof.
  induction s as [|x r IH]; intros h c H Hin; [destruct Hin|].
  cbn [slug_shape] in H. cbn [String.list_ascii_of_string] in Hin.
  destruct (is_slug_char x) eqn:Es.
  - destruct Hin as [<-|Hin]; [left; exact Es|]. eapply IH; eassumption.
  - apply andb_true_iff in H as [H1 H2]. apply andb_true_iff in H1 as [H1 _].
    apply Ascii.eqb_eq in H1. subst x.
    destruct Hin as [<-|Hin]; [right; reflexivity|]. eapply IH; eassumption.
Qed.

Lemma slug_shape_no_double (s : string) :
  forall h, slug_shape h s = true -> Str.contains "--" s = false.
Proof.
  induction s as [|x r IH]; intros h H; [reflexivity|].
  cbn [slug_shape] in H. cbn [Str.contains].
  destruct (is_slug_char x) eqn:Es.
  - rewrite (IH false H), orb_false_r. cbn [Str.startswith].
    destruct (Ascii.eqb_spec "-" x) as [<-|_]; [discriminate Es|reflexivity].
  - apply andb_true_iff in H as [H1 H2].
    rewrite (IH true H2), orb_false_r.
    cbn [Str.startswith]. destruct r as [|y r'];
      [rewrite andb_false_r; reflexivity|].
    cbn [slug_shape] in H2.
    destruct (Ascii.eqb_spec "-" y) as [<-|_];
      [|rewrite andb_false_r; reflexivity].
    change (is_slug_char "-") with false in H2. cbn [negb andb] in H2.
    rewrite andb_false_r in H2. discriminate H2.
Qed.

Lemma slug_shape_no_lead (s : string) :
  slug_shape true s = true -> Str.startswith "-" s = false.
Proof.
  destruct s as [|c r]; [reflexivity|]. cbn [slug_shape Str.startswith].
  destruct (Ascii.eqb_spec "-" c) as [<-|_]; [|reflexivity].
  change (is_slug_char "-") with false. cbn [negb andb]. discriminate.
Qed.

(** The slug before it is cut. *)
Lemma slug_before_cut (value : string) :
  exists slug,
    (forall max_len, slugify value max_len = up_to max_len slug)
    /\ slug <> ""
    /\ slug_shape true slug = true
    /\ last_char slug <> Some "-"%char.
Proof.
  unfold slugify.
  set (raw := strip_hyphens (sub_runs false (Str.lower value))).
  assert (Hshape : slug_shape true raw = true).
  { unfold raw, strip_hyphens. apply rstrip_hyphens_shape.
    eapply lstrip_hyphens_shape, sub_runs_shape. }
  assert (Hlast : last_char raw <> Some "-"%char)
    by apply rstrip_hyphens_last.
  destruct (String.eqb_spec raw "") as [_|Hne].
  - exists "untitled". repeat split; discriminate.
  - exists raw. repeat split; assumption.
Qed.

(** X26.  For a [max_len] of at least 1, [slugify] returns a name of 1 to
    [max_len] characters, all of them lower-case letters, digits or
    hyphens, that does not start with a hyphen and holds no two hyphens in
    a row.  A result shorter than [max_len] does not end with a hyphen
    either and is its own slug; this is not stated of a result of
    [max_len] characters, the cut coming after the hyphens are stripped. *)
Theorem slugify_safe (value : string) (max_len : Z) :
  (1 <= max_len)%Z ->
  let slug := slugify value max_len in
  (1 <= Z.of_nat (String.length slug) <= max_len)%Z
  /\ (forall c, In c (String.list_ascii_of_string slug) ->
                is_slug_char c = true \/ c = "-"%char)
  /\ Str.startswith "-" slug = false
  /\ Str.contains "--" slug = false
  /\ ((Z.of_nat (String.length slug) < max_len)%Z ->
      last_char slug <> Some "-"%char /\ slugify slug max_len = slug).
Proof.
  intros Hmax slug. subst slug.
  destruct (slug_before_cut value) as (full & Hcut & Hne & Hshape & Hlast).
  rewrite Hcut. unfold up_to.
  replace (0 <=? max_len)%Z with true by (symmetry; apply Z.leb_le; lia).
  unfold Str.take.
  set (k := Z.to_nat max_len).
  assert (Hk : (1 <= k)%nat) by (unfold k; lia).
  assert (Hcutshape : slug_shape true (String.substring 0 k full) = true)
    by (apply take_shape, Hshape).
  split; [|split; [|split; [|split]]].
  - rewrite length_take. destruct full as [|c r]; [congruence|].
    cbn [String.length]. unfold k. lia.
  - intros c Hin. eapply slug_shape_chars; eassumption.
  - apply slug_shape_no_lead, Hcutshape.
  - eapply slug_shape_no_double, Hcutshape.
  - rewrite length_take. intros Hshort.
    assert (Hall : (String.length full <= k)%nat) by (unfold k in *; lia).
    rewrite (take_all k full Hall). split; [exact Hlast|].
    unfold slugify.
    rewrite (slug_shape_lower full true Hshape).
    rewrite (slug_shape_sub_runs full false (slug_shape_weaken full Hshape)).
    unfold strip_hyphens.
    rewrite (slug_shape_lstrip full Hshape), (rstrip_hyphens_fixed full Hlast).
    destruct (String.eqb_spec full "") as [E|_]; [contradiction|].
    unfold up_to.
    replace (0 <=? max_len)%Z with true by (symmetry; apply Z.leb_le; lia).
    apply take_all, Hall.
Qed.

Lemma slugify_safe_witness :
  slugify "Long Run: 5x1km @ LT2!" 50 = "long-run-5x1km-lt2"
  /\ Str.contains "--" (slugify "Long Run: 5x1km @ LT2!" 50) = false.
Proof.
  split; [vm_compute; reflexivity|].
  apply (slugify_safe "Long Run: 5x1km @ LT2!" 50). lia.
Defined.

(** ** Merging a configuration into the defaults *)

Lemma value_dict_ind (P : value -> Prop) :
  P VNone -> (forall b, P (VBool b)) -> (forall q, P (VNum q)) ->
  (forall s, P (VStr s)) -> (forall l, P (VList l)) ->
  (forall d, Forall (fun item => P (snd item)) d -> P (VDict d)) ->
  forall v, P v.
Proof.
  intros Hnone Hbool Hnum Hstr Hlist Hdict. fix IH 1. intros v.
  destruct v as [|b|q|s|l|d]; [exact Hnone|apply Hbool|apply Hnum|apply Hstr
                               |apply Hlist|].
  apply Hdict. induction d as [|[k x] d IHd]; constructor;
    [apply IH|exact IHd].
Qed.

Lemma _deep_merge_nil (base : list (string * value)) :
  _deep_merge base [] = base.
Proof. reflexivity. Qed.

Lemma _deep_merge_cons (base : list (string * value)) (item : string * value)
    (rest : list (string * value)) :
  _deep_merge base (item :: rest) = _deep_merge (merge_item base item) rest.
Proof.
  destruct item as [key v]. unfold _deep_merge at 1. cbn [merge_into].
  unfold merge_item. cbn [fst snd].
  destruct v; reflexivity.
Qed.

Lemma merge_item_lookup_same (merged : list (string * value))
    (key : string) (v : value) :
  Py.lookup (merge_item merged (key, v)) key
  = Some (merged_value (Py.lookup merged key) v).
Proof.
  unfold merge_item, merged_value. cbn [fst snd].
  destruct v; try apply lookup_dict_set_same.
  destruct (Py.lookup merged key) as [[| | | | |below]|];
    apply lookup_dict_set_same.
Qed.

Lemma merge_item_lookup_other (merged : list (string * value))
    (key other : string) (v : value) :
  other <> key ->
  Py.lookup (merge_item merged (key, v)) other = Py.lookup merged other.
Proof.
  intros Hne. unfold merge_item. cbn [fst snd].
  destruct v; try (apply lookup_dict_set_other, Hne).
  destruct (Py.lookup merged key) as [[| | | | |below]|];
    apply lookup_dict_set_other, Hne.
Qed.

Lemma lookup_not_in (d : list (string * value)) (key : string) :
  key ∉ map fst d -> Py.lookup d key = None.
Proof.
  induction d as [|[k x] d IH]; intros Hnot; [reflexivity|].
  cbn [Py.lookup]. destruct (String.eqb_spec k key) as [->|Hne].
  - exfalso. apply Hnot. constructor.
  - apply IH. intros Hin. apply Hnot. constructor. exact Hin.
Qed.

Lemma lookup_in_NoDup (d : list (string * value)) (key : string) (v : value) :
  NoDup (map fst d) -> (key, v) ∈ d -> Py.lookup d key = Some v.
Proof.
  induction d as [|[k x] d IH]; intros Hnd Hin;
    [apply elem_of_nil in Hin; destruct Hin|].
  cbn [map fst] in Hnd. apply NoDup_cons in Hnd as [Hk Hnd].
  cbn [Py.lookup]. apply elem_of_cons in Hin as [Heq|Hin].
  - inversion Heq; subst. rewrite String.eqb_refl. reflexivity.
  - destruct (String.eqb_spec k key) as [->|Hne]; [|apply IH; assumption].
    exfalso. apply Hk. apply list_elem_of_fmap. exists (key, v).
    split; [reflexivity|exact Hin].
Qed.

(** What is under each key after the merge. *)
Lemma _deep_merge_lookup (override : list (string * value)) :
  NoDup (map fst override) ->
  forall base key,
    Py.lookup (_deep_merge base override) key
    = match Py.lookup override key with
      | None => Py.lookup base key
      | Some v => Some (merged_value (Py.lookup base key) v)
      end.
Proof.
  induction override as [|[k v] rest IH]; intros Hnd base key;
    [reflexivity|].
  cbn [map fst] in Hnd. apply NoDup_cons in Hnd as [Hk Hnd].
  rewrite _deep_merge_cons, (IH Hnd). cbn [Py.lookup].
  destruct (String.eqb_spec k key) as [->|Hne].
  - rewrite (lookup_not_in rest key Hk). apply merge_item_lookup_same.
  - rewrite merge_item_lookup_other by congruence. reflexivity.
Qed.

Lemma dict_set_present (d : list (string * value)) (key : string) (v : value) :
  Py.lookup d key = Some v -> dict_set d key v = d.
Proof.
  induction d as [|[k x] d IH]; intros H; [discriminate H|].
  cbn [Py.lookup] in H. cbn [dict_set].
  destruct (String.eqb k key); [inversion H; reflexivity|].
  rewrite IH by exact H. reflexivity.
Qed.

(** A pass whose every turn leaves the dict as it is. *)
Lemma _deep_merge_stable (override : list (string * value)) :
  forall merged,
    Forall (fun item => merge_item merged item = merged) override ->
    _deep_merge merged override = merged.
Proof.
  induction override as [|item rest IH]; intros merged H; [reflexivity|].
  apply Forall_cons in H as [Hitem Hrest].
  rewrite _deep_merge_cons, Hitem. apply IH, Hrest.
Qed.

Lemma well_keyed_dict (d : list (string * value)) :
  well_keyed (VDict d)
  <-> NoDup (map fst d) /\ Forall (fun item => well_keyed (snd item)) d.
Proof.
  cbn [well_keyed]. split; intros [Hnd Hall]; (split; [exact Hnd|]).
  - induction d as [|[k x] d IH]; constructor.
    + apply Hall.
    + cbn [map fst] in Hnd. apply NoDup_cons in Hnd as [_ Hnd].
      apply IH; [exact Hnd|apply Hall].
  - induction Hall as [|[k x] d Hx Hall IH]; [exact I|].
    split; [exact Hx|]. cbn [map fst] in Hnd.
    apply NoDup_cons in Hnd as [_ Hnd]. apply IH, Hnd.
Qed.

(** Merging a dict into itself. *)
Lemma _deep_merge_self (v : value) :
  match v with
  | VDict d => well_keyed v -> _deep_merge d d = d
  | _ => True
  end.
Proof.
  induction v as [|b|q|s|l|d IH] using value_dict_ind; try exact I.
  intros Hwk. apply well_keyed_dict in Hwk as [Hnd Hall].
  apply _deep_merge_stable. rewrite Forall_forall. intros [k x] Hin.
  pose proof (lookup_in_NoDup d k x Hnd Hin) as Hl.
  rewrite Forall_forall in IH, Hall. specialize (IH _ Hin).
  specialize (Hall _ Hin). cbn [snd] in IH, Hall.
  unfold merge_item. cbn [fst snd]. rewrite Hl.
  destruct x; try (apply dict_set_present, Hl).
  rewrite (IH Hall). apply dict_set_present, Hl.
Qed.

(** Merging the same dict a second time. *)
Lemma _deep_merge_again (v : value) :
  match v with
  | VDict d =>
      well_keyed v ->
      forall base, _deep_merge (_deep_merge base d) d = _deep_merge base d
  | _ => True
  end.
Proof.
  induction v as [|b|q|s|l|d IH] using value_dict_ind; try exact I.
  intros Hwk base. apply well_keyed_dict in Hwk as [Hnd Hall].
  apply _deep_merge_stable. rewrite Forall_forall. intros [k x] Hin.
  pose proof (lookup_in_NoDup d k x Hnd Hin) as Hl.
  pose proof (_deep_merge_lookup d Hnd base k) as Hm. rewrite Hl in Hm.
  rewrite Forall_forall in IH, Hall. specialize (IH _ Hin).
  specialize (Hall _ Hin). cbn [snd] in IH, Hall.
  unfold merge_item. cbn [fst snd]. rewrite Hm.
  unfold merged_value in *.
  destruct x as [| | | | |over]; try (apply dict_set_present, Hm).
  destruct (Py.lookup base k) as [[| | | | |below]|].
  6: { rewrite (IH Hall below). apply dict_set_present, Hm. }
  all: pose proof (_deep_merge_self (VDict over) Hall) as Hself;
    rewrite Hself; apply dict_set_present, Hm.
Qed.

(** X27.  [_deep_merge] of a well-formed [override] into [base]: under a
    key that [override] does not bind, the merge holds what [base] holds;
    under a key that it binds to a dict where [base] holds a dict too, it
    holds the merge of the two; under any other key that it binds, it holds
    the value of [override], so that a scalar replaces a whole table and a
    table replaces a scalar.  No key of [base] is lost.  Merging the same
    [override] a second time changes nothing, and neither does merging a
    dict into itself. *)
Theorem _deep_merge_by_key (base override : list (string * value)) :
  well_keyed (VDict override) ->
  (forall key,
      Py.lookup (_deep_merge base override) key
      = match Py.lookup override key with
        | None => Py.lookup base key
        | Some (VDict over) =>
            match Py.lookup base key with
            | Some (VDict below) => Some (VDict (_deep_merge below over))
            | _ => Some (VDict over)
            end
        | Some v => Some v
        end)
  /\ (forall key,
        Py.has_key base key = true ->
        Py.has_key (_deep_merge base override) key = true)
  /\ _deep_merge (_deep_merge base override) override
     = _deep_merge base override
  /\ _deep_merge override override = override.
Proof.
  intros Hwk. pose proof (proj1 (well_keyed_dict override) Hwk) as [Hnd _].
  assert (Hkey : forall key,
             Py.lookup (_deep_merge base override) key
             = match Py.lookup override key with
               | None => Py.lookup base key
               | Some (VDict over) =>
                   match Py.lookup base key with
                   | Some (VDict below) => Some (VDict (_deep_merge below over))
                   | _ => Some (VDict over)
                   end
               | Some v => Some v
               end).
  { intros key. rewrite (_deep_merge_lookup override Hnd base key).
    unfold merged_value.
    destruct (Py.lookup override key) as [[| | | | |over]|]; try reflexivity.
    destruct (Py.lookup base key) as [[| | | | |below]|]; reflexivity. }
  split; [exact Hkey|]. split; [|split].
  - intros key. unfold Py.has_key. rewrite Hkey.
    destruct (Py.lookup base key) as [below|]; [|discriminate].
    intros _.
    destruct (Py.lookup override key) as [[| | | | |over]|]; try reflexivity.
    destruct below; reflexivity.
  - apply (_deep_merge_again (VDict override) Hwk).
  - apply (_deep_merge_self (VDict override) Hwk).
Qed.

Lemma _deep_merge_by_key_witness :
  Py.lookup (_deep_merge sample_defaults sample_user_config) "zones"
  = Some (VDict [("easy_max", VInt 75); ("lt1_max", VInt 90);
                 ("lt2_max", VInt 100)])
  /\ _deep_merge (_deep_merge sample_defaults sample_user_config)
       sample_user_config
     = _deep_merge sample_defaults sample_user_config.
Proof.
  split; [reflexivity|].
  apply (_deep_merge_by_key sample_defaults sample_user_config).
  apply well_keyed_dict. split.
  - repeat (apply NoDup_cons; split;
            [intros H; repeat (apply elem_of_cons in H as [H|H];
                               [discriminate H|]);
             apply elem_of_nil in H; exact H|]).
    apply NoDup_nil. exact I.
  - repeat constructor; simpl; try exact I;
      try (intros H; repeat (apply elem_of_cons in H as [H|H];
                             [discriminate H|]);
           apply elem_of_nil in H; exact H).
Defined.

(** ** Text of a calendar entry *)

Lemma replace_char_app (old : ascii) (new a b : string) :
  replace_char old new (a ++ b)
  = (replace_char old new a ++ replace_char old new b)%string.
Proof.
  induction a as [|c a IH]; [rewrite !append_nil_l; reflexivity|].
  rewrite append_cons. cbn [replace_char]. rewrite IH.
  destruct (Ascii.eqb c old); [rewrite append_assoc|rewrite append_cons];
    reflexivity.
Qed.

Lemma _ics_escape_app (a b : string) :
  _ics_escape (a ++ b) = (_ics_escape a ++ _ics_escape b)%string.
Proof. unfold _ics_escape. rewrite !replace_char_app. reflexivity. Qed.

Lemma _ics_escape_one (c : ascii) :
  _ics_escape (String c EmptyString) = escaped_char c.
Proof.
  destruct c as [[] [] [] [] [] [] [] []]; vm_compute; reflexivity.
Qed.

Lemma _ics_escape_cons (c : ascii) (r : string) :
  _ics_escape (String c r) = (escaped_char c ++ _ics_escape r)%string.
Proof.
  change (String c r) with (String c EmptyString ++ r)%string.
  rewrite _ics_escape_app, _ics_escape_one. reflexivity.
Qed.

(** A character is kept, or becomes a backslash and a character that
    tells which it was. *)
Lemma escaped_char_cases (c : ascii) :
  (escaped_char c = String c EmptyString /\ c <> "\"%char
   /\ c <> ";"%char /\ c <> ","%char /\ c <> newline)
  \/ exists mark,
       escaped_char c = String "\" (String mark EmptyString)
       /\ (mark = "\"%char /\ c = "\"%char
           \/ mark = ";"%char /\ c = ";"%char
           \/ mark = ","%char /\ c = ","%char
           \/ mark = "n"%char /\ c = newline).
Proof.
  unfold escaped_char.
  destruct (Ascii.eqb_spec c "\") as [->|H1];
    [right; eexists; split; [reflexivity|auto]|].
  destruct (Ascii.eqb_spec c ";") as [->|H2];
    [right; eexists; split; [reflexivity|auto]|].
  destruct (Ascii.eqb_spec c ",") as [->|H3];
    [right; eexists; split; [reflexivity|auto]|].
  destruct (Ascii.eqb_spec c newline) as [->|H4];
    [right; eexists; split; [reflexivity|auto 6]|].
  left. auto.
Qed.

Lemma _ics_escape_injective (a : string) :
  forall b, _ics_escape a = _ics_escape b -> a = b.
Proof.
  induction a as [|c a IH]; intros [|d b] H.
  - reflexivity.
  - rewrite _ics_escape_cons in H.
    destruct (escaped_char_cases d) as [(E & _)|(m & E & _)];
      rewrite E in H; discriminate H.
  - rewrite _ics_escape_cons in H.
    destruct (escaped_char_cases c) as [(E & _)|(m & E & _)];
      rewrite E in H; discriminate H.
  - rewrite !_ics_escape_cons in H.
    destruct (escaped_char_cases c) as [(Ec & C1 & C2 & C3 & C4)|(m & Ec & Cm)],
             (escaped_char_cases d) as [(Ed & D1 & D2 & D3 & D4)|(n & Ed & Dn)];
      rewrite Ec, Ed in H; rewrite ?append_cons, ?append_nil_l in H;
      inversion H as [[Hhead Htail]].
    + f_equal. apply IH, Htail.
    + subst c. contradiction.
    + subst d. contradiction.
    + assert (c = d).
      { destruct Cm as [[-> ->]|[[-> ->]|[[-> ->]|[-> ->]]]],
                 Dn as [[-> ->]|[[-> ->]|[[-> ->]|[-> ->]]]];
          try reflexivity; discriminate Hhead. }
      subst d. f_equal. apply IH. exact Htail.
Qed.

Lemma _ics_escape_no_newline (a : string) :
  none_of (fun c => Ascii.eqb c newline) (_ics_escape a) = true.
Proof.
  induction a as [|c a IH]; [reflexivity|].
  rewrite _ics_escape_cons, none_of_app, IH, andb_true_r.
  destruct (escaped_char_cases c) as [(E & _ & _ & _ & Hn)|(m & E & Cm)];
    rewrite E; cbn [none_of].
  - destruct (Ascii.eqb_spec c newline) as [->|_]; [contradiction|reflexivity].
  - destruct Cm as [[-> _]|[[-> _]|[[-> _]|[-> _]]]]; reflexivity.
Qed.

(** X28.  [_ics_escape] works character by character, so the escape of a
    concatenation is the concatenation of the escapes; it loses nothing
    (two values with the same escape are the same value); its result holds
    no line break, holds a backslash, a semicolon or a comma only inside a
    pair made of a backslash and one more character, and is at most twice
    as long as the value. *)
Theorem _ics_escape_faithful :
  (forall a b, _ics_escape (a ++ b) = (_ics_escape a ++ _ics_escape b)%string)
  /\ (forall a b, _ics_escape a = _ics_escape b -> a = b)
  /\ (forall a, none_of (fun c => Ascii.eqb c newline) (_ics_escape a) = true)
  /\ (forall a,
        none_of (fun c => Ascii.eqb c "\" || Ascii.eqb c ";"
                          || Ascii.eqb c "," || Ascii.eqb c newline)
          (unescaped_part (_ics_escape a)) = true)
  /\ (forall a,
        (String.length a <= String.length (_ics_escape a)
         <= 2 * String.length a)%nat).
Proof.
  split; [exact _ics_escape_app|].
  split; [exact _ics_escape_injective|].
  split; [exact _ics_escape_no_newline|]. split.
  - intros a. induction a as [|c a IH]; [reflexivity|].
    rewrite _ics_escape_cons.
    destruct (escaped_char_cases c) as [(E & C1 & C2 & C3 & C4)|(m & E & _)];
      rewrite E, ?append_cons, ?append_nil_l; cbn [unescaped_part].
    + apply Ascii.eqb_neq in C1, C2, C3, C4. rewrite C1. cbn [none_of].
      rewrite C1, C2, C3, C4. exact IH.
    + rewrite Ascii.eqb_refl. exact IH.
  - intros a. induction a as [|c a IH]; [simpl; lia|].
    rewrite _ics_escape_cons, length_append. cbn [String.length].
    destruct (escaped_char_cases c) as [(E & _)|(m & E & _)];
      rewrite E; cbn [String.length]; lia.
Qed.

(** ** Date flags *)

Lemma add_days_inv (d k r : Z) :
  add_days d k = Ok r -> r = (d + k)%Z /\ (1 <= r <= MAX_ORDINAL)%Z.
Proof.
  unfold add_days, valid_date.
  destruct (MAX_DELTA_DAYS <? Z.abs k)%Z; [discriminate|].
  destruct (1 <=? d + k)%Z eqn:E1; [|discriminate].
  destruct (d + k <=? MAX_ORDINAL)%Z eqn:E2; [|discriminate].
  cbn [andb]. intros H. inversion H; subst r.
  apply Z.leb_le in E1, E2. lia.
Qed.

Lemma days_back_inv (now days a b : Z) :
  days_back now days = Ok (a, b) ->
  b = now /\ (b - a = Z.max days 0)%Z /\ (1 <= a)%Z.
Proof.
  unfold days_back.
  destruct (add_days now (- Z.max days 0)) as [start|e] eqn:E;
    [|discriminate].
  cbn [bind]. intros H. inversion H; subst a b.
  apply add_days_inv in E. lia.
Qed.

Lemma week_from_inv (start a b : Z) :
  week_from start = Ok (a, b) -> a = start /\ b = (a + 6)%Z.
Proof.
  unfold week_from. destruct (add_days start 6) as [last|e] eqn:E;
    [|discriminate].
  cbn [bind]. intros H. inversion H; subst a b.
  apply add_days_inv in E. lia.
Qed.

Lemma weekday_range (d : Z) : (0 <= weekday d < 7)%Z.
Proof. unfold weekday. apply Z.mod_pos_bound. lia. Qed.

Lemma weekday_of_monday (d : Z) : weekday (d - weekday d) = 0%Z.
Proof.
  unfold weekday.
  replace (d - (d + 6) mod 7 + 6)%Z with ((d + 6) - (d + 6) mod 7)%Z by lia.
  rewrite Zminus_mod, Z.mod_mod, Z.sub_diag by lia. reflexivity.
Qed.

Lemma weekday_week_before (d : Z) : weekday (d - 7) = weekday d.
Proof.
  unfold weekday. replace (d - 7 + 6)%Z with (d + 6 + (-1) * 7)%Z by lia.
  apply Z.mod_add. lia.
Qed.

(** X29.  Without explicit dates and without [this_month], [this_year]
    and [all_time], a range that [resolve_date_range] returns starts no
    later than it ends and no later than today.  A count of days, weeks or
    months (the first of them that is not 0) gives the [n], [7 n] or
    [30 n] days that end today, a single day when the count is negative;
    [this_week] gives the Monday to Sunday around today, so it can end
    after today; [last_week] the Monday to Sunday before that; no flag the
    30 days that end today.  Two explicit dates are returned as they parse,
    in whatever order they are and whatever the other flags; when the
    first is after the second, the fetch that follows has no chunk to
    ask for. *)
Theorem resolve_date_range_windows
    (parse_date : string -> option Z)
    (month_start : Z -> Z) (next_month_start : Z -> option Z)
    (year_start year_end : Z -> Z)
    (flags : date_flags) (now : Z) :
  let resolve :=
    resolve_date_range parse_date month_start next_month_start year_start
      year_end in
  (forall a b,
      text_given (start_date flags) = None ->
      text_given (end_date flags) = None ->
      this_month flags = false -> this_year flags = false ->
      all_time flags = false ->
      resolve flags now = Ok (a, b) ->
      (a <= b /\ a <= now)%Z
      /\ (forall n, count_given (last_days flags) = Some n ->
                    b = now /\ (b - a + 1 = Z.max n 1)%Z)
      /\ (forall n, count_given (last_days flags) = None ->
                    count_given (last_weeks flags) = Some n ->
                    b = now /\ (b - a + 1 = Z.max (7 * n) 1)%Z)
      /\ (forall n, count_given (last_days flags) = None ->
                    count_given (last_weeks flags) = None ->
                    count_given (last_months flags) = Some n ->
                    b = now /\ (b - a + 1 = Z.max (30 * n) 1)%Z)
      /\ (count_given (last_days flags) = None ->
          count_given (last_weeks flags) = None ->
          count_given (last_months flags) = None ->
          (this_week flags = true ->
           weekday a = 0 /\ b = a + 6 /\ a <= now <= b)
          /\ (this_week flags = false -> last_week flags = true ->
              weekday a = 0 /\ b = a + 6 /\ b < now <= b + 7)
          /\ (this_week flags = false -> last_week flags = false ->
              b = now /\ b - a + 1 = 30))%Z)
  /\ (forall first last a b,
        text_given (start_date flags) = Some first ->
        text_given (end_date flags) = Some last ->
        parse_date first = Some a -> parse_date last = Some b ->
        resolve flags now = Ok (a, b)
        /\ ((b < a)%Z -> chunks_of a b 90 = [])).
Proof.
  intros resolve. subst resolve. split.
  - intros a b Hs He Hm Hy Hall H. unfold resolve_date_range in H.
    rewrite Hs, He, Hm, Hy, Hall in H.
    pose proof (weekday_range now) as Hwd.
    destruct (count_given (last_days flags)) as [n|] eqn:Ed.
    { apply days_back_inv in H as (-> & Hlen & Ha).
      split; [lia|]. split; [intros n' Hn'; inversion Hn'; subst n'; lia|].
      split; [intros n' Hn; discriminate Hn|].
      split; [intros n' Hn; discriminate Hn|]. intros Hn. discriminate Hn. }
    destruct (count_given (last_weeks flags)) as [n|] eqn:Ew.
    { apply days_back_inv in H as (-> & Hlen & Ha).
      split; [lia|]. split; [intros n' Hn'; discriminate Hn'|].
      split; [intros n' _ Hn'; inversion Hn'; subst n'; lia|].
      split; [intros n' _ Hn; discriminate Hn|]. intros _ Hn.
      discriminate Hn. }
    destruct (count_given (last_months flags)) as [n|] eqn:Em.
    { apply days_back_inv in H as (-> & Hlen & Ha).
      split; [lia|]. split; [intros n' Hn'; discriminate Hn'|].
      split; [intros n' _ Hn'; discriminate Hn'|].
      split; [intros n' _ _ Hn'; inversion Hn'; subst n'; lia|].
      intros _ _ Hn. discriminate Hn. }
    assert (Hshape :
              ((this_week flags = true ->
                weekday a = 0 /\ b = a + 6 /\ a <= now <= b)
               /\ (this_week flags = false -> last_week flags = true ->
                   weekday a = 0 /\ b = a + 6 /\ b < now <= b + 7)
               /\ (this_week flags = false -> last_week flags = false ->
                   b = now /\ b - a + 1 = 30))%Z).
    { destruct (this_week flags).
      - destruct (add_days now (- weekday now)) as [start|e] eqn:Es;
          [|discriminate H].
        cbn [bind] in H. apply week_from_inv in H as (-> & ->).
        apply add_days_inv in Es as [-> _].
        split; [|split; [discriminate|discriminate]]. intros _.
        split; [apply weekday_of_monday|]. lia.
      - destruct (last_week flags).
        + destruct (add_days now (- weekday now)) as [monday|e] eqn:Es;
            [|discriminate H].
          cbn [bind] in H.
          destruct (add_days monday (- 7)) as [start|e] eqn:Ep;
            [|discriminate H].
          cbn [bind] in H. apply week_from_inv in H as (-> & ->).
          apply add_days_inv in Es as [-> _].
          apply add_days_inv in Ep as [-> _].
          split; [discriminate|]. split; [|discriminate]. intros _ _.
          split; [|lia].
          replace (now + - weekday now + -7)%Z
            with ((now - weekday now) - 7)%Z by lia.
          rewrite weekday_week_before. apply weekday_of_monday.
        + destruct (add_days now (- 29)) as [start|e] eqn:Es;
            [|discriminate H].
          cbn [bind] in H. inversion H; subst a b.
          apply add_days_inv in Es as [-> _].
          split; [discriminate|]. split; [discriminate|]. intros _ _. lia. }
    split.
    + destruct Hshape as (H1 & H2 & H3).
      destruct (this_week flags); [destruct (H1 eq_refl) as (_ & ? & ?); lia|].
      destruct (last_week flags);
        [destruct (H2 eq_refl eq_refl) as (_ & ? & ?); lia|].
      destruct (H3 eq_refl eq_refl). lia.
    + split; [intros n Hn; discriminate Hn|].
      split; [intros n _ Hn; discriminate Hn|].
      split; [intros n _ _ Hn; discriminate Hn|]. intros _ _ _. exact Hshape.
  - intros first last a b Hs He Ha Hb. split.
    + unfold resolve_date_range, date_of. rewrite Hs, He, Ha, Hb. reflexivity.
    + intros Hlt. unfold chunks_of, chunk_count.
      replace (a <=? b)%Z with false by (symmetry; apply Z.leb_gt; lia).
      reflexivity.
Qed.

Lemma resolve_date_range_windows_witness :
  resolve_date_range (fun _ => None) no_calendar (fun _ => None) no_calendar
    no_calendar this_week_flags sample_today
  = Ok (739656, 739662)%Z
  /\ weekday 739656 = 0%Z.
Proof.
  assert (H : resolve_date_range (fun _ => None) no_calendar (fun _ => None)
                no_calendar no_calendar this_week_flags sample_today
              = Ok (739656, 739662)%Z) by (vm_compute; reflexivity).
  split; [exact H|].
  destruct (resolve_date_range_windows (fun _ => None) no_calendar
              (fun _ => None) no_calendar no_calendar this_week_flags
              sample_today) as [Hrel _].
  destruct (Hrel 739656 739662 eq_refl eq_refl eq_refl eq_refl eq_refl H)%Z
    as (_ & _ & _ & _ & Hweek).
  destruct (Hweek eq_refl eq_refl eq_refl) as (Hthis & _).
  apply Hthis. reflexivity.
Defined.
